(** * k6 performance observatory: metric extraction, SLA validation,
      run history and trend/severity assessment

    A shallow embedding of
      - [extractK6Metrics]    (src/core/k6Runner.js),
      - [validateAgainstSLA]  (src/core/slaValidator.js),
      - [saveToHistory]       (src/utils/reporter.js),
      - the run comparison and the alert severity assessment computed
        inside [generateHtmlReport] (src/utils/reporter.js),
    together with the part of the JavaScript value model these functions
    rely on, and, in a second part, of the functions around them:
      - [getSeverity] and the choice of the notification channels
        (src/utils/notifier.js),
      - [calculateAverage], [calculateMax], the retry loops of
        [queryPrometheusRange] and [queryPrometheusInstant] and the
        summary of [getSystemHealthSummary] (src/utils/prometheus.js),
      - [queryObservability] of the driver (index.js),
      - [generateJUnitReport], [generateJsonReport], the status and the
        chart data of [generateHtmlReport] (src/utils/reporter.js),
      - [selectScenario] of the load script (src/tests/load_test.js).

    Modelling decisions:
      - A payload, a configuration and a stored history are JSON values;
        a function that reads them returns a [result], which is either
        the value it returns or the TypeError it raises.
      - Numbers are IEEE-754 binary64 values (Rocq's primitive floats),
        so arithmetic and comparisons are the ones JavaScript performs.
      - The conversions between numbers and text that ECMAScript
        specifies (Number::toString, Number.prototype.toFixed,
        StringToNumber and parseFloat) are an interface, [Builtins]:
        every general theorem holds for every implementation of it.
        [Reference.builtins] implements it and is used to evaluate the
        program on concrete inputs.
      - A string is a sequence of code units below 256, as in the
        Standard Library.
      - What the functions print with [console.log] is not modelled,
        the exceptions that building the printed text can raise are.
      - What a function awaits or reads from outside (the replies to
        its requests, the environment, the clock, a random number) is
        an argument of its model; what it does to the outside (its
        requests, its pauses) is returned as a trace. *)

From Stdlib Require Import Floats ZArith NArith String Ascii List Bool Lia.
From Stdlib Require Import DecimalString.
From Stdlib Require Import Permutation.
Import ListNotations.
Local Open Scope string_scope.
Local Open Scope list_scope.

(* ================================================================== *)
(** * JavaScript values *)
(* ================================================================== *)

Module JS.

(** The values a parsed JSON text can hold, and [undefined].  The
    property list of an object is kept in creation order. *)
#[warnings="-register-all"]
Inductive value : Type :=
| VUndefined
| VNull
| VBool (b : bool)
| VNumber (x : float)
| VString (s : string)
| VArray (elements : list value)
| VObject (properties : list (string * value)).

Definition props := list (string * value).

(** Abrupt completion: the only exception the modelled code can raise
    by itself is a [TypeError] (reading a property of [undefined] or
    [null], calling something that is not a function, converting an
    object that has no usable [toString]). *)
Inductive exception : Type := TypeError.

Inductive result (A : Type) : Type :=
| Ok (a : A)
| Throw (e : exception).
Arguments Ok {A} a.
Arguments Throw {A} e.

Definition bind {A B} (c : result A) (k : A -> result B) : result B :=
  match c with
  | Ok a => k a
  | Throw e => Throw e
  end.

(** The text/number conversions of the ECMAScript standard library. *)
Class Builtins : Type := {
  (** Number::toString(x, 10) *)
  Number_toString : float -> string;
  (** Number.prototype.toFixed, for 0 <= digits <= 100 *)
  Number_toFixed : float -> nat -> string;
  (** StringToNumber, the conversion behind ToNumber on a string *)
  StringToNumber : string -> float;
  (** parseFloat on a string argument *)
  parseFloat_string : string -> float
}.

Definition NaN : float := PrimFloat.nan.

(** The Number value of a length or a count. *)
Definition number_of_nat (n : nat) : float :=
  PrimFloat.of_uint63 (Uint63.of_Z (Z.of_nat n)).

Definition string_of_N (n : N) : string :=
  NilZero.string_of_uint (N.to_uint n).

(** ToBoolean *)
Definition truthy (v : value) : bool :=
  match v with
  | VUndefined | VNull => false
  | VBool b => b
  | VNumber x => negb (PrimFloat.is_nan x || PrimFloat.eqb x 0)
  | VString s => negb (s =? "")
  | VArray _ | VObject _ => true
  end.

(** [a || b], for operands whose evaluation cannot raise. *)
Definition js_or (a b : value) : value := if truthy a then a else b.

Definition nullish (v : value) : bool :=
  match v with
  | VUndefined | VNull => true
  | _ => false
  end.

(** [v !== undefined] *)
Definition is_defined (v : value) : bool :=
  match v with
  | VUndefined => false
  | _ => true
  end.

(** ** Property keys and their enumeration order *)

(** An array index is the canonical decimal numeral of an integer below
    2^32 - 1. *)
Definition array_index (k : string) : option N :=
  match NilZero.uint_of_string k with
  | Some u =>
      let n := N.of_uint u in
      if (string_of_N n =? k) && (n <? 4294967295)%N then Some n else None
  | None => None
  end.

Definition is_array_index (k : string) : bool :=
  match array_index k with
  | Some _ => true
  | None => false
  end.

Fixpoint lookup (k : string) (ps : props) : option value :=
  match ps with
  | [] => None
  | (k', v) :: rest => if k' =? k then Some v else lookup k rest
  end.

Definition has_key (k : string) (ps : props) : bool :=
  match lookup k ps with
  | Some _ => true
  | None => false
  end.

(** The value of own property [k], [undefined] when there is none. *)
Definition prop (k : string) (ps : props) : value :=
  match lookup k ps with
  | Some v => v
  | None => VUndefined
  end.

(** [o[k] = v] on an ordinary object: an existing property keeps its
    place, a new one is created last. *)
Fixpoint obj_set (k : string) (v : value) (ps : props) : props :=
  match ps with
  | [] => [(k, v)]
  | (k', v') :: rest =>
      if k' =? k then (k, v) :: rest else (k', v') :: obj_set k v rest
  end.

(** [o[k] = v] on an object literal, for a value [v] that is an
    object: the key [__proto__] names no property of its own, and the
    assignment creates none (it replaces the prototype). *)
Definition assign (k : string) (v : value) (o : props) : props :=
  if k =? "__proto__" then o else obj_set k v o.

(** The keys in creation order, each once. *)
Fixpoint created_keys (ps : props) : list string :=
  match ps with
  | [] => []
  | (k, _) :: rest =>
      k :: filter (fun k' => negb (k' =? k)) (created_keys rest)
  end.

Fixpoint insert_sorted (n : N) (l : list N) : list N :=
  match l with
  | [] => [n]
  | m :: rest => if (n <=? m)%N then n :: l else m :: insert_sorted n rest
  end.

Definition sort_indices (l : list N) : list N :=
  fold_right insert_sorted [] l.

Fixpoint index_values (ks : list string) : list N :=
  match ks with
  | [] => []
  | k :: rest =>
      match array_index k with
      | Some n => n :: index_values rest
      | None => index_values rest
      end
  end.

(** OrdinaryOwnPropertyKeys: array indices in ascending numeric order,
    then the other keys in creation order. *)
Definition own_keys (ps : props) : list string :=
  let ks := created_keys ps in
  map string_of_N (sort_indices (index_values ks))
    ++ filter (fun k => negb (is_array_index k)) ks.

Definition entries (ps : props) : list (string * value) :=
  map (fun k => (k, prop k ps)) (own_keys ps).

Fixpoint indexed_from {A} (i : N) (l : list A) : list (string * A) :=
  match l with
  | [] => []
  | x :: rest => (string_of_N i, x) :: indexed_from (N.succ i) rest
  end.

(** The element at an index, [undefined] past the end. *)
Definition element (i : N) (l : list value) : value :=
  if (i <? N.of_nat (List.length l))%N then nth (N.to_nat i) l VUndefined
  else VUndefined.

(** The code units of a string, as one-character strings. *)
Fixpoint chars (s : string) : list value :=
  match s with
  | EmptyString => []
  | String c rest => VString (String c EmptyString) :: chars rest
  end.

(** The own enumerable string-keyed properties of a value, in the
    order [Object.keys], [Object.values] and object spread visit them.
    Primitives other than strings have none. *)
Definition own_props (v : value) : list (string * value) :=
  match v with
  | VObject ps => entries ps
  | VArray l => indexed_from 0 l
  | VString s => indexed_from 0 (chars s)
  | _ => []
  end.

(** [{ ...target, ...source }], one source at a time
    (CopyDataProperties: [undefined] and [null] contribute nothing). *)
Definition spread_into (target : props) (source : value) : props :=
  fold_left (fun o e => obj_set (fst e) (snd e) o) (own_props source) target.

(** [v.k] / [v[k]]: reading a property of [undefined] or [null] raises;
    other values answer with their own property, or [undefined].

    Only own properties are modelled.  A member inherited from a
    built-in prototype ([constructor], [toString], [push], ...) is a
    function object, which no JSON text denotes: for such a name, on a
    value that does not own it, JavaScript answers with a function where
    this model answers [undefined].  None of the property names the
    modelled code spells out is such a member.  Two names are computed:
    the profile name, where a function behaves as [undefined] does (it
    spreads no property), and the metric names of a run record, where
    the reads that tell the two apart test [inherits] first. *)
Definition get (v : value) (k : string) : result value :=
  match v with
  | VUndefined | VNull => Throw TypeError
  | VObject ps => Ok (prop k ps)
  | VArray l =>
      if k =? "length" then Ok (VNumber (number_of_nat (List.length l)))
      else match array_index k with
           | Some i => Ok (element i l)
           | None => Ok VUndefined
           end
  | VString s =>
      if k =? "length" then Ok (VNumber (number_of_nat (String.length s)))
      else match array_index k with
           | Some i => Ok (element i (chars s))
           | None => Ok VUndefined
           end
  | VBool _ | VNumber _ => Ok VUndefined
  end.

(** The members of [Object.prototype]: each is a function, and
    [__proto__] reads as the prototype itself. *)
Definition Object_prototype_members : list string :=
  ["constructor"; "hasOwnProperty"; "isPrototypeOf"; "propertyIsEnumerable";
   "toLocaleString"; "toString"; "valueOf"; "__proto__";
   "__defineGetter__"; "__defineSetter__";
   "__lookupGetter__"; "__lookupSetter__"].

(** [v[k]] is a member that [v] inherits from [Object.prototype]: a
    truthy value that has no property of a run record.  An object
    inherits the member unless it owns the name; the other values own
    indices and [length] only.  (The further members of the prototypes
    of arrays, strings, Numbers and Booleans are not listed.) *)
Definition inherits (v : value) (k : string) : bool :=
  existsb (String.eqb k) Object_prototype_members
  && match v with
     | VObject ps => negb (has_key k ps)
     | _ => true
     end.

(** [Object.keys(v)] *)
Definition Object_keys (v : value) : result (list string) :=
  match v with
  | VUndefined | VNull => Throw TypeError
  | _ => Ok (map fst (own_props v))
  end.

(** [s.includes(needle)] *)
Fixpoint includes (s needle : string) : bool :=
  String.prefix needle s
  || match s with
     | EmptyString => false
     | String _ rest => includes rest needle
     end.

(** ** Conversions *)

Section Conversions.
Context {B : Builtins}.

(** ToString.  An array is joined with commas, [undefined] and [null]
    elements giving the empty string.  An object read from JSON has no
    callable members of its own: it converts to ["[object Object]"]
    through the inherited [toString], unless an own property named
    [toString] hides that one, and then no conversion exists. *)
Fixpoint ToString (v : value) : result string :=
  match v with
  | VUndefined => Ok "undefined"
  | VNull => Ok "null"
  | VBool true => Ok "true"
  | VBool false => Ok "false"
  | VNumber x => Ok (Number_toString x)
  | VString s => Ok s
  | VArray l =>
      (fix join (l : list value) : result string :=
         match l with
         | [] => Ok ""
         | e :: rest =>
             bind (match e with
                   | VUndefined | VNull => Ok ""
                   | _ => ToString e
                   end)
               (fun s =>
                  match rest with
                  | [] => Ok s
                  | _ => bind (join rest) (fun r => Ok (s ++ "," ++ r)%string)
                  end)
         end) l
  | VObject ps =>
      if has_key "toString" ps then Throw TypeError else Ok "[object Object]"
  end.

(** ToNumber: arrays and objects go through their string form. *)
Definition ToNumber (v : value) : result float :=
  match v with
  | VUndefined => Ok NaN
  | VNull => Ok 0%float
  | VBool true => Ok 1%float
  | VBool false => Ok 0%float
  | VNumber x => Ok x
  | VString s => Ok (StringToNumber s)
  | VArray _ | VObject _ => bind (ToString v) (fun s => Ok (StringToNumber s))
  end.

(** [x <= v], [x >= v] and [x > v] with a Number on the left: the
    right operand is converted to a Number, and a comparison with NaN
    is false. *)
Definition number_le (x : float) (v : value) : result bool :=
  bind (ToNumber v) (fun y => Ok (PrimFloat.leb x y)).

Definition number_ge (x : float) (v : value) : result bool :=
  bind (ToNumber v) (fun y => Ok (PrimFloat.leb y x)).

Definition number_gt (x : float) (v : value) : result bool :=
  bind (ToNumber v) (fun y => Ok (PrimFloat.ltb y x)).

(** [v * y] with a Number on the right. *)
Definition times (v : value) (y : float) : result float :=
  bind (ToNumber v) (fun x => Ok (PrimFloat.mul x y)).

(** [parseFloat(v)]: the argument is converted to a string first. *)
Definition parseFloat (v : value) : result float :=
  bind (ToString v) (fun s => Ok (parseFloat_string s)).

(** [v.toFixed(digits)]: only a Number has the method. *)
Definition toFixed (v : value) (digits : nat) : result string :=
  match v with
  | VNumber x => Ok (Number_toFixed x digits)
  | _ => Throw TypeError
  end.

End Conversions.

(** ** JSON.stringify followed by JSON.parse *)

(** The value that the text [JSON.stringify(v)] denotes: a member whose
    value is [undefined] is left out, an [undefined] array element and
    a NaN or infinite number become [null], and -0 becomes 0. *)
Fixpoint JSON_value (v : value) : value :=
  match v with
  | VNumber x =>
      if PrimFloat.is_finite x
      then (if PrimFloat.eqb x 0 then VNumber 0 else VNumber x)
      else VNull
  | VArray l =>
      VArray (map (fun e => match e with
                            | VUndefined => VNull
                            | _ => JSON_value e
                            end) l)
  | VObject ps =>
      VObject
        ((fix members (ps : props) : props :=
            match ps with
            | [] => []
            | (k, v) :: rest =>
                match v with
                | VUndefined => []
                | _ => [(k, JSON_value v)]
                end ++ filter (fun e => negb (fst e =? k)) (members rest)
            end) ps)
  | _ => v
  end.

(** What an array element becomes in the text. *)
Definition JSON_element (e : value) : value :=
  match e with
  | VUndefined => VNull
  | _ => JSON_value e
  end.

End JS.

Import JS.

Declare Scope js_scope.
Notation "x <- c ;; k" := (bind c (fun x => k))
  (at level 61, c at next level, right associativity) : js_scope.
Local Open Scope js_scope.

(* ================================================================== *)
(** * The data model *)
(* ================================================================== *)

(** One entry of [metrics.checksData]. *)
Module CheckData.
Record t : Type := {
  name : value;
  passes : value;
  fails : value
}.
End CheckData.

(** One entry of [metrics.endpoints]; [avgDur] is the text produced by
    [toFixed(2)], or the number 0. *)
Module Endpoint.
Record t : Type := {
  name : string;
  avgDur : value
}.
End Endpoint.

(** The object [extractK6Metrics] returns.  The seven fields typed
    [float] are the ones the function formats with [toFixed(2)] before
    it returns: that call raises unless the field holds a Number, so a
    returned object holds Numbers there.  The remaining scalar fields
    hold whatever truthy value the payload carried, or 0. *)
Record K6Metrics : Type := {
  p50ResponseTime : float;
  p90ResponseTime : float;
  p95ResponseTime : float;
  p99ResponseTime : float;
  avgResponseTime : float;
  minResponseTime : value;
  maxResponseTime : value;
  errorRate : float;
  throughput : float;
  totalRequests : value;
  iterations : value;
  checksData : list CheckData.t;
  endpoints : list Endpoint.t
}.

(** The infrastructure summary built by [queryObservability]: each
    field is the text of a number, or the sentinel ["N/A"]. *)
Record InfraMetrics : Type := {
  avgCpuUsage : string;
  maxCpuUsage : string;
  avgMemoryUsage : string;
  maxMemoryUsage : string
}.

(** One element of the list [validateAgainstSLA] returns. *)
Record ValidationResult : Type := {
  metric : string;
  actual : string;
  threshold : string;
  passed : bool
}.

(** One row of the run comparison. *)
Module Comparison.
Record t : Type := {
  metric : string;
  current : float;
  previous : float;
  delta : string;
  isImproved : bool
}.
End Comparison.

(** The [metadata] argument of the report functions, as
    [generateArtifacts] builds it.  A member that is not supplied is
    [undefined] ([None] for [k6Metrics]). *)
Module Metadata.
Record t : Type := {
  profile : value;
  targetUrl : value;
  duration : value;
  k6Metrics : option K6Metrics;
  slaConfig : value
}.
End Metadata.

(** The history file as [saveToHistory] finds it: absent, present but
    unreadable as JSON, or holding the text of a JSON value. *)
Inductive HistoryFile : Type :=
| NoFile
| Unparseable
| Stored (v : value).

(** The receiver of a [toFixed] call that returned. *)
Definition toFixed_receiver (v : value) : result float :=
  match v with
  | VNumber x => Ok x
  | _ => Throw TypeError
  end.

(* ================================================================== *)
(** * The program *)
(* ================================================================== *)

Section Program.
Context {B : Builtins}.

(** ** Metric extraction (src/core/k6Runner.js) *)

(** [metric && metric.value !== undefined] *)
Definition has_value (m : value) : result bool :=
  if truthy m then v <- get m "value" ;; Ok (is_defined v) else Ok false.

(** The body of the [forEach] over the checks. *)
Definition check_entry (check : value) : result CheckData.t :=
  n <- get check "name" ;;
  p <- get check "passes" ;;
  f <- get check "fails" ;;
  Ok {| CheckData.name := js_or n (VString "Unknown Check");
        CheckData.passes := p;
        CheckData.fails := f |}.

Fixpoint forEach_check (checks : list value) : result (list CheckData.t) :=
  match checks with
  | [] => Ok []
  | c :: rest =>
      e <- check_entry c ;;
      es <- forEach_check rest ;;
      Ok (e :: es)
  end.

(** [m.avg?.toFixed(2) || 0] *)
Definition avg_text (avg : value) : result value :=
  if nullish avg then Ok (VNumber 0)
  else s <- toFixed avg 2 ;; Ok (js_or (VString s) (VNumber 0)).

Definition endpoint_entry (label : string) (m : value)
  : result (list Endpoint.t) :=
  if truthy m
  then avg <- get m "avg" ;;
       d <- avg_text avg ;;
       Ok [ {| Endpoint.name := label; Endpoint.avgDur := d |} ]
  else Ok [].

(** The latency fields after
    [if (summary.metrics.http_req_duration) { ... }]:
    p50, p90, p95, p99, avg, min and max, each 0 unless the block
    assigns it. *)
Definition latency_fields (duration : value)
  : result (value * value * value * value * value * value * value) :=
  let zero := VNumber 0 in
  if truthy duration then
    med <- get duration "med" ;;
    p50 <- get duration "p(50)" ;;
    p90 <- get duration "p(90)" ;;
    p95 <- get duration "p(95)" ;;
    p99 <- get duration "p(99)" ;;
    avg <- get duration "avg" ;;
    min <- get duration "min" ;;
    max <- get duration "max" ;;
    Ok (js_or med (js_or p50 zero), js_or p90 zero, js_or p95 zero,
        js_or p99 zero, js_or avg zero, js_or min zero, js_or max zero)
  else Ok (zero, zero, zero, zero, zero, zero, zero).

(** [metrics.errorRate] after
    [if (errors && errors.value !== undefined) { ... }
     else if (http_req_failed && http_req_failed.value !== undefined) { ... }],
    where [m] is [summary.metrics]. *)
Definition error_rate (m : value) : result float :=
  errors <- get m "errors" ;;
  explicit <- has_value errors ;;
  if explicit then v <- get errors "value" ;; times v 100
  else
    failed <- get m "http_req_failed" ;;
    fallback <- has_value failed ;;
    if fallback then v <- get failed "value" ;; times v 100
    else Ok 0%float.

(** [throughput] and [totalRequests] after
    [if (summary.metrics.http_reqs) { ... }]. *)
Definition traffic_fields (reqs : value) : result (value * value) :=
  let zero := VNumber 0 in
  if truthy reqs then
    r <- get reqs "rate" ;;
    c <- get reqs "count" ;;
    Ok (js_or r zero, js_or c zero)
  else Ok (zero, zero).

(** [iterations] after [if (summary.metrics.iterations) { ... }]. *)
Definition iteration_count (its : value) : result value :=
  if truthy its then c <- get its "count" ;; Ok (js_or c (VNumber 0))
  else Ok (VNumber 0).

(** [metrics.checksData]: the checks of [summary.root_group], given as
    an array or as an object whose values are the checks. *)
Definition checks_data (summary : value) : result (list CheckData.t) :=
  root_group <- get summary "root_group" ;;
  if truthy root_group then
    checks <- get root_group "checks" ;;
    match checks with
    | VArray l => forEach_check l
    | VObject ps => forEach_check (map snd (entries ps))
    | _ => Ok []
    end
  else Ok [].

Definition extractK6Metrics (summary : value) : result K6Metrics :=
  m <- get summary "metrics" ;;
  duration <- get m "http_req_duration" ;;
  latency <- latency_fields duration ;;
  let '(p50, p90, p95, p99, avg, min, max) := latency in
  rate <- error_rate m ;;
  reqs <- get m "http_reqs" ;;
  traffic <- traffic_fields reqs ;;
  let '(tput, total) := traffic in
  its <- get m "iterations" ;;
  iters <- iteration_count its ;;
  checks <- checks_data summary ;;
  (* metrics.endpoints *)
  browse <- get m "browse_duration" ;;
  e1 <- endpoint_entry "GET /posts (Browse/List)" browse ;;
  api <- get m "api_duration" ;;
  e2 <- endpoint_entry "API Dynamic endpoints (GET/POST)" api ;;
  (* console.log(... metrics.<field>.toFixed(2) ...) *)
  p50n <- toFixed_receiver p50 ;;
  p90n <- toFixed_receiver p90 ;;
  p95n <- toFixed_receiver p95 ;;
  p99n <- toFixed_receiver p99 ;;
  avgn <- toFixed_receiver avg ;;
  tputn <- toFixed_receiver tput ;;
  (* console.log(`... ${metrics.totalRequests}`) *)
  _ <- ToString total ;;
  Ok {| p50ResponseTime := p50n;
        p90ResponseTime := p90n;
        p95ResponseTime := p95n;
        p99ResponseTime := p99n;
        avgResponseTime := avgn;
        minResponseTime := min;
        maxResponseTime := max;
        errorRate := rate;
        throughput := tputn;
        totalRequests := total;
        iterations := iters;
        checksData := checks;
        endpoints := e1 ++ e2 |}.

(** ** SLA validation (src/core/slaValidator.js) *)

(** The local [performanceSla]:
    [{ ...slaConfig.performance, ...(slaConfig.profiles[runProfile] || {}) }]. *)
Definition performanceSla (runProfile : string) (slaConfig : value)
  : result props :=
  profiles <- get slaConfig "profiles" ;;
  selected <- get profiles runProfile ;;
  let profileSla := js_or selected (VObject []) in
  performance <- get slaConfig "performance" ;;
  Ok (spread_into (spread_into [] performance) profileSla).

(** One pushed element: the bound is rendered into the threshold text
    and then compared with the measurement. *)
Definition upper_bound_check (name : string) (x : float) (bound : value)
  : result ValidationResult :=
  text <- ToString bound ;;
  ok <- number_le x bound ;;
  Ok {| metric := name;
        actual := Number_toFixed x 2;
        threshold := ("<= " ++ text)%string;
        passed := ok |}.

Definition lower_bound_check (name : string) (x : float) (bound : value)
  : result ValidationResult :=
  text <- ToString bound ;;
  ok <- number_ge x bound ;;
  Ok {| metric := name;
        actual := Number_toFixed x 2;
        threshold := (">= " ++ text)%string;
        passed := ok |}.

(** An infrastructure check: [actual] is the text as received, and the
    comparison is made on [parseFloat] of it. *)
Definition infra_check (name : string) (usage : string) (infraSla : value)
  (key : string) : result (list ValidationResult) :=
  if negb (usage =? "N/A")%string then
    bound <- get infraSla key ;;
    text <- ToString bound ;;
    x <- parseFloat (VString usage) ;;
    ok <- number_le x bound ;;
    Ok [ {| metric := name;
            actual := usage;
            threshold := ("<= " ++ text)%string;
            passed := ok |} ]
  else Ok [].

Definition validateAgainstSLA (k6Metrics : K6Metrics)
  (infraMetrics : InfraMetrics) (runProfile : string) (slaConfig : value)
  : result (list ValidationResult) :=
  sla <- performanceSla runProfile slaConfig ;;
  infraSla <- get slaConfig "infrastructure" ;;
  (* Response Time Validations *)
  r50 <- upper_bound_check "P50 Response Time (ms)"
           (p50ResponseTime k6Metrics)
           (js_or (prop "p50_response_time_ms" sla) (VNumber 200)) ;;
  r90 <- upper_bound_check "P90 Response Time (ms)"
           (p90ResponseTime k6Metrics)
           (js_or (prop "p90_response_time_ms" sla) (VNumber 400)) ;;
  r95 <- upper_bound_check "P95 Response Time (ms)"
           (p95ResponseTime k6Metrics)
           (prop "p95_response_time_ms" sla) ;;
  r99 <- upper_bound_check "P99 Response Time (ms)"
           (p99ResponseTime k6Metrics)
           (js_or (prop "p99_response_time_ms" sla) (VNumber 1000)) ;;
  rerr <- upper_bound_check "Error Rate (%)"
            (errorRate k6Metrics)
            (prop "max_error_rate_percent" sla) ;;
  (* if (performanceSla.min_throughput_rps) { ... } *)
  rtput <-
    (if truthy (prop "min_throughput_rps" sla) then
       r <- lower_bound_check "Throughput (req/s)"
              (throughput k6Metrics) (prop "min_throughput_rps" sla) ;;
       Ok [r]
     else Ok []) ;;
  (* Infrastructure Validations *)
  rcpu <- infra_check "CPU Usage (%)" (avgCpuUsage infraMetrics)
            infraSla "max_cpu_usage_percent" ;;
  rmem <- infra_check "Memory Usage (%)" (avgMemoryUsage infraMetrics)
            infraSla "max_memory_usage_percent" ;;
  Ok ([r50; r90; r95; r99; rerr] ++ rtput ++ rcpu ++ rmem).

(** ** The history store (src/utils/reporter.js) *)

Definition HISTORY_LIMIT : nat := 50.

(** [entry.metrics] after the [forEach] over the validation results:
    its own properties, which an assignment under the name [__proto__]
    does not add to. *)
Definition entry_metrics (validationResults : list ValidationResult) : props :=
  fold_left
    (fun o r =>
       assign (metric r)
         (VObject [("actual", VString (actual r));
                   ("threshold", VString (threshold r));
                   ("passed", VBool (passed r))]) o)
    validationResults [].

(** The record of one run.  [now] is the reading of [Date.now()] and
    [iso] the text of [new Date().toISOString()]. *)
Definition history_entry (validationResults : list ValidationResult)
  (metadata : Metadata.t) (now : float) (iso : string) : value :=
  VObject
    [("id", VString ("run-" ++ Number_toString now)%string);
     ("timestamp", VString iso);
     ("profile", js_or (Metadata.profile metadata) (VString "default"));
     ("targetUrl", Metadata.targetUrl metadata);
     ("duration", Metadata.duration metadata);
     ("metrics", VObject (entry_metrics validationResults));
     ("passed",
      VNumber (number_of_nat
                 (List.length (filter passed validationResults))));
     ("failed",
      VNumber (number_of_nat
                 (List.length
                    (filter (fun r => negb (passed r)) validationResults))))].

(** [history.slice(-n)] *)
Definition slice_last {A} (n : nat) (l : list A) : list A :=
  skipn (List.length l - n) l.

(** [saveToHistory]: the array it returns and the file it leaves. *)
Definition saveToHistory (validationResults : list ValidationResult)
  (metadata : Metadata.t) (now : float) (iso : string) (file : HistoryFile)
  : result (list value * HistoryFile) :=
  let history :=
    match file with
    | NoFile => VArray []
    | Unparseable => VArray []
    | Stored v => v
    end in
  let entry := history_entry validationResults metadata now iso in
  (* history.push(entry) *)
  match history with
  | VArray records =>
      let history := records ++ [entry] in
      let history :=
        if (HISTORY_LIMIT <? List.length history)%nat
        then slice_last HISTORY_LIMIT history
        else history in
      Ok (history, Stored (JSON_value (VArray history)))
  | _ => Throw TypeError
  end.

(** ** The run comparison (inside generateHtmlReport) *)

(** [parseFloat(record.metrics[key].actual)]; an inherited member has
    no property [actual]. *)
Definition metric_value (record : value) (key : string) : result float :=
  m <- get record "metrics" ;;
  e <- get m key ;;
  a <- (if inherits m key then Ok VUndefined else get e "actual") ;;
  parseFloat a.

(** The body of the [forEach] over [Object.keys(current.metrics)]: the
    rows it pushes for one key.  The test [previous.metrics[key]] holds
    for a truthy own property and for an inherited member. *)
Definition compare_metric (current previous : value) (key : string)
  : result (list Comparison.t) :=
  pm <- get previous "metrics" ;;
  pk <- get pm key ;;
  if truthy pk || inherits pm key then
    currVal <- metric_value current key ;;
    prevVal <- metric_value previous key ;;
    if negb (PrimFloat.is_nan currVal) && negb (PrimFloat.is_nan prevVal)
       && negb (PrimFloat.eqb prevVal 0)
    then
      Ok [ {| Comparison.metric := key;
              Comparison.current := currVal;
              Comparison.previous := prevVal;
              Comparison.delta :=
                Number_toFixed ((currVal - prevVal) / prevVal * 100)%float 1;
              Comparison.isImproved :=
                if includes key "Throughput"
                then PrimFloat.ltb prevVal currVal
                else PrimFloat.ltb currVal prevVal |} ]
    else Ok []
  else Ok [].

Fixpoint forEach_key (f : string -> result (list Comparison.t))
  (keys : list string) : result (list Comparison.t) :=
  match keys with
  | [] => Ok []
  | k :: rest =>
      rows <- f k ;;
      more <- forEach_key f rest ;;
      Ok (rows ++ more)
  end.

(** The local [comparisons]; [None] when the history holds fewer than
    two runs and nothing is compared. *)
Definition comparisons (history : list value)
  : result (option (list Comparison.t)) :=
  let n := List.length history in
  if (2 <=? n)%nat then
    let current := nth (n - 1) history VUndefined in
    let previous := nth (n - 2) history VUndefined in
    cm <- get current "metrics" ;;
    keys <- Object_keys cm ;;
    rows <- forEach_key (compare_metric current previous) keys ;;
    Ok (Some rows)
  else Ok None.

(** ** The alert severity assessment (inside generateHtmlReport) *)

Definition default_alerts : value :=
  VObject
    [("critical", VObject [("p95_response_time_ms", VNumber 2000);
                           ("max_error_rate_percent", VNumber 10)]);
     ("warning", VObject [("p95_response_time_ms", VNumber 800);
                          ("max_error_rate_percent", VNumber 3)])].

(** [metadata.slaConfig?.alerts || { critical: ..., warning: ... }] *)
Definition alertConfig (metadata : Metadata.t) : result value :=
  configured <-
    (if nullish (Metadata.slaConfig metadata) then Ok VUndefined
     else get (Metadata.slaConfig metadata) "alerts") ;;
  Ok (js_or configured default_alerts).

(** [km.p95ResponseTime > tier.p95_response_time_ms
     || km.errorRate > tier.max_error_rate_percent] *)
Definition exceeds (km : K6Metrics) (tier : value) : result bool :=
  b95 <- get tier "p95_response_time_ms" ;;
  slow <- number_gt (p95ResponseTime km) b95 ;;
  if slow then Ok true
  else
    berr <- get tier "max_error_rate_percent" ;;
    number_gt (errorRate km) berr.

(** The local [severityLevel]; [None] when [metadata.k6Metrics] is not
    supplied and nothing is assessed. *)
Definition severityLevel (metadata : Metadata.t) : result (option string) :=
  alerts <- alertConfig metadata ;;
  match Metadata.k6Metrics metadata with
  | None => Ok None
  | Some km =>
      critical <- get alerts "critical" ;;
      over_critical <- exceeds km critical ;;
      if over_critical then Ok (Some "CRITICAL")
      else
        warning <- get alerts "warning" ;;
        over_warning <- exceeds km warning ;;
        if over_warning then Ok (Some "WARNING")
        else Ok (Some "HEALTHY")
  end.

End Program.

(* ================================================================== *)
(** * The program, continued *)
(* ================================================================== *)

(** The functions around the four above: the notifier's severity and
    channel selection (src/utils/notifier.js), the Prometheus client's
    retries and range summaries (src/utils/prometheus.js) with the
    infrastructure summary the driver derives from them
    ([queryObservability]), the JUnit and JSON reports and the chart
    data of the HTML report (src/utils/reporter.js), and the scenario
    selection of the load script. *)

(** The process environment: a variable is unset or holds a text. *)
Module Env.
Record t : Type := {
  WEBHOOK_URL : option string;
  EMAIL_ENABLED : option string;
  EMAIL_API_KEY : option string;
  EMAIL_TO : option string;
  PROMETHEUS_URL : option string
}.
End Env.

(** ToBoolean of a variable of the environment. *)
Definition is_set (variable : option string) : bool :=
  match variable with
  | Some s => negb (s =? "")
  | None => false
  end.

(** [s.split(separator)] for a separator of one code unit: the first
    piece and the pieces after it. *)
Fixpoint pieces (separator : ascii) (s : string) : string * list string :=
  match s with
  | EmptyString => (EmptyString, [])
  | String c rest =>
      let '(piece, more) := pieces separator rest in
      if Ascii.eqb c separator then (EmptyString, piece :: more)
      else (String c piece, more)
  end.

Definition String_split (separator : ascii) (s : string) : list string :=
  let '(piece, more) := pieces separator s in piece :: more.

Section Notifier.
Context {B : Builtins}.

(** ** Severity of a notification (src/utils/notifier.js) *)

(** [alertThresholds?.critical || {}] and
    [alertThresholds?.warning || {}] *)
Definition tier_thresholds (alertThresholds : value) (tier : string)
  : result value :=
  configured <-
    (if nullish alertThresholds then Ok VUndefined
     else get alertThresholds tier) ;;
  Ok (js_or configured (VObject [])).

(** One test of the loop body, which makes the function return
    ['critical'] when it holds:
    [failure.metric.includes(label) && criticalThresholds[key]] and
    then [actual >= criticalThresholds[key]]. *)
Definition reaches (failure : ValidationResult) (label key : string)
  (criticalThresholds : value) : result bool :=
  if includes (metric failure) label then
    bound <- get criticalThresholds key ;;
    if truthy bound
    then number_ge (parseFloat_string (actual failure)) bound
    else Ok false
  else Ok false.

(** The [for ... of] loop: [true] when it returns ['critical']. *)
Fixpoint critical_failure (failed : list ValidationResult)
  (criticalThresholds : value) : result bool :=
  match failed with
  | [] => Ok false
  | failure :: rest =>
      slow <- reaches failure "Response Time" "p95_response_time_ms"
                criticalThresholds ;;
      if slow then Ok true
      else
        faulty <- reaches failure "Error Rate" "max_error_rate_percent"
                    criticalThresholds ;;
        if faulty then Ok true
        else critical_failure rest criticalThresholds
  end.

Definition getSeverity (failed : list ValidationResult)
  (alertThresholds : value) : result string :=
  match failed with
  | [] => Ok "success"
  | _ :: _ =>
      criticalThresholds <- tier_thresholds alertThresholds "critical" ;;
      _ <- tier_thresholds alertThresholds "warning" ;;
      critical <- critical_failure failed criticalThresholds ;;
      if critical then Ok "critical"
      else Ok (if (1 <? List.length failed)%nat then "warning" else "info")
  end.

(** The severity [sendNotification] computes:
    [getSeverity(validationResults.filter(r => !r.passed),
                 metadata.slaConfig?.alerts)]. *)
Definition notification_severity (validationResults : list ValidationResult)
  (metadata : Metadata.t) : result string :=
  alerts <-
    (if nullish (Metadata.slaConfig metadata) then Ok VUndefined
     else get (Metadata.slaConfig metadata) "alerts") ;;
  getSeverity (filter (fun r => negb (passed r)) validationResults) alerts.

End Notifier.

(** ** Notification channels (src/utils/notifier.js) *)

(** The module constant
    [EMAIL_ENABLED = process.env.EMAIL_ENABLED === 'true']. *)
Definition EMAIL_ENABLED (env : Env.t) : bool :=
  match Env.EMAIL_ENABLED env with
  | Some s => s =? "true"
  | None => false
  end.

(** The module constant
    [EMAIL_TO = process.env.EMAIL_TO?.split(',') || []]. *)
Definition EMAIL_TO (env : Env.t) : list string :=
  match Env.EMAIL_TO env with
  | Some s => String_split "," s
  | None => []
  end.

(** The guard of the e-mail channel in [sendNotification]:
    [EMAIL_ENABLED && EMAIL_API_KEY && EMAIL_TO.length > 0]. *)
Definition email_channel (env : Env.t) : bool :=
  EMAIL_ENABLED env && is_set (Env.EMAIL_API_KEY env)
  && (0 <? List.length (EMAIL_TO env))%nat.

(** The senders [sendWebhookNotification] chooses from. *)
Inductive sender : Type :=
| sendSlackNotification
| sendDiscordNotification
| sendTeamsNotification
| sendGenericWebhook.

(** [sendWebhookNotification]: the sender it awaits for a webhook
    address. *)
Definition sendWebhookNotification (WEBHOOK_URL : string) : sender :=
  let isSlack := includes WEBHOOK_URL "slack.com" in
  let isDiscord :=
    includes WEBHOOK_URL "discord.com"
    || includes WEBHOOK_URL "discordapp.com" in
  let isTeams :=
    includes WEBHOOK_URL "office.com"
    || includes WEBHOOK_URL "webhook.office.com" in
  if isSlack then sendSlackNotification
  else if isDiscord then sendDiscordNotification
  else if isTeams then sendTeamsNotification
  else sendGenericWebhook.

(* ------------------------------------------------------------------ *)
(** ** The Prometheus client (src/utils/prometheus.js) *)

(** [v === 0] *)
Definition strictly_zero (v : value) : bool :=
  match v with
  | VNumber x => PrimFloat.eqb x 0
  | _ => false
  end.

(** [v === 'success'] *)
Definition strictly_success (v : value) : bool :=
  match v with
  | VString s => s =? "success"
  | _ => false
  end.

(** [Math.max] of Numbers: NaN when one of them is NaN, otherwise the
    largest, where +0 is larger than -0; -Infinity for no argument. *)
Fixpoint max_from (highest : float) (numbers : list float) : float :=
  match numbers with
  | [] => highest
  | x :: rest =>
      if PrimFloat.is_nan x then NaN
      else if PrimFloat.is_zero x && negb (PrimFloat.get_sign x)
              && PrimFloat.is_zero highest && PrimFloat.get_sign highest
      then max_from x rest
      else if PrimFloat.ltb highest x then max_from x rest
      else max_from highest rest
  end.

Definition Math_max (numbers : list float) : float :=
  max_from PrimFloat.neg_infinity numbers.

(** One request of the client, as the loop sees it: the promise of
    [axios.get] is rejected, or resolved with a response. *)
Inductive reply : Type :=
| Rejected
| Resolved (response : value).

(** What the loop does that can be observed from outside. *)
Inductive event : Type :=
| Request (attempt : nat)
| Sleep (ms : float).

(** The error kept in [lastError]: the one the loop creates for a
    response that is not successful, or the one the catch clause
    received. *)
Inductive failure : Type :=
| Unsuccessful
| Caught.

(** The object [queryPrometheusRange] returns:
    [{ success: true, data, query }] or
    [{ success: false, error: lastError?.message, data: [] }], where
    the message is represented by the error it belongs to. *)
Module RangeResult.
Inductive t : Type :=
| Found (data : value) (query : string)
| Failed (error : option failure).

Definition success (r : t) : bool :=
  match r with
  | Found _ _ => true
  | Failed _ => false
  end.

Definition data (r : t) : value :=
  match r with
  | Found d _ => d
  | Failed _ => VArray []
  end.
End RangeResult.

(** The members [summary], [range] and [instant] of the object
    [getSystemHealthSummary] returns; a member of the summary is [null]
    ([None]) or the text [toFixed] produced. *)
Module Health.
Record summary : Type := {
  avgCpu : option string;
  maxCpu : option string;
  avgMemory : option string;
  maxMemory : option string
}.

Record t : Type := {
  instant : value;
  cpu : value;
  memory : value;
  summary_of : summary
}.
End Health.

(** The object [queryObservability] returns: each member is the text
    of a number, or ["N/A"]. *)
Module Infrastructure.
Record t : Type := {
  avgCpuUsage : string;
  avgMemoryUsage : string;
  maxCpuUsage : string;
  maxMemoryUsage : string;
  diskIO : string;
  networkIn : string;
  networkOut : string
}.
End Infrastructure.

Section Prometheus.
Context {B : Builtins}.

(** *** Summaries of range data *)

(** [v.length === 0], for a value [v] that is not [undefined] or
    [null]: an array or a text has length 0 when it is empty, an object
    has the length it owns. *)
Definition has_length_zero (v : value) : bool :=
  match v with
  | VArray l => match l with [] => true | _ :: _ => false end
  | VString s => s =? ""
  | VObject ps => strictly_zero (prop "length" ps)
  | _ => false
  end.

(** The local [values] of [calculateAverage] and [calculateMax], or
    [None] where the function returns [null] before it reads a sample:
    [if (!rangeData || rangeData.length === 0) return null;
     const values = rangeData[0]?.values || [];
     if (values.length === 0) return null;].
    When [rangeData[0]] is an array, [values] is the iterator method
    arrays inherit, a function whose [length] is 0. *)
Definition range_values (rangeData : value) : result (option value) :=
  if negb (truthy rangeData) || has_length_zero rangeData then Ok None
  else
    first <- get rangeData "0" ;;
    match first with
    | VArray _ => Ok None
    | _ =>
        configured <-
          (if nullish first then Ok VUndefined else get first "values") ;;
        let values := js_or configured (VArray []) in
        if has_length_zero values then Ok None else Ok (Some values)
    end.

(** [parseFloat(v[1])] *)
Definition sample (v : value) : result float :=
  x <- get v "1" ;;
  parseFloat x.

(** [values.reduce((acc, v) => acc + parseFloat(v[1]), acc0)] *)
Fixpoint reduce_sum (acc : float) (values : list value) : result float :=
  match values with
  | [] => Ok acc
  | v :: rest =>
      x <- sample v ;;
      reduce_sum (acc + x)%float rest
  end.

(** [values.map(v => parseFloat(v[1]))] *)
Fixpoint map_sample (values : list value) : result (list float) :=
  match values with
  | [] => Ok []
  | v :: rest =>
      x <- sample v ;;
      xs <- map_sample rest ;;
      Ok (x :: xs)
  end.

(** Only an array has [reduce] and [map]. *)
Definition calculateAverage (rangeData : value) : result (option string) :=
  values <- range_values rangeData ;;
  match values with
  | None => Ok None
  | Some (VArray samples) =>
      sum <- reduce_sum 0 samples ;;
      Ok (Some (Number_toFixed
                  (sum / number_of_nat (List.length samples))%float 2))
  | Some _ => Throw TypeError
  end.

Definition calculateMax (rangeData : value) : result (option string) :=
  values <- range_values rangeData ;;
  match values with
  | None => Ok None
  | Some (VArray samples) =>
      xs <- map_sample samples ;;
      Ok (Some (Number_toFixed (Math_max xs) 2))
  | Some _ => Throw TypeError
  end.

(** *** Requests and retries *)

(** What the [try] block of one attempt finds in a response:
    [response.data && response.data.status === 'success'], and then
    [response.data.data.result]. *)
Definition read_response (response : value) : result (option value) :=
  data <- get response "data" ;;
  if truthy data then
    status <- get data "status" ;;
    if strictly_success status then
      inner <- get data "data" ;;
      found <- get inner "result" ;;
      Ok (Some found)
    else Ok None
  else Ok None.

(** One attempt: the result it returns, or the error it leaves in
    [lastError]. *)
Definition attempt (r : reply) : value + failure :=
  match r with
  | Rejected => inr Caught
  | Resolved response =>
      match read_response response with
      | Ok (Some found) => inl found
      | Ok None => inr Unsuccessful
      | Throw _ => inr Caught
      end
  end.

(** The loop
    [for (let attempt = n; attempt <= maxRetries; attempt++) { ... }]
    with [remaining] iterations to go.  [replies k] is the reply to the
    request of attempt [k].  The catch clause sleeps
    [RETRY_DELAY * attempt] when an iteration follows; an error that the
    [try] block creates itself does not pass through the catch
    clause. *)
Fixpoint attempts (RETRY_DELAY : float) (replies : nat -> reply)
  (n remaining : nat) (lastError : option failure)
  : (value + option failure) * list event :=
  match remaining with
  | O => (inr lastError, [])
  | S further =>
      match attempt (replies n) with
      | inl found => (inl found, [Request n])
      | inr Unsuccessful =>
          let '(r, trace) :=
            attempts RETRY_DELAY replies (S n) further (Some Unsuccessful) in
          (r, Request n :: trace)
      | inr Caught =>
          let pause :=
            match further with
            | O => []
            | S _ => [Sleep (RETRY_DELAY * number_of_nat n)%float]
            end in
          let '(r, trace) :=
            attempts RETRY_DELAY replies (S n) further (Some Caught) in
          (r, Request n :: pause ++ trace)
      end
  end.

(** [maxRetries] is an integer, as [parseInt] yields; below 1 it allows
    no attempt. *)
Definition queryPrometheusRange (RETRY_DELAY : float) (query : string)
  (maxRetries : Z) (replies : nat -> reply) : RangeResult.t * list event :=
  let '(r, trace) :=
    attempts RETRY_DELAY replies 1 (Z.to_nat maxRetries) None in
  (match r with
   | inl found => RangeResult.Found found query
   | inr lastError => RangeResult.Failed lastError
   end, trace).

Definition queryPrometheusInstant (RETRY_DELAY : float) (maxRetries : Z)
  (replies : nat -> reply) : value * list event :=
  let '(r, trace) :=
    attempts RETRY_DELAY replies 1 (Z.to_nat maxRetries) None in
  (match r with
   | inl found => found
   | inr _ => VArray []
   end, trace).

(** *** The health summary *)

(** [getSystemHealthSummary], given what its awaited calls returned:
    [metrics] from [fetchMultipleMetrics] and the two range results,
    which are asked for only when [startTime && endTime]. *)
Definition getSystemHealthSummary (metrics : value) (startTime endTime : value)
  (cpuRangeResult memRangeResult : RangeResult.t) : result Health.t :=
  let ranged := truthy startTime && truthy endTime in
  let cpuRange :=
    if ranged && RangeResult.success cpuRangeResult
    then RangeResult.data cpuRangeResult else VArray [] in
  let memoryRange :=
    if ranged && RangeResult.success memRangeResult
    then RangeResult.data memRangeResult else VArray [] in
  avgCpu <- calculateAverage cpuRange ;;
  maxCpu <- calculateMax cpuRange ;;
  avgMemory <- calculateAverage memoryRange ;;
  maxMemory <- calculateMax memoryRange ;;
  Ok {| Health.instant := metrics;
        Health.cpu := cpuRange;
        Health.memory := memoryRange;
        Health.summary_of :=
          {| Health.avgCpu := avgCpu;
             Health.maxCpu := maxCpu;
             Health.avgMemory := avgMemory;
             Health.maxMemory := maxMemory |} |}.

(** *** The infrastructure summary of the driver (queryObservability) *)

Definition unavailable : Infrastructure.t :=
  {| Infrastructure.avgCpuUsage := "N/A";
     Infrastructure.avgMemoryUsage := "N/A";
     Infrastructure.maxCpuUsage := "N/A";
     Infrastructure.maxMemoryUsage := "N/A";
     Infrastructure.diskIO := "N/A";
     Infrastructure.networkIn := "N/A";
     Infrastructure.networkOut := "N/A" |}.

(** [if (member) target = member], for a member of the summary. *)
Definition text_or (current : string) (member : option string) : string :=
  match member with
  | Some s => if s =? "" then current else s
  | None => current
  end.

(** [systemHealth.instant[name]?.value] *)
Definition instant_value (instant : value) (name : string) : result value :=
  m <- get instant name ;;
  if nullish m then Ok VUndefined else get m "value".

(** The statements of the [try] block after the [await], in order; each
    updates the object in place. *)
Definition copy_summary (s : Health.summary) (m : Infrastructure.t)
  : result Infrastructure.t :=
  Ok {| Infrastructure.avgCpuUsage :=
          text_or (Infrastructure.avgCpuUsage m) (Health.avgCpu s);
        Infrastructure.maxCpuUsage :=
          text_or (Infrastructure.maxCpuUsage m) (Health.maxCpu s);
        Infrastructure.avgMemoryUsage :=
          text_or (Infrastructure.avgMemoryUsage m) (Health.avgMemory s);
        Infrastructure.maxMemoryUsage :=
          text_or (Infrastructure.maxMemoryUsage m) (Health.maxMemory s);
        Infrastructure.diskIO := Infrastructure.diskIO m;
        Infrastructure.networkIn := Infrastructure.networkIn m;
        Infrastructure.networkOut := Infrastructure.networkOut m |}.

(** [if (instant.diskIO?.value)
       target.diskIO = instant.diskIO.value.toFixed(2)] *)
Definition copy_diskIO (instant : value) (m : Infrastructure.t)
  : result Infrastructure.t :=
  v <- instant_value instant "diskIO" ;;
  if truthy v then
    text <- toFixed v 2 ;;
    Ok {| Infrastructure.avgCpuUsage := Infrastructure.avgCpuUsage m;
          Infrastructure.maxCpuUsage := Infrastructure.maxCpuUsage m;
          Infrastructure.avgMemoryUsage := Infrastructure.avgMemoryUsage m;
          Infrastructure.maxMemoryUsage := Infrastructure.maxMemoryUsage m;
          Infrastructure.diskIO := text;
          Infrastructure.networkIn := Infrastructure.networkIn m;
          Infrastructure.networkOut := Infrastructure.networkOut m |}
  else Ok m.

(** [(v / 1024).toFixed(2)] *)
Definition kilobytes (v : value) : result string :=
  x <- ToNumber v ;;
  Ok (Number_toFixed (x / 1024)%float 2).

(** [if (instant.networkIn?.value)
       target.networkIn = (instant.networkIn.value / 1024).toFixed(2)],
    and the same for [networkOut]. *)
Definition copy_networkIn (instant : value) (m : Infrastructure.t)
  : result Infrastructure.t :=
  v <- instant_value instant "networkIn" ;;
  if truthy v then
    text <- kilobytes v ;;
    Ok {| Infrastructure.avgCpuUsage := Infrastructure.avgCpuUsage m;
          Infrastructure.maxCpuUsage := Infrastructure.maxCpuUsage m;
          Infrastructure.avgMemoryUsage := Infrastructure.avgMemoryUsage m;
          Infrastructure.maxMemoryUsage := Infrastructure.maxMemoryUsage m;
          Infrastructure.diskIO := Infrastructure.diskIO m;
          Infrastructure.networkIn := text;
          Infrastructure.networkOut := Infrastructure.networkOut m |}
  else Ok m.

Definition copy_networkOut (instant : value) (m : Infrastructure.t)
  : result Infrastructure.t :=
  v <- instant_value instant "networkOut" ;;
  if truthy v then
    text <- kilobytes v ;;
    Ok {| Infrastructure.avgCpuUsage := Infrastructure.avgCpuUsage m;
          Infrastructure.maxCpuUsage := Infrastructure.maxCpuUsage m;
          Infrastructure.avgMemoryUsage := Infrastructure.avgMemoryUsage m;
          Infrastructure.maxMemoryUsage := Infrastructure.maxMemoryUsage m;
          Infrastructure.diskIO := Infrastructure.diskIO m;
          Infrastructure.networkIn := Infrastructure.networkIn m;
          Infrastructure.networkOut := text |}
  else Ok m.

(** [try { s1; s2; ... } catch (e) { }] on an object updated in place:
    the statements run until one raises, and what was assigned stays. *)
Fixpoint try_block {State : Type}
  (statements : list (State -> result State)) (state : State) : State :=
  match statements with
  | [] => state
  | statement :: rest =>
      match statement state with
      | Ok state' => try_block rest state'
      | Throw _ => state
      end
  end.

(** [queryObservability], given the outcome of the awaited
    [getSystemHealthSummary]. *)
Definition queryObservability (env : Env.t) (systemHealth : result Health.t)
  : Infrastructure.t :=
  if negb (is_set (Env.PROMETHEUS_URL env)) then unavailable
  else
    match systemHealth with
    | Throw _ => unavailable
    | Ok health =>
        try_block
          [copy_summary (Health.summary_of health);
           copy_diskIO (Health.instant health);
           copy_networkIn (Health.instant health);
           copy_networkOut (Health.instant health)]
          unavailable
    end.

End Prometheus.

(** The part of the infrastructure summary [validateAgainstSLA]
    receives. *)
Definition infraMetrics_of (m : Infrastructure.t) : InfraMetrics :=
  {| avgCpuUsage := Infrastructure.avgCpuUsage m;
     maxCpuUsage := Infrastructure.maxCpuUsage m;
     avgMemoryUsage := Infrastructure.avgMemoryUsage m;
     maxMemoryUsage := Infrastructure.maxMemoryUsage m |}.

(* ------------------------------------------------------------------ *)
(** ** The JUnit and JSON reports (src/utils/reporter.js) *)

Definition newline : string := String (ascii_of_nat 10) EmptyString.
Definition quote : string := String (ascii_of_nat 34) EmptyString.

(** [name="text"] *)
Definition attribute (name text : string) : string :=
  (name ++ "=" ++ quote ++ text ++ quote)%string.

(** A code unit the pattern [[^a-zA-Z0-9]] does not match. *)
Definition is_alphanumeric (c : ascii) : bool :=
  let n := nat_of_ascii c in
  ((48 <=? n) && (n <=? 57) || (65 <=? n) && (n <=? 90)
   || (97 <=? n) && (n <=? 122))%nat.

(** [metric.replace(/[^a-zA-Z0-9]/g, '_')] *)
Fixpoint safeName (s : string) : string :=
  match s with
  | EmptyString => EmptyString
  | String c rest =>
      String (if is_alphanumeric c then c else "_"%char) (safeName rest)
  end.

(** What the [forEach] appends for one result. *)
Definition testcase (r : ValidationResult) : string :=
  (if passed r then
     "        <testcase " ++ attribute "name" (safeName (metric r)) ++ " "
       ++ attribute "classname" "SLAValidation" ++ " "
       ++ attribute "time" "0" ++ "/>" ++ newline
   else
     "        <testcase " ++ attribute "name" (safeName (metric r)) ++ " "
       ++ attribute "classname" "SLAValidation" ++ " "
       ++ attribute "time" "0" ++ ">" ++ newline
       ++ "            <failure "
       ++ attribute "message" (metric r ++ " exceeded threshold") ++ " "
       ++ attribute "type" "SLAViolation" ++ ">" ++ newline
       ++ "                Expected: " ++ threshold r ++ newline
       ++ "                Actual: " ++ actual r ++ newline
       ++ "            </failure>" ++ newline
       ++ "        </testcase>" ++ newline)%string.

Fixpoint testcases (validationResults : list ValidationResult) : string :=
  match validationResults with
  | [] => EmptyString
  | r :: rest => (testcase r ++ testcases rest)%string
  end.

(** An item of an object literal or of an array literal. *)
Definition result_object (r : ValidationResult) : value :=
  VObject [("metric", VString (metric r));
           ("actual", VString (actual r));
           ("threshold", VString (threshold r));
           ("passed", VBool (passed r))].

Section Reports.
Context {B : Builtins}.

(** The text [generateJUnitReport] writes; [iso] is the text of
    [new Date().toISOString()]. *)
Definition generateJUnitReport (validationResults : list ValidationResult)
  (metadata : Metadata.t) (iso : string) : result string :=
  let failed := filter (fun r => negb (passed r)) validationResults in
  let tests := Number_toString (number_of_nat (List.length validationResults)) in
  let failures := Number_toString (number_of_nat (List.length failed)) in
  time <- ToString (js_or (Metadata.duration metadata) (VNumber 0)) ;;
  Ok ("<?xml " ++ attribute "version" "1.0" ++ " "
        ++ attribute "encoding" "UTF-8" ++ "?>" ++ newline
      ++ "<testsuites "
        ++ attribute "name" "Performance-Observability-Validation" ++ " "
        ++ attribute "tests" tests ++ " "
        ++ attribute "failures" failures ++ " "
        ++ attribute "errors" "0" ++ " "
        ++ attribute "time" time ++ ">" ++ newline
      ++ "    <testsuite " ++ attribute "name" "SLA-Validation" ++ " "
        ++ attribute "tests" tests ++ " "
        ++ attribute "failures" failures ++ " "
        ++ attribute "errors" "0" ++ " "
        ++ attribute "timestamp" iso ++ ">" ++ newline
      ++ testcases validationResults
      ++ "    </testsuite>" ++ newline ++ "</testsuites>")%string.

(** The local [report] of [generateJsonReport]; [now] is the reading
    of [Date.now()] and [iso] the text of [new Date().toISOString()]. *)
Definition report (validationResults : list ValidationResult)
  (metadata : Metadata.t) (now : float) (iso : string) : value :=
  let total := number_of_nat (List.length validationResults) in
  let passing := number_of_nat (List.length (filter passed validationResults)) in
  VObject
    [("id", VString ("report-" ++ Number_toString now)%string);
     ("timestamp", VString iso);
     ("metadata",
      VObject
        [("profile", js_or (Metadata.profile metadata) (VString "default"));
         ("targetUrl", Metadata.targetUrl metadata);
         ("duration", Metadata.duration metadata)]);
     ("summary",
      VObject
        [("total", VNumber total);
         ("passed", VNumber passing);
         ("failed",
          VNumber (number_of_nat
                     (List.length
                        (filter (fun r => negb (passed r))
                           validationResults))));
         ("passRate",
          VString (Number_toFixed (passing / total * 100)%float 2 ++ "%")%string)]);
     ("results", VArray (map result_object validationResults));
     ("status",
      VString (if forallb passed validationResults
               then "PASSED" else "FAILED"))].

(** [generateJsonReport]: the value that the text it writes denotes. *)
Definition generateJsonReport (validationResults : list ValidationResult)
  (metadata : Metadata.t) (now : float) (iso : string) : value :=
  JSON_value (report validationResults metadata now iso).

(** ** The chart data of the HTML report (inside generateHtmlReport) *)

(** [[...new Set(keys)]]: each key once, in the order of the first
    occurrences. *)
Fixpoint unique (keys : list string) : list string :=
  match keys with
  | [] => []
  | k :: rest => k :: filter (fun k' => negb (k' =? k)) (unique rest)
  end.

(** [history.flatMap(h => Object.keys(h.metrics))] *)
Fixpoint flatMap_keys (history : list value) : result (list string) :=
  match history with
  | [] => Ok []
  | h :: rest =>
      m <- get h "metrics" ;;
      keys <- Object_keys m ;;
      more <- flatMap_keys rest ;;
      Ok (keys ++ more)
  end.

(** The callback of [history.map]:
    [const val = h.metrics[key]?.actual;
     return val ? parseFloat(val) : null;] *)
Definition chart_point (key : string) (h : value) : result value :=
  m <- get h "metrics" ;;
  e <- get m key ;;
  val <- (if nullish e then Ok VUndefined else get e "actual") ;;
  if truthy val then x <- parseFloat val ;; Ok (VNumber x) else Ok VNull.

Fixpoint map_chart_point (key : string) (history : list value)
  : result (list value) :=
  match history with
  | [] => Ok []
  | h :: rest =>
      point <- chart_point key h ;;
      points <- map_chart_point key rest ;;
      Ok (point :: points)
  end.

(** [metricKeys.forEach(key => { chartDatasets[key] = ...; })] *)
Fixpoint forEach_metricKey (history : list value) (metricKeys : list string)
  (datasets : props) : result props :=
  match metricKeys with
  | [] => Ok datasets
  | key :: rest =>
      points <- map_chart_point key history ;;
      forEach_metricKey history rest (assign key (VArray points) datasets)
  end.

(** The own properties of the local [chartDatasets]. *)
Definition chartDatasets (history : list value) : result props :=
  keys <- flatMap_keys history ;;
  forEach_metricKey history (unique keys) [].

End Reports.

(* ------------------------------------------------------------------ *)
(** ** Scenario selection of the load script (src/tests/load_test.js) *)

Section LoadScript.
Local Set Warnings "-inexact-float".

(** [Object.entries(scenarioWeights)] *)
Definition scenarioWeights : list (string * float) :=
  [("browse", 0.40%float);
   ("detail", 0.30%float);
   ("login", 0.15%float);
   ("invalid", 0.05%float);
   ("health", 0.10%float)].

(** The loop of [selectScenario]: the name it returns, if it returns. *)
Fixpoint select_from (rand cumulative : float)
  (weights : list (string * float)) : option string :=
  match weights with
  | [] => None
  | (name, weight) :: rest =>
      let cumulative := (cumulative + weight)%float in
      if PrimFloat.leb rand cumulative then Some name
      else select_from rand cumulative rest
  end.

(** [rand] is the reading of [Math.random()]. *)
Definition selectScenario (rand : float) : string :=
  match select_from rand 0 scenarioWeights with
  | Some name => name
  | None => "browse"
  end.

(** The scenario functions. *)
Inductive scenario : Type :=
| browseCrocodiles
| getCrocodileDetail
| userLoginProcess
| invalidEndpointNavigation
| healthCheck.

(** The [switch] of the default function. *)
Definition run_scenario (name : string) : scenario :=
  if name =? "browse" then browseCrocodiles
  else if name =? "detail" then getCrocodileDetail
  else if name =? "login" then userLoginProcess
  else if name =? "invalid" then invalidEndpointNavigation
  else if name =? "health" then healthCheck
  else browseCrocodiles.

End LoadScript.

(** ** The status of the HTML report (inside generateHtmlReport) *)

(** The local [statusClass]: 'success' without a failed result,
    'warning' for one or two, 'critical' beyond. *)
Definition statusClass (validationResults : list ValidationResult) : string :=
  let failed :=
    List.length (filter (fun r => negb (passed r)) validationResults) in
  let isSuccess := (failed =? 0)%nat in
  let isWarning := ((0 <? failed) && (failed <=? 2))%nat in
  if isSuccess then "success" else if isWarning then "warning" else "critical".

(* ================================================================== *)
(** * A reference implementation of the built-in conversions *)
(* ================================================================== *)

(** The theorems below hold for every [Builtins].  This implementation
    follows the ECMAScript algorithms with exact integer arithmetic and
    serves to evaluate the program on concrete inputs: the digits come
    from the exact binary expansion of the Number, in the other
    direction the nearest Number is found by one correctly rounded
    division. *)
Module Reference.
Local Open Scope Z_scope.

Definition digits (n : Z) : string :=
  NilZero.string_of_uint (N.to_uint (Z.to_N n)).

Fixpoint zeros (n : nat) : string :=
  match n with
  | O => ""
  | S n => String "0" (zeros n)
  end.

(** ** Number.prototype.to_fixed and Number::to_string *)

(** floor (m * 2^e * 10^d + 1/2) *)
Definition round_scaled (m e : Z) (d : nat) : Z :=
  if 0 <=? e then m * 2 ^ e * 10 ^ Z.of_nat d
  else (2 * m * 10 ^ Z.of_nat d + 2 ^ (- e)) / 2 ^ (1 - e).

Definition fixed_digits (n : Z) (d : nat) : string :=
  let s := digits n in
  let s := (zeros (S d - String.length s) ++ s)%string in
  let whole := (String.length s - d)%nat in
  match d with
  | O => s
  | _ => (substring 0 whole s ++ "." ++ substring whole d s)%string
  end.

(** The decimal numerals [s * 10^p] nearest to [x = X / D] on either
    side, tested against the rounding interval [(L / D, H / D)] of [x]
    (closed when the significand of [x] is even). *)
Definition candidate (X L H D : Z) (closed : bool) (p : Z) : option Z :=
  let unit := if 0 <=? p then 10 ^ p * D else D in
  let scale := if 0 <=? p then 1 else 10 ^ (- p) in
  let Xs := X * scale in
  let Ls := L * scale in
  let Hs := H * scale in
  let inside s :=
    (0 <? s)
    && (if closed then (Ls <=? s * unit) && (s * unit <=? Hs)
        else (Ls <? s * unit) && (s * unit <? Hs)) in
  let lo := Xs / unit in
  let hi := lo + 1 in
  match inside lo, inside hi with
  | true, true =>
      match (Xs - lo * unit) ?= (hi * unit - Xs) with
      | Lt => Some lo
      | Gt => Some hi
      | Eq => Some (if Z.even lo then lo else hi)
      end
  | true, false => Some lo
  | false, true => Some hi
  | false, false => None
  end.

Fixpoint shortest (fuel : nat) (X L H D : Z) (closed : bool) (p : Z)
  : option (Z * Z) :=
  match fuel with
  | O => None
  | S fuel =>
      match candidate X L H D closed p with
      | Some s => Some (s, p)
      | None => shortest fuel X L H D closed (p - 1)
      end
  end.

(** The digits [s] and the exponent [n] of Number::to_string: the
    shortest numeral [0.s * 10^n] that reads back as [m * 2^e]. *)
Definition shortest_digits (m e : Z) : option (string * Z) :=
  let boundary := (m =? 2 ^ 52) && (-1074 <? e) in
  let below := if boundary then 1 else 2 in
  let D := if 0 <=? e - 2 then 1 else 2 ^ (2 - e) in
  let w := if 0 <=? e - 2 then 2 ^ (e - 2) else 1 in
  let X := 4 * m * w in
  let H := (4 * m + 2) * w in
  let L := (4 * m - below) * w in
  let start := ((Z.log2 m + e + 1) * 30103) / 100000 + 1 in
  match shortest 40 X L H D (Z.even m) start with
  | Some (s, p) =>
      let ds := digits s in
      Some (ds, p + Z.of_nat (String.length ds))
  | None => None
  end.

Definition exponent_text (n : Z) : string :=
  ((if (0 <=? n)%Z then "+" else "-") ++ digits (Z.abs n))%string.

Definition layout (ds : string) (n : Z) : string :=
  let k := Z.of_nat (String.length ds) in
  if (k <=? n) && (n <=? 21) then
    (ds ++ zeros (Z.to_nat (n - k)))%string
  else if (0 <? n) && (n <=? 21) then
    (substring 0 (Z.to_nat n) ds ++ "."
       ++ substring (Z.to_nat n) (Z.to_nat (k - n)) ds)%string
  else if (-6 <? n) && (n <=? 0) then
    ("0." ++ zeros (Z.to_nat (- n)) ++ ds)%string
  else if k =? 1 then
    (ds ++ "e" ++ exponent_text (n - 1))%string
  else
    (substring 0 1 ds ++ "." ++ substring 1 (Z.to_nat (k - 1)) ds
       ++ "e" ++ exponent_text (n - 1))%string.

Definition to_string (x : float) : string :=
  match FloatOps.Prim2SF x with
  | SpecFloat.S754_nan => "NaN"
  | SpecFloat.S754_infinity s => if s then "-Infinity" else "Infinity"
  | SpecFloat.S754_zero _ => "0"
  | SpecFloat.S754_finite s m e =>
      match shortest_digits (Zpos m) e with
      | Some (ds, n) => ((if s then "-" else "") ++ layout ds n)%string
      | None => ""
      end
  end.

Definition to_fixed (x : float) (d : nat) : string :=
  match FloatOps.Prim2SF x with
  | SpecFloat.S754_nan => "NaN"
  | SpecFloat.S754_infinity s => if s then "-Infinity" else "Infinity"
  | SpecFloat.S754_zero _ => fixed_digits 0 d
  | SpecFloat.S754_finite s m e =>
      if PrimFloat.leb 1e21 (PrimFloat.abs x) then to_string x
      else ((if s then "-" else "")
              ++ fixed_digits (round_scaled (Zpos m) e d) d)%string
  end.

(** ** StringToNumber and parse_float *)

(** The Number nearest to [num / den], for positive [num] and [den]. *)
Definition nearest (negative : bool) (num den : Z) : float :=
  let k := Z.max 0 (64 + Z.log2 den - Z.log2 num) in
  let q := (num * 2 ^ k) / den in
  let r := (num * 2 ^ k) mod den in
  let loc :=
    if r =? 0 then SpecFloat.loc_Exact
    else SpecFloat.loc_Inexact (2 * r ?= den) in
  FloatOps.SF2Prim (SpecFloat.binary_round_aux 53 1024 negative q (- k) loc).

Definition signed (negative : bool) (x : float) : float :=
  if negative then PrimFloat.opp x else x.

(** [digits * 10^exponent] *)
Definition decimal (negative : bool) (n : Z) (exponent : Z) : float :=
  let magnitude := exponent + Z.of_nat (String.length (digits n)) in
  if n =? 0 then signed negative 0%float
  else if 400 <? magnitude then signed negative PrimFloat.infinity
  else if magnitude <? -400 then signed negative 0%float
  else if 0 <=? exponent then nearest negative (n * 10 ^ exponent) 1
  else nearest negative n (10 ^ (- exponent)).

Definition is_digit (c : ascii) : bool :=
  ((48 <=? nat_of_ascii c) && (nat_of_ascii c <=? 57))%nat.

(** The white space and line terminators among the code units below
    256: TAB, LF, VT, FF, CR, SP and the no-break space. *)
Definition is_space (c : ascii) : bool :=
  let n := nat_of_ascii c in
  ((9 <=? n) && (n <=? 13) || (n =? 32) || (n =? 160))%nat.

Fixpoint span_digits (s : string) : string * string :=
  match s with
  | String c rest =>
      if is_digit c
      then let '(ds, tail) := span_digits rest in (String c ds, tail)
      else (EmptyString, s)
  | EmptyString => (EmptyString, EmptyString)
  end.

Fixpoint number_of_digits (acc : Z) (ds : string) : Z :=
  match ds with
  | String c rest =>
      number_of_digits (10 * acc + Z.of_nat (nat_of_ascii c - 48)) rest
  | EmptyString => acc
  end.

Fixpoint skip_spaces (s : string) : string :=
  match s with
  | String c rest => if is_space c then skip_spaces rest else s
  | EmptyString => s
  end.

(** [s] without the white space at its end. *)
Fixpoint trim_end (s : string) : string :=
  match s with
  | EmptyString => EmptyString
  | String c rest =>
      match trim_end rest with
      | EmptyString =>
          if is_space c then EmptyString else String c EmptyString
      | kept => String c kept
      end
  end.

Definition take_sign (s : string) : bool * string :=
  match s with
  | String "-" rest => (true, rest)
  | String "+" rest => (false, rest)
  | _ => (false, s)
  end.

(** The exponent part, when one stands at the head of [s]. *)
Definition take_exponent (s : string) : Z * string :=
  match s with
  | String c rest =>
      if (Ascii.eqb c "e" || Ascii.eqb c "E")%bool then
        let '(negative, rest) := take_sign rest in
        let '(ds, tail) := span_digits rest in
        match ds with
        | EmptyString => (0, s)
        | _ => ((if negative then - number_of_digits 0 ds
                 else number_of_digits 0 ds), tail)
        end
      else (0, s)
  | EmptyString => (0, s)
  end.

(** The longest StrDecimalLiteral at the head of [s], with what
    follows it. *)
Definition take_literal (s : string) : option (float * string) :=
  let '(negative, s) := take_sign s in
  if String.prefix "Infinity" s then
    Some (signed negative PrimFloat.infinity,
          substring 8 (String.length s - 8) s)
  else
    let '(whole, s) := span_digits s in
    let '(fraction, s, point) :=
      match s with
      | String "." rest =>
          let '(ds, tail) := span_digits rest in (ds, tail, true)
      | _ => (EmptyString, s, false)
      end in
    match whole, fraction with
    | EmptyString, EmptyString => None
    | _, _ =>
        let '(e, s) := take_exponent s in
        let ds := (whole ++ fraction)%string in
        Some (decimal negative (number_of_digits 0 ds)
                (e - Z.of_nat (String.length fraction)),
              s)
    end.

Definition parse_float (s : string) : float :=
  match take_literal (skip_spaces s) with
  | Some (x, _) => x
  | None => PrimFloat.nan
  end.

Definition digit_value (c : ascii) : Z :=
  let n := Z.of_nat (nat_of_ascii c) in
  if (48 <=? n) && (n <=? 57) then n - 48
  else if (97 <=? n) && (n <=? 102) then n - 87
  else if (65 <=? n) && (n <=? 70) then n - 55
  else 99.

(** The digits of a numeral in the given radix, read as an integer. *)
Fixpoint radix_digits (radix acc : Z) (s : string) : option Z :=
  match s with
  | EmptyString => Some acc
  | String c rest =>
      if digit_value c <? radix
      then radix_digits radix (radix * acc + digit_value c) rest
      else None
  end.

Definition radix_literal (radix : Z) (ds : string) : float :=
  match ds, radix_digits radix 0 ds with
  | String _ _, Some n => if n =? 0 then 0%float else nearest false n 1
  | _, _ => PrimFloat.nan
  end.

Definition string_to_number (s : string) : float :=
  let s := skip_spaces s in
  match s with
  | EmptyString => 0%float
  | String "0" (String c ds) =>
      if (Ascii.eqb c "x" || Ascii.eqb c "X")%bool
      then radix_literal 16 (trim_end ds)
      else if (Ascii.eqb c "o" || Ascii.eqb c "O")%bool
      then radix_literal 8 (trim_end ds)
      else if (Ascii.eqb c "b" || Ascii.eqb c "B")%bool
      then radix_literal 2 (trim_end ds)
      else match take_literal s with
           | Some (x, rest) =>
               match skip_spaces rest with
               | EmptyString => x
               | _ => PrimFloat.nan
               end
           | None => PrimFloat.nan
           end
  | _ =>
      match take_literal s with
      | Some (x, rest) =>
          match skip_spaces rest with
          | EmptyString => x
          | _ => PrimFloat.nan
          end
      | None => PrimFloat.nan
      end
  end.

Definition builtins : Builtins :=
  {| Number_toString := to_string;
     Number_toFixed := to_fixed;
     StringToNumber := string_to_number;
     parseFloat_string := parse_float |}.

End Reference.

(* ================================================================== *)
(** * Sample inputs *)
(* ================================================================== *)

(** The inputs of the repository's test suites, and variations of them,
    on which the program is evaluated with the reference built-ins. *)
Module Sample.

#[local] Existing Instance Reference.builtins.
#[local] Set Warnings "-inexact-float".

(** [mockK6Metrics] of the validator's tests; the fields the tests
    leave out are 0 here. *)
Definition k6Metrics : K6Metrics :=
  {| p50ResponseTime := 150;
     p90ResponseTime := 300;
     p95ResponseTime := 400;
     p99ResponseTime := 800;
     avgResponseTime := 0;
     minResponseTime := VNumber 0;
     maxResponseTime := VNumber 0;
     errorRate := 0.5;
     throughput := 50;
     totalRequests := VNumber 0;
     iterations := VNumber 0;
     checksData := [];
     endpoints := [] |}.

(** [mockInfraMetrics] of the validator's tests. *)
Definition infraMetrics : InfraMetrics :=
  {| avgCpuUsage := "45.0";
     maxCpuUsage := "N/A";
     avgMemoryUsage := "60.0";
     maxMemoryUsage := "N/A" |}.

Definition infrastructure : props :=
  [("max_cpu_usage_percent", VNumber 80);
   ("max_memory_usage_percent", VNumber 85)].

Definition performance : props :=
  [("p50_response_time_ms", VNumber 200);
   ("p90_response_time_ms", VNumber 400);
   ("p95_response_time_ms", VNumber 500);
   ("p99_response_time_ms", VNumber 1000);
   ("max_error_rate_percent", VNumber 1);
   ("min_throughput_rps", VNumber 40)].

(** A profile that overrides two bounds. *)
Definition stress : props :=
  [("p95_response_time_ms", VNumber 1500);
   ("max_error_rate_percent", VNumber 5)].

Definition profiles : props := [("stress", VObject stress)].

(** [mockSlaConfig] of the validator's tests, with one profile. *)
Definition slaConfig : value :=
  VObject [("performance", VObject performance);
           ("infrastructure", VObject infrastructure);
           ("profiles", VObject profiles)].

(** The same configuration without a p95 bound and without an
    error-rate bound. *)
Definition performance_without_mandatory : props :=
  [("p50_response_time_ms", VNumber 200);
   ("p90_response_time_ms", VNumber 400);
   ("p99_response_time_ms", VNumber 1000);
   ("min_throughput_rps", VNumber 40)].

Definition slaConfig_without_mandatory : value :=
  VObject [("performance", VObject performance_without_mandatory);
           ("infrastructure", VObject infrastructure);
           ("profiles", VObject [])].

(** A configuration that supplies the bound 0 for p50 and for the
    throughput. *)
Definition performance_with_zeros : props :=
  [("p50_response_time_ms", VNumber 0);
   ("p90_response_time_ms", VNumber 400);
   ("p95_response_time_ms", VNumber 500);
   ("p99_response_time_ms", VNumber 1000);
   ("max_error_rate_percent", VNumber 1);
   ("min_throughput_rps", VNumber 0)].

Definition slaConfig_with_zeros : value :=
  VObject [("performance", VObject performance_with_zeros);
           ("infrastructure", VObject infrastructure);
           ("profiles", VObject [])].

(** A configuration whose global p50 bound is 300 and whose profile
    [strict] defines the p50 bound 0. *)
Definition performance_relaxed : props :=
  [("p50_response_time_ms", VNumber 300);
   ("p90_response_time_ms", VNumber 400);
   ("p95_response_time_ms", VNumber 500);
   ("p99_response_time_ms", VNumber 1000);
   ("max_error_rate_percent", VNumber 1);
   ("min_throughput_rps", VNumber 40)].

Definition strict : props := [("p50_response_time_ms", VNumber 0)].

Definition slaConfig_strict : value :=
  VObject [("performance", VObject performance_relaxed);
           ("infrastructure", VObject infrastructure);
           ("profiles", VObject [("strict", VObject strict)])].

(** What the validator returns for the test inputs. *)
Definition validationResults : list ValidationResult :=
  [{| metric := "P50 Response Time (ms)"; actual := "150.00";
      threshold := "<= 200"; passed := true |};
   {| metric := "P90 Response Time (ms)"; actual := "300.00";
      threshold := "<= 400"; passed := true |};
   {| metric := "P95 Response Time (ms)"; actual := "400.00";
      threshold := "<= 500"; passed := true |};
   {| metric := "P99 Response Time (ms)"; actual := "800.00";
      threshold := "<= 1000"; passed := true |};
   {| metric := "Error Rate (%)"; actual := "0.50";
      threshold := "<= 1"; passed := true |};
   {| metric := "Throughput (req/s)"; actual := "50.00";
      threshold := ">= 40"; passed := true |};
   {| metric := "CPU Usage (%)"; actual := "45.0";
      threshold := "<= 80"; passed := true |};
   {| metric := "Memory Usage (%)"; actual := "60.0";
      threshold := "<= 85"; passed := true |}].

(** What it returns when the configured throughput bound is 0. *)
Definition validationResults_with_zeros : list ValidationResult :=
  [{| metric := "P50 Response Time (ms)"; actual := "150.00";
      threshold := "<= 200"; passed := true |};
   {| metric := "P90 Response Time (ms)"; actual := "300.00";
      threshold := "<= 400"; passed := true |};
   {| metric := "P95 Response Time (ms)"; actual := "400.00";
      threshold := "<= 500"; passed := true |};
   {| metric := "P99 Response Time (ms)"; actual := "800.00";
      threshold := "<= 1000"; passed := true |};
   {| metric := "Error Rate (%)"; actual := "0.50";
      threshold := "<= 1"; passed := true |};
   {| metric := "CPU Usage (%)"; actual := "45.0";
      threshold := "<= 80"; passed := true |};
   {| metric := "Memory Usage (%)"; actual := "60.0";
      threshold := "<= 85"; passed := true |}].

(** [mockSummary] of the extractor's tests, with an [http_req_failed]
    metric beside [errors]. *)
Definition metrics : value :=
  VObject
    [("http_req_duration",
      VObject [("med", VNumber 150); ("p(90)", VNumber 300);
               ("p(95)", VNumber 450); ("p(99)", VNumber 900);
               ("avg", VNumber 200); ("min", VNumber 10);
               ("max", VNumber 1200)]);
     ("errors",
      VObject [("value", VNumber 0.02); ("passes", VNumber 2);
               ("fails", VNumber 98)]);
     ("http_req_failed", VObject [("value", VNumber 0.05)]);
     ("http_reqs", VObject [("count", VNumber 100); ("rate", VNumber 5.5)]);
     ("iterations", VObject [("count", VNumber 100)]);
     ("browse_duration",
      VObject [("avg", VNumber 120.55); ("min", VNumber 10);
               ("max", VNumber 500)]);
     ("api_duration",
      VObject [("avg", VNumber 250.33); ("min", VNumber 15);
               ("max", VNumber 800)])].

Definition summary : value :=
  VObject
    [("metrics", metrics);
     ("root_group",
      VObject
        [("checks",
          VObject
            [("status is 200",
              VObject [("name", VString "status is 200");
                       ("passes", VNumber 95); ("fails", VNumber 5)]);
             ("response time < 3000ms",
              VObject [("name", VString "response time < 3000ms");
                       ("passes", VNumber 90); ("fails", VNumber 10)])])])].

Definition extracted : K6Metrics :=
  {| p50ResponseTime := 150;
     p90ResponseTime := 300;
     p95ResponseTime := 450;
     p99ResponseTime := 900;
     avgResponseTime := 200;
     minResponseTime := VNumber 10;
     maxResponseTime := VNumber 1200;
     errorRate := 2;
     throughput := 5.5;
     totalRequests := VNumber 100;
     iterations := VNumber 100;
     checksData :=
       [{| CheckData.name := VString "status is 200";
           CheckData.passes := VNumber 95;
           CheckData.fails := VNumber 5 |};
        {| CheckData.name := VString "response time < 3000ms";
           CheckData.passes := VNumber 90;
           CheckData.fails := VNumber 10 |}];
     endpoints :=
       [{| Endpoint.name := "GET /posts (Browse/List)";
           Endpoint.avgDur := VString "120.55" |};
        {| Endpoint.name := "API Dynamic endpoints (GET/POST)";
           Endpoint.avgDur := VString "250.33" |}] |}.

(** A payload with a request counter and nothing else: no duration
    sub-object, no rate metric, no checks. *)
Definition sparse_metrics : value :=
  VObject [("http_reqs", VObject [("count", VNumber 100)])].

Definition sparse_summary : value := VObject [("metrics", sparse_metrics)].

(** A run whose p95 latency is above both alert tiers. *)
Definition slow_k6Metrics : K6Metrics :=
  {| p50ResponseTime := 150;
     p90ResponseTime := 300;
     p95ResponseTime := 2500;
     p99ResponseTime := 800;
     avgResponseTime := 0;
     minResponseTime := VNumber 0;
     maxResponseTime := VNumber 0;
     errorRate := 0.5;
     throughput := 50;
     totalRequests := VNumber 0;
     iterations := VNumber 0;
     checksData := [];
     endpoints := [] |}.

Definition slow_metadata : Metadata.t :=
  {| Metadata.profile := VString "default";
     Metadata.targetUrl := VString "https://jsonplaceholder.typicode.com";
     Metadata.duration := VString "30.00s";
     Metadata.k6Metrics := Some slow_k6Metrics;
     Metadata.slaConfig := VUndefined |}.

Definition critical_tier : value :=
  VObject [("p95_response_time_ms", VNumber 2000);
           ("max_error_rate_percent", VNumber 10)].

Definition warning_tier : value :=
  VObject [("p95_response_time_ms", VNumber 800);
           ("max_error_rate_percent", VNumber 3)].

(** Two records of a history: the throughput goes from 10 to 12, the
    p95 latency from 100 to 120, and the error rate stays 0. *)
Definition run_metrics (p95 rate tput : string) : props :=
  [("P95 Response Time (ms)",
    VObject [("actual", VString p95); ("threshold", VString "<= 500");
             ("passed", VBool true)]);
   ("Error Rate (%)",
    VObject [("actual", VString rate); ("threshold", VString "<= 1");
             ("passed", VBool true)]);
   ("Throughput (req/s)",
    VObject [("actual", VString tput); ("threshold", VString ">= 2");
             ("passed", VBool true)])].

Definition run_record (id : string) (ms : props) : value :=
  VObject [("id", VString id); ("profile", VString "default");
           ("metrics", VObject ms)].

Definition previous_metrics : props := run_metrics "100.00" "0.00" "10.00".
Definition current_metrics : props := run_metrics "120.00" "0.00" "12.00".
Definition previous_run : value := run_record "run-1" previous_metrics.
Definition current_run : value := run_record "run-2" current_metrics.

Definition metadata : Metadata.t :=
  {| Metadata.profile := VString "default";
     Metadata.targetUrl := VString "https://jsonplaceholder.typicode.com";
     Metadata.duration := VString "30.00s";
     Metadata.k6Metrics := Some k6Metrics;
     Metadata.slaConfig := slaConfig |}.

(** A stored history of 50 records, numbered from 0. *)
Definition numbered (i : nat) : value :=
  VObject [("id", VString ("run-" ++ JS.string_of_N (N.of_nat i))%string)].

Definition full_history : list value := map numbered (seq 0 50).

End Sample.

(** Inputs for the functions of the second part: failed checks and an
    alert table, range data as Prometheus answers it, replies to the
    client and a health summary. *)
Module Incident.
#[local] Set Warnings "-inexact-float".

Definition slow : ValidationResult :=
  {| metric := "P95 Response Time (ms)"; actual := "2500.00";
     threshold := "<= 1500"; passed := false |}.

Definition starved : ValidationResult :=
  {| metric := "Throughput (req/s)"; actual := "1.00";
     threshold := ">= 2"; passed := false |}.

Definition hot : ValidationResult :=
  {| metric := "CPU Usage (%)"; actual := "95.0";
     threshold := "<= 80"; passed := false |}.

Definition sound : ValidationResult :=
  {| metric := "Error Rate (%)"; actual := "0.50";
     threshold := "<= 1"; passed := true |}.

Definition alerts : value :=
  VObject
    [("critical", VObject [("p95_response_time_ms", VNumber 2000);
                           ("max_error_rate_percent", VNumber 10)]);
     ("warning", VObject [("p95_response_time_ms", VNumber 800);
                          ("max_error_rate_percent", VNumber 3)])].

(** A sample of a range: the time and the text of the value. *)
Definition point (time : float) (text : string) : value :=
  VArray [VNumber time; VString text].

Definition cpu_series : props :=
  [("metric", VObject [("instance", VString "node-1")]);
   ("values", VArray [point 1 "10.5"; point 2 "20.5"; point 3 "3"])].

Definition other_series : value :=
  VObject [("metric", VObject [("instance", VString "node-2")]);
           ("values", VArray [point 1 "99"])].

Definition successful : reply :=
  Resolved
    (VObject
       [("data",
         VObject [("status", VString "success");
                  ("data", VObject [("result", VArray [VObject cpu_series])])])]).

Definition unsuccessful : reply :=
  Resolved (VObject [("data", VObject [("status", VString "error")])]).

Definition second_time (attempt : nat) : reply :=
  if (attempt =? 2)%nat then successful else Rejected.

Definition env : Env.t :=
  {| Env.WEBHOOK_URL := None;
     Env.EMAIL_ENABLED := Some "true";
     Env.EMAIL_API_KEY := Some "key";
     Env.EMAIL_TO := Some "";
     Env.PROMETHEUS_URL := Some "http://localhost:9090" |}.

(** A health summary whose disk metric holds a text, on which
    [toFixed] raises. *)
Definition health : Health.t :=
  {| Health.instant :=
       VObject [("diskIO", VObject [("value", VString "1.5")]);
                ("networkIn", VObject [("value", VNumber 2048)])];
     Health.cpu := VArray [VObject cpu_series];
     Health.memory := VArray [];
     Health.summary_of :=
       {| Health.avgCpu := Some "11.33";
          Health.maxCpu := Some "20.50";
          Health.avgMemory := None;
          Health.maxMemory := None |} |}.

Definition iso : string := "2024-01-01T00:00:00.000Z".

(** An infrastructure summary whose CPU usage is a text without a
    number. *)
Definition garbled : InfraMetrics :=
  {| avgCpuUsage := "unknown";
     maxCpuUsage := "N/A";
     avgMemoryUsage := "60.0";
     maxMemoryUsage := "N/A" |}.

End Incident.

(* ================================================================== *)
(** * Vocabulary of the statements *)
(* ================================================================== *)

(** The values whose conversions to text and to a Number cannot raise. *)
Definition scalar (v : value) : Prop :=
  match v with
  | VArray _ | VObject _ => False
  | _ => True
  end.

(** An object all of whose bounds are scalars (an absent bound reads as
    [undefined], a scalar). *)
Definition scalar_members (ps : props) : Prop :=
  forall k, scalar (prop k ps).

(** An infrastructure measurement can be checked: it is unavailable,
    or the [infrastructure] section of the configuration is an object
    of scalar bounds. *)
Definition infra_ready (usage : string) (infraSla : value) : Prop :=
  usage = "N/A" \/ exists ps, infraSla = VObject ps /\ scalar_members ps.

(** The check at position [i] of the list [rs] is made against the
    supplied bound when that is truthy, and against [default]
    otherwise.  Spelled out for a bound that is a Number [b]: the
    threshold text shows [b] and the measurement is compared with [b];
    for a falsy bound the text shows [default] and the measurement is
    compared with [default]. *)
Definition default_unless_truthy {B : Builtins} (rs : list ValidationResult)
  (i : nat) (name : string) (x : float) (supplied : value) (default : float)
  : Prop :=
  exists r,
    nth_error rs i = Some r /\
    (truthy supplied = true ->
     upper_bound_check name x supplied = Ok r) /\
    (forall b,
        supplied = VNumber b -> truthy supplied = true ->
        r = {| metric := name;
               actual := Number_toFixed x 2;
               threshold := ("<= " ++ Number_toString b)%string;
               passed := PrimFloat.leb x b |}) /\
    (truthy supplied = false ->
     r = {| metric := name;
            actual := Number_toFixed x 2;
            threshold := ("<= " ++ Number_toString default)%string;
            passed := PrimFloat.leb x default |}).

(** The threshold of a metric key as the specification resolves it:
    the value the active profile defines for the key, and the global
    default when it defines none.  [active] is the active profile,
    [None] when the configuration holds no profile under the name. *)
Definition effective (defaults : props) (active : option props)
  (k : string) : value :=
  match active with
  | Some overrides =>
      if has_key k overrides then prop k overrides else prop k defaults
  | None => prop k defaults
  end.

(** [active] is the profile that [profiles] holds under the name
    [runProfile]: an object, or nothing where the entry is absent or
    falsy. *)
Definition active_profile (profiles : props) (runProfile : string)
  (active : option props) : Prop :=
  match active with
  | Some overrides => prop runProfile profiles = VObject overrides
  | None => truthy (prop runProfile profiles) = false
  end.

(** The check at position [i] of the list [rs] is made against
    [bound]: the threshold text shows the bound, and the measurement
    is compared with the bound as a Number. *)
Definition checked_against {B : Builtins} (rs : list ValidationResult)
  (i : nat) (name : string) (x : float) (bound : value) : Prop :=
  exists text y,
    ToString bound = Ok text /\ ToNumber bound = Ok y /\
    nth_error rs i =
    Some {| metric := name;
            actual := Number_toFixed x 2;
            threshold := ("<= " ++ text)%string;
            passed := PrimFloat.leb x y |}.

(** The throughput check is made against [bound], at position 5, when
    the bound is truthy; the list holds no throughput check
    otherwise. *)
Definition throughput_checked_against {B : Builtins}
  (rs : list ValidationResult) (x : float) (bound : value) : Prop :=
  if truthy bound then
    exists text y,
      ToString bound = Ok text /\ ToNumber bound = Ok y /\
      nth_error rs 5 =
      Some {| metric := "Throughput (req/s)";
              actual := Number_toFixed x 2;
              threshold := (">= " ++ text)%string;
              passed := PrimFloat.leb y x |}
  else Forall (fun r => metric r <> "Throughput (req/s)") rs.

(** The property [k] of [v] as a total function: [undefined] where the
    read would raise. *)
Definition field (v : value) (k : string) : value :=
  match get v k with
  | Ok x => x
  | Throw _ => VUndefined
  end.

(** A field that holds a Number whenever it holds something truthy. *)
Definition numeric (v : value) : Prop :=
  truthy v = true -> exists x, v = VNumber x.

Definition number_or_nullish (v : value) : Prop :=
  nullish v = true \/ exists x, v = VNumber x.

(** A rate metric that carries the value [v]:
    [metric && metric.value !== undefined]. *)
Definition carries (m v : value) : Prop :=
  truthy m = true /\ get m "value" = Ok v /\ v <> VUndefined.

Definition carries_nothing (m : value) : Prop :=
  truthy m = false \/ get m "value" = Ok VUndefined.

(** The metrics container of a payload whose fields, where present,
    have the types the load generator gives them: the latency
    percentiles, the average and the request rate are Numbers, the
    request count and the value of a rate metric are scalars, and the
    average of an endpoint metric is a Number when it is there at
    all. *)
Definition typed_metrics (ms : value) : Prop :=
  let d := field ms "http_req_duration" in
  (truthy d = true ->
   numeric (js_or (field d "med") (field d "p(50)")) /\
   numeric (field d "p(90)") /\ numeric (field d "p(95)") /\
   numeric (field d "p(99)") /\ numeric (field d "avg")) /\
  (truthy (field ms "errors") = true ->
   scalar (field (field ms "errors") "value")) /\
  (truthy (field ms "http_req_failed") = true ->
   scalar (field (field ms "http_req_failed") "value")) /\
  (truthy (field ms "http_reqs") = true ->
   numeric (field (field ms "http_reqs") "rate") /\
   scalar (field (field ms "http_reqs") "count")) /\
  (truthy (field ms "browse_duration") = true ->
   number_or_nullish (field (field ms "browse_duration") "avg")) /\
  (truthy (field ms "api_duration") = true ->
   number_or_nullish (field (field ms "api_duration") "avg")).

(** No check of the payload is [null]. *)
Definition typed_checks (summary : value) : Prop :=
  let g := field summary "root_group" in
  truthy g = true ->
  match field g "checks" with
  | VArray l => Forall (fun c => nullish c = false) l
  | VObject ps => Forall (fun c => nullish c = false) (map snd (entries ps))
  | _ => True
  end.

(** Every field the payload lacks is 0 in the extracted metrics, and
    the checks are empty when the payload has none.  A sub-object that
    is itself absent lacks every field: [field VUndefined k] is
    [VUndefined]. *)
Definition defaults_applied (summary ms : value) (m : K6Metrics) : Prop :=
  let d := field ms "http_req_duration" in
  let r := field ms "http_reqs" in
  (field d "med" = VUndefined -> field d "p(50)" = VUndefined ->
   p50ResponseTime m = 0%float) /\
  (field d "p(90)" = VUndefined -> p90ResponseTime m = 0%float) /\
  (field d "p(95)" = VUndefined -> p95ResponseTime m = 0%float) /\
  (field d "p(99)" = VUndefined -> p99ResponseTime m = 0%float) /\
  (field d "avg" = VUndefined -> avgResponseTime m = 0%float) /\
  (field d "min" = VUndefined -> minResponseTime m = VNumber 0) /\
  (field d "max" = VUndefined -> maxResponseTime m = VNumber 0) /\
  (field (field ms "errors") "value" = VUndefined ->
   field (field ms "http_req_failed") "value" = VUndefined ->
   errorRate m = 0%float) /\
  (field r "rate" = VUndefined -> throughput m = 0%float) /\
  (field r "count" = VUndefined -> totalRequests m = VNumber 0) /\
  (field (field ms "iterations") "count" = VUndefined ->
   iterations m = VNumber 0) /\
  (field (field summary "root_group") "checks" = VUndefined ->
   checksData m = []).


(** ** Vocabulary of the second part *)

(** A failed check meets a critical bound: its metric name contains
    [label], the bound is configured (truthy) and the measurement read
    from the text of the check is at least the bound. *)
Definition meets {B : Builtins} (r : ValidationResult) (label : string)
  (bound : value) : Prop :=
  includes (metric r) label = true /\ truthy bound = true /\
  number_ge (parseFloat_string (actual r)) bound = Ok true.

(** A failed check that no critical bound applies to: for neither label
    does its name contain the label while the bound is configured. *)
Definition beyond_critical (criticalThresholds : value)
  (r : ValidationResult) : Prop :=
  (includes (metric r) "Response Time" = false \/
   truthy (field criticalThresholds "p95_response_time_ms") = false) /\
  (includes (metric r) "Error Rate" = false \/
   truthy (field criticalThresholds "max_error_rate_percent") = false).

(** The severity that counts the failures. *)
Definition by_count (failed : list ValidationResult) : string :=
  if (1 <? List.length failed)%nat then "warning" else "info".

(** The requests of a trace, by attempt number. *)
Fixpoint requests (trace : list event) : list nat :=
  match trace with
  | [] => []
  | Request k :: rest => k :: requests rest
  | Sleep _ :: rest => requests rest
  end.

(** The trace of [n] rejected requests: after each but the last the
    loop sleeps the delay times the attempt number. *)
Definition backoff (RETRY_DELAY : float) (first n : nat) : list event :=
  flat_map
    (fun k => [Request k; Sleep (RETRY_DELAY * number_of_nat k)%float])
    (seq first (n - 1))
  ++ [Request (first + (n - 1))].

(** The point of the run [h] in the dataset of the metric [k]: the
    Number that [parseFloat] reads in the [actual] value the run
    records for the metric, when that value is truthy; [null]
    otherwise, so for a run without the metric, for a metric that is
    [null] and for an [actual] that is absent or falsy. *)
Definition plotted {B : Builtins} (k : string) (h point : value) : Prop :=
  let val := field (field (field h "metrics") k) "actual" in
  if truthy val
  then exists text,
      ToString val = Ok text /\ point = VNumber (parseFloat_string text)
  else point = VNull.

(** What the history keeps of a validation result. *)
Definition recorded (r : ValidationResult) : value :=
  VObject [("actual", VString (actual r));
           ("threshold", VString (threshold r));
           ("passed", VBool (passed r))].

(** One test of the loop of [getSeverity] on a bound that is a scalar,
    as a Boolean. *)
Definition reaches_scalar {B : Builtins} (r : ValidationResult)
  (label : string) (bound : value) : bool :=
  includes (metric r) label && truthy bound
  && match ToNumber bound with
     | Ok y => PrimFloat.leb y (parseFloat_string (actual r))
     | Throw _ => false
     end.

(** The assignment of the [forEach] of [saveToHistory] for one result. *)
Definition record_into (o : props) (r : ValidationResult) : props :=
  assign (metric r) (recorded r) o.

(** A dataset with one point for each run of the history, in the order
    of the runs. *)
Definition aligned {B : Builtins} (history : list value)
  (d : string * value) : Prop :=
  exists points,
    snd d = VArray points /\ Forall2 (plotted (fst d)) history points.

(** The rank of a Number that is not NaN: sign class, then exponent,
    then mantissa, so that the order of the ranks is the order of the
    Numbers. *)
Definition rank (a : SpecFloat.spec_float) : Z * Z * Z :=
  match a with
  | SpecFloat.S754_nan => (0, 0, 0)%Z
  | SpecFloat.S754_zero _ => (0, 0, 0)%Z
  | SpecFloat.S754_infinity true => (-2, 0, 0)%Z
  | SpecFloat.S754_infinity false => (2, 0, 0)%Z
  | SpecFloat.S754_finite true m e => (-1, - e, - Z.pos m)%Z
  | SpecFloat.S754_finite false m e => (1, e, Z.pos m)%Z
  end.

Definition rank_compare (x y : Z * Z * Z) : comparison :=
  let '(a1, b1, c1) := x in
  let '(a2, b2, c2) := y in
  match (a1 ?= a2)%Z with
  | Eq => match (b1 ?= b2)%Z with
          | Eq => (c1 ?= c2)%Z
          | c => c
          end
  | c => c
  end.

(** The entry [extractK6Metrics] makes of a check. *)
Definition entry_of (check : value) : CheckData.t :=
  {| CheckData.name := js_or (field check "name") (VString "Unknown Check");
     CheckData.passes := field check "passes";
     CheckData.fails := field check "fails" |}.

(** The checks of a payload in the order the extractor visits them:
    the elements of an array, the values of an object in the order of
    its keys. *)
Definition checks_of (summary : value) : list value :=
  match field (field summary "root_group") "checks" with
  | VArray checks => checks
  | VObject members => map snd (entries members)
  | _ => []
  end.

(** The measurement a check of the validator is made on, by the name
    of its metric: a Number of the extracted metrics, or what
    [parseFloat] reads in the usage text. *)
Definition measured {B : Builtins} (k6Metrics : K6Metrics)
  (infraMetrics : InfraMetrics) (name : string) : option float :=
  if name =? "P50 Response Time (ms)" then Some (p50ResponseTime k6Metrics)
  else if name =? "P90 Response Time (ms)"
  then Some (p90ResponseTime k6Metrics)
  else if name =? "P95 Response Time (ms)"
  then Some (p95ResponseTime k6Metrics)
  else if name =? "P99 Response Time (ms)"
  then Some (p99ResponseTime k6Metrics)
  else if name =? "Error Rate (%)" then Some (errorRate k6Metrics)
  else if name =? "Throughput (req/s)" then Some (throughput k6Metrics)
  else if name =? "CPU Usage (%)"
  then Some (parseFloat_string (avgCpuUsage infraMetrics))
  else if name =? "Memory Usage (%)"
  then Some (parseFloat_string (avgMemoryUsage infraMetrics))
  else None.

(* ================================================================== *)
(** * Facts about property lists *)
(* ================================================================== *)

Section PropertyLists.

Lemma lookup_app k (a b : props) :
  lookup k (a ++ b) =
  match lookup k a with
  | Some v => Some v
  | None => lookup k b
  end.
Proof.
  induction a as [|[k' v] a IH]; simpl; [reflexivity|].
  destruct (k' =? k)%string; [reflexivity | exact IH].
Qed.

Lemma lookup_obj_set k k' v (ps : props) :
  lookup k (obj_set k' v ps) =
  if (k' =? k)%string then Some v else lookup k ps.
Proof.
  induction ps as [|[k0 v0] ps IH]; simpl.
  - reflexivity.
  - destruct (k0 =? k')%string eqn:E0; simpl.
    + apply String.eqb_eq in E0; subst k0.
      destruct (k' =? k)%string; reflexivity.
    + destruct (k0 =? k)%string eqn:E1.
      * apply String.eqb_eq in E1; subst k0.
        rewrite String.eqb_sym, E0. reflexivity.
      * exact IH.
Qed.

(** Assigning a run of properties: the last assignment to a key wins,
    and keys that are not assigned keep their value. *)
Lemma lookup_assign k (es : list (string * value)) (o : props) :
  lookup k (fold_left (fun o e => obj_set (fst e) (snd e) o) es o) =
  match lookup k (rev es) with
  | Some v => Some v
  | None => lookup k o
  end.
Proof.
  revert o; induction es as [|[k' v] es IH]; intros o; simpl.
  - reflexivity.
  - rewrite IH, lookup_app, lookup_obj_set. simpl.
    destruct (lookup k (rev es)); [reflexivity|].
    destruct (k' =? k)%string; reflexivity.
Qed.

Lemma has_key_In k (ps : props) :
  has_key k ps = true <-> In k (map fst ps).
Proof.
  unfold has_key. induction ps as [|[k' v] ps IH]; simpl.
  - split; [discriminate | tauto].
  - destruct (k' =? k)%string eqn:E.
    + apply String.eqb_eq in E. tauto.
    + apply String.eqb_neq in E. tauto.
Qed.

Lemma created_keys_In k (ps : props) :
  In k (created_keys ps) <-> In k (map fst ps).
Proof.
  induction ps as [|[k' v] ps IH]; simpl; [tauto|].
  rewrite filter_In, IH, negb_true_iff.
  destruct (String.eqb_spec k k') as [->|N]; [tauto|].
  intuition congruence.
Qed.

Lemma array_index_canonical k n :
  array_index k = Some n -> string_of_N n = k.
Proof.
  unfold array_index.
  destruct (NilZero.uint_of_string k); [|discriminate].
  destruct (string_of_N (N.of_uint u) =? k)%string eqn:E; simpl;
    [|discriminate].
  destruct (N.of_uint u <? 4294967295)%N; [|discriminate].
  intros [= <-]. now apply String.eqb_eq.
Qed.

Lemma insert_sorted_In n m l :
  In n (insert_sorted m l) <-> n = m \/ In n l.
Proof.
  induction l as [|x l IH]; simpl; [intuition|].
  destruct (m <=? x)%N; simpl; [intuition|].
  rewrite IH. intuition.
Qed.

Lemma sort_indices_In n l : In n (sort_indices l) <-> In n l.
Proof.
  unfold sort_indices. induction l as [|x l IH]; simpl; [tauto|].
  rewrite insert_sorted_In, IH. intuition.
Qed.

Lemma index_values_In n ks :
  In n (index_values ks) <-> exists k, In k ks /\ array_index k = Some n.
Proof.
  induction ks as [|k ks IH]; simpl.
  - split; [tauto | intros (k & [] & _)].
  - destruct (array_index k) eqn:E; simpl; rewrite ?IH; split.
    + intros [->|(k' & Hk & Hn)]; eauto.
    + intros (k' & [->|Hk] & Hn); [left; congruence | eauto].
    + intros (k' & Hk & Hn); eauto.
    + intros (k' & [->|Hk] & Hn); [congruence | eauto].
Qed.

(** Enumeration visits exactly the keys the object owns. *)
Lemma own_keys_In k (ps : props) :
  In k (own_keys ps) <-> has_key k ps = true.
Proof.
  rewrite has_key_In, <- created_keys_In. unfold own_keys.
  rewrite in_app_iff, in_map_iff, filter_In, negb_true_iff.
  unfold is_array_index. split.
  - intros [(n & <- & Hn)|[H _]]; [|exact H].
    apply sort_indices_In, index_values_In in Hn.
    destruct Hn as (k' & Hk & Hn).
    now rewrite (array_index_canonical _ _ Hn).
  - intros H. destruct (array_index k) as [n|] eqn:E; [left | now right].
    exists n. split; [now apply array_index_canonical|].
    apply sort_indices_In, index_values_In. eauto.
Qed.

Lemma lookup_rev_keyed k (f : string -> value) ks :
  lookup k (rev (map (fun k' => (k', f k')) ks)) =
  if existsb (String.eqb k) ks then Some (f k) else None.
Proof.
  induction ks as [|k' ks IH]; simpl; [reflexivity|].
  rewrite lookup_app, IH. simpl. rewrite String.eqb_sym.
  destruct (existsb (String.eqb k) ks).
  - now rewrite orb_true_r.
  - rewrite orb_false_r.
    destruct (String.eqb_spec k k') as [->|]; reflexivity.
Qed.

Lemma lookup_rev_entries k (ps : props) :
  lookup k (rev (entries ps)) = lookup k ps.
Proof.
  unfold entries. rewrite lookup_rev_keyed.
  destruct (existsb (String.eqb k) (own_keys ps)) eqn:E.
  - apply existsb_exists in E. destruct E as (k' & Hin & Heq).
    apply String.eqb_eq in Heq; subst k'.
    apply own_keys_In in Hin. unfold has_key, prop in *.
    destruct (lookup k ps); [reflexivity | discriminate].
  - destruct (lookup k ps) eqn:L; [|reflexivity].
    assert (H : In k (own_keys ps))
      by (apply own_keys_In; unfold has_key; now rewrite L).
    assert (existsb (String.eqb k) (own_keys ps) = true)
      by (apply existsb_exists; exists k; split;
          [exact H | apply String.eqb_refl]).
    congruence.
Qed.

(** Object spread: a property of the later source hides the one the
    target has under the same name. *)
Lemma lookup_spread_object k (target overrides : props) :
  lookup k (spread_into target (VObject overrides)) =
  match lookup k overrides with
  | Some v => Some v
  | None => lookup k target
  end.
Proof.
  unfold spread_into. simpl.
  now rewrite lookup_assign, lookup_rev_entries.
Qed.

Lemma prop_spread_object k (target overrides : props) :
  prop k (spread_into target (VObject overrides)) =
  if has_key k overrides then prop k overrides else prop k target.
Proof.
  unfold prop, has_key. rewrite lookup_spread_object.
  destruct (lookup k overrides); reflexivity.
Qed.

End PropertyLists.

(* ================================================================== *)
(** * Facts about completions and conversions *)
(* ================================================================== *)

Lemma bind_Ok {A C} (c : result A) (k : A -> result C) (b : C) :
  bind c k = Ok b -> exists a, c = Ok a /\ k a = Ok b.
Proof. destruct c as [a|e]; simpl; [eauto | discriminate]. Qed.

(** Takes a successful run of binds apart, one step at a time. *)
Ltac monad_inv H :=
  lazymatch type of H with
  | bind _ _ = Ok _ =>
      let a := fresh "a" in
      let Ha := fresh "Step" in
      apply bind_Ok in H; destruct H as (a & Ha & H);
      cbv beta in H; monad_inv Ha; monad_inv H
  | Ok _ = Ok _ => injection H as H
  | Throw _ = Ok _ => discriminate H
  | _ => idtac
  end.

Section ConversionFacts.
Context {B : Builtins}.

Lemma get_defined v k x : get v k = Ok x -> nullish v = false.
Proof. destruct v; simpl; congruence. Qed.

Lemma get_total v k : nullish v = false -> exists x, get v k = Ok x.
Proof.
  destruct v; simpl; try discriminate; intros _; eauto.
  - destruct (k =? "length")%string; [eauto|].
    destruct (array_index k); eauto.
  - destruct (k =? "length")%string; [eauto|].
    destruct (array_index k); eauto.
Qed.

Lemma truthy_defined v : truthy v = true -> nullish v = false.
Proof. destruct v; simpl; congruence. Qed.

Lemma scalar_ToString v : scalar v -> exists s, ToString v = Ok s.
Proof. destruct v as [| |[|]| | | |]; simpl; try tauto; eauto. Qed.

Lemma scalar_ToNumber v : scalar v -> exists x, ToNumber v = Ok x.
Proof. destruct v as [| |[|]| | | |]; simpl; try tauto; eauto. Qed.

(** No Number is below or equal to NaN. *)
Lemma leb_nan x : PrimFloat.leb x NaN = false.
Proof.
  rewrite FloatAxioms.leb_spec. unfold NaN.
  replace (FloatOps.Prim2SF PrimFloat.nan) with SpecFloat.S754_nan
    by reflexivity.
  unfold SpecFloat.SFleb, SpecFloat.SFcompare.
  destruct (FloatOps.Prim2SF x) as [s|s| |s m e]; try destruct s;
    reflexivity.
Qed.

Lemma number_le_undefined x : number_le x VUndefined = Ok false.
Proof. unfold number_le. simpl. now rewrite leb_nan. Qed.

Lemma truthy_zero x :
  PrimFloat.eqb x 0 = true -> truthy (VNumber x) = false.
Proof. intros H. simpl. now rewrite H, orb_true_r. Qed.

End ConversionFacts.

(* ================================================================== *)
(** * Facts about the SLA validator *)
(* ================================================================== *)

Section ValidatorFacts.
Context {B : Builtins}.

Lemma upper_bound_check_Ok name x bound r :
  upper_bound_check name x bound = Ok r ->
  exists text y,
    ToString bound = Ok text /\ ToNumber bound = Ok y /\
    r = {| metric := name;
           actual := Number_toFixed x 2;
           threshold := ("<= " ++ text)%string;
           passed := PrimFloat.leb x y |}.
Proof.
  unfold upper_bound_check, number_le. intros H. monad_inv H.
  subst. eauto.
Qed.

Lemma lower_bound_check_Ok name x bound r :
  lower_bound_check name x bound = Ok r ->
  exists text y,
    ToString bound = Ok text /\ ToNumber bound = Ok y /\
    r = {| metric := name;
           actual := Number_toFixed x 2;
           threshold := (">= " ++ text)%string;
           passed := PrimFloat.leb y x |}.
Proof.
  unfold lower_bound_check, number_ge. intros H. monad_inv H.
  subst. eauto.
Qed.

Lemma upper_bound_check_metric name x bound r :
  upper_bound_check name x bound = Ok r -> metric r = name.
Proof.
  intros H. apply upper_bound_check_Ok in H.
  destruct H as (? & ? & _ & _ & ->). reflexivity.
Qed.

Lemma lower_bound_check_metric name x bound r :
  lower_bound_check name x bound = Ok r -> metric r = name.
Proof.
  intros H. apply lower_bound_check_Ok in H.
  destruct H as (? & ? & _ & _ & ->). reflexivity.
Qed.

Lemma infra_check_metric name usage infraSla key rs :
  infra_check name usage infraSla key = Ok rs ->
  map metric rs = if negb (usage =? "N/A")%string then [name] else [].
Proof.
  unfold infra_check. destruct (negb (usage =? "N/A")%string); intros H.
  - monad_inv H. subst. reflexivity.
  - monad_inv H. subst. reflexivity.
Qed.

(** What a returning run of the validator went through. *)
Lemma validateAgainstSLA_Ok k6Metrics infraMetrics runProfile slaConfig rs :
  validateAgainstSLA k6Metrics infraMetrics runProfile slaConfig = Ok rs ->
  exists sla infraSla r50 r90 r95 r99 rerr rtput rcpu rmem,
    performanceSla runProfile slaConfig = Ok sla /\
    get slaConfig "infrastructure" = Ok infraSla /\
    upper_bound_check "P50 Response Time (ms)" (p50ResponseTime k6Metrics)
      (js_or (prop "p50_response_time_ms" sla) (VNumber 200)) = Ok r50 /\
    upper_bound_check "P90 Response Time (ms)" (p90ResponseTime k6Metrics)
      (js_or (prop "p90_response_time_ms" sla) (VNumber 400)) = Ok r90 /\
    upper_bound_check "P95 Response Time (ms)" (p95ResponseTime k6Metrics)
      (prop "p95_response_time_ms" sla) = Ok r95 /\
    upper_bound_check "P99 Response Time (ms)" (p99ResponseTime k6Metrics)
      (js_or (prop "p99_response_time_ms" sla) (VNumber 1000)) = Ok r99 /\
    upper_bound_check "Error Rate (%)" (errorRate k6Metrics)
      (prop "max_error_rate_percent" sla) = Ok rerr /\
    (if truthy (prop "min_throughput_rps" sla)
     then exists r,
         lower_bound_check "Throughput (req/s)" (throughput k6Metrics)
           (prop "min_throughput_rps" sla) = Ok r /\ rtput = [r]
     else rtput = []) /\
    infra_check "CPU Usage (%)" (avgCpuUsage infraMetrics) infraSla
      "max_cpu_usage_percent" = Ok rcpu /\
    infra_check "Memory Usage (%)" (avgMemoryUsage infraMetrics) infraSla
      "max_memory_usage_percent" = Ok rmem /\
    rs = [r50; r90; r95; r99; rerr] ++ rtput ++ rcpu ++ rmem.
Proof.
  unfold validateAgainstSLA. intros H.
  apply bind_Ok in H; destruct H as (sla & Hsla & H).
  apply bind_Ok in H; destruct H as (infraSla & Hinfra & H).
  apply bind_Ok in H; destruct H as (r50 & H50 & H).
  apply bind_Ok in H; destruct H as (r90 & H90 & H).
  apply bind_Ok in H; destruct H as (r95 & H95 & H).
  apply bind_Ok in H; destruct H as (r99 & H99 & H).
  apply bind_Ok in H; destruct H as (rerr & Herr & H).
  apply bind_Ok in H; destruct H as (rtput & Htput & H).
  apply bind_Ok in H; destruct H as (rcpu & Hcpu & H).
  apply bind_Ok in H; destruct H as (rmem & Hmem & H).
  injection H as <-.
  exists sla, infraSla, r50, r90, r95, r99, rerr, rtput, rcpu, rmem.
  repeat (split; [assumption|]).
  split; [|auto].
  destruct (truthy (prop "min_throughput_rps" sla)).
  - monad_inv Htput. subst. eauto.
  - now injection Htput as <-.
Qed.

Lemma infra_check_In name usage infraSla key rs r :
  infra_check name usage infraSla key = Ok rs -> In r rs -> metric r = name.
Proof.
  intros H Hr. apply infra_check_metric in H.
  apply (in_map metric) in Hr. rewrite H in Hr.
  destruct (negb (usage =? "N/A")%string); simpl in Hr; [|destruct Hr].
  destruct Hr as [Hr|[]]. now symmetry.
Qed.

(** Without a truthy throughput bound no result is a throughput
    result. *)
Lemma no_throughput_result k6Metrics infraMetrics runProfile slaConfig sla rs :
  validateAgainstSLA k6Metrics infraMetrics runProfile slaConfig = Ok rs ->
  performanceSla runProfile slaConfig = Ok sla ->
  truthy (prop "min_throughput_rps" sla) = false ->
  Forall (fun r => metric r <> "Throughput (req/s)") rs.
Proof.
  intros Hrs Hsla Hf. apply validateAgainstSLA_Ok in Hrs.
  destruct Hrs as (sla' & infraSla & r50 & r90 & r95 & r99 & rerr & rtput
                   & rcpu & rmem & Hsla' & _ & H50 & H90 & H95 & H99 & Herr
                   & Htput & Hcpu & Hmem & ->).
  assert (sla' = sla) by congruence. subst sla'.
  rewrite Hf in Htput. subst rtput.
  apply Forall_forall. intros r Hr Hm. simpl in Hr.
  destruct Hr as [<-|[<-|[<-|[<-|[<-|Hr]]]]].
  - rewrite (upper_bound_check_metric _ _ _ _ H50) in Hm. discriminate.
  - rewrite (upper_bound_check_metric _ _ _ _ H90) in Hm. discriminate.
  - rewrite (upper_bound_check_metric _ _ _ _ H95) in Hm. discriminate.
  - rewrite (upper_bound_check_metric _ _ _ _ H99) in Hm. discriminate.
  - rewrite (upper_bound_check_metric _ _ _ _ Herr) in Hm. discriminate.
  - apply in_app_or in Hr. destruct Hr as [Hr|Hr].
    + rewrite (infra_check_In _ _ _ _ _ _ Hcpu Hr) in Hm. discriminate.
    + rewrite (infra_check_In _ _ _ _ _ _ Hmem Hr) in Hm. discriminate.
Qed.

End ValidatorFacts.

Section ValidatorTotality.
Context {B : Builtins}.

Lemma has_key_false_prop k (ps : props) :
  has_key k ps = false -> prop k ps = VUndefined.
Proof. unfold has_key, prop. destruct (lookup k ps); congruence. Qed.

Lemma upper_bound_check_scalar name x bound :
  scalar bound -> exists r, upper_bound_check name x bound = Ok r.
Proof.
  intros H. unfold upper_bound_check, number_le.
  destruct (scalar_ToString _ H) as (s & ->).
  destruct (scalar_ToNumber _ H) as (y & ->). simpl. eauto.
Qed.

Lemma lower_bound_check_scalar name x bound :
  scalar bound -> exists r, lower_bound_check name x bound = Ok r.
Proof.
  intros H. unfold lower_bound_check, number_ge.
  destruct (scalar_ToString _ H) as (s & ->).
  destruct (scalar_ToNumber _ H) as (y & ->). simpl. eauto.
Qed.

Lemma scalar_js_or a b : scalar a -> scalar b -> scalar (js_or a b).
Proof. unfold js_or. now destruct (truthy a). Qed.

Lemma infra_check_ready name usage infraSla key :
  infra_ready usage infraSla ->
  exists rs, infra_check name usage infraSla key = Ok rs.
Proof.
  unfold infra_check. intros [->|(ps & -> & Hps)]; [simpl; eauto|].
  destruct (negb (usage =? "N/A")%string); [|eauto]. simpl.
  unfold number_le.
  destruct (scalar_ToString _ (Hps key)) as (s & ->).
  destruct (scalar_ToNumber _ (Hps key)) as (y & ->). simpl. eauto.
Qed.

(** The validator returns whenever the bounds it reads are scalars. *)
Lemma validateAgainstSLA_returns k6Metrics infraMetrics runProfile slaConfig
  sla infraSla :
  performanceSla runProfile slaConfig = Ok sla ->
  scalar_members sla ->
  get slaConfig "infrastructure" = Ok infraSla ->
  infra_ready (avgCpuUsage infraMetrics) infraSla ->
  infra_ready (avgMemoryUsage infraMetrics) infraSla ->
  exists rs,
    validateAgainstSLA k6Metrics infraMetrics runProfile slaConfig = Ok rs.
Proof.
  intros Hsla Hs Hinfra Hcpu Hmem. unfold validateAgainstSLA.
  rewrite Hsla, Hinfra. simpl.
  destruct (upper_bound_check_scalar "P50 Response Time (ms)"
              (p50ResponseTime k6Metrics)
              (js_or (prop "p50_response_time_ms" sla) (VNumber 200)))
    as (r50 & ->); [apply scalar_js_or; [apply Hs | exact I]|].
  destruct (upper_bound_check_scalar "P90 Response Time (ms)"
              (p90ResponseTime k6Metrics)
              (js_or (prop "p90_response_time_ms" sla) (VNumber 400)))
    as (r90 & ->); [apply scalar_js_or; [apply Hs | exact I]|].
  destruct (upper_bound_check_scalar "P95 Response Time (ms)"
              (p95ResponseTime k6Metrics) (prop "p95_response_time_ms" sla))
    as (r95 & ->); [apply Hs|].
  destruct (upper_bound_check_scalar "P99 Response Time (ms)"
              (p99ResponseTime k6Metrics)
              (js_or (prop "p99_response_time_ms" sla) (VNumber 1000)))
    as (r99 & ->); [apply scalar_js_or; [apply Hs | exact I]|].
  destruct (upper_bound_check_scalar "Error Rate (%)"
              (errorRate k6Metrics) (prop "max_error_rate_percent" sla))
    as (rerr & ->); [apply Hs|].
  simpl.
  destruct (infra_check_ready "CPU Usage (%)" _ _ "max_cpu_usage_percent" Hcpu)
    as (rcpu & Ecpu).
  destruct (infra_check_ready "Memory Usage (%)" _ _
              "max_memory_usage_percent" Hmem) as (rmem & Emem).
  destruct (truthy (prop "min_throughput_rps" sla)).
  - destruct (lower_bound_check_scalar "Throughput (req/s)"
                (throughput k6Metrics) (prop "min_throughput_rps" sla))
      as (rt & ->); [apply Hs|].
    simpl. rewrite Ecpu. simpl. rewrite Emem. simpl. eauto.
  - simpl. rewrite Ecpu. simpl. rewrite Emem. simpl. eauto.
Qed.

(** How a configuration made of objects resolves. *)
Lemma performanceSla_objects runProfile slaConfig (defaults profiles : props) :
  get slaConfig "performance" = Ok (VObject defaults) ->
  get slaConfig "profiles" = Ok (VObject profiles) ->
  performanceSla runProfile slaConfig =
  Ok (spread_into (spread_into [] (VObject defaults))
        (js_or (prop runProfile profiles) (VObject []))).
Proof.
  intros Hd Hp. unfold performanceSla. rewrite Hp. simpl. now rewrite Hd.
Qed.

Lemma prop_spread_defaults k (defaults : props) :
  prop k (spread_into [] (VObject defaults)) = prop k defaults.
Proof.
  rewrite prop_spread_object.
  destruct (has_key k defaults) eqn:E; [reflexivity|].
  now rewrite (has_key_false_prop _ _ E).
Qed.

(** The resolved thresholds are the overlay of the active profile on
    the global defaults. *)
Lemma performanceSla_effective slaConfig (defaults profiles : props)
  runProfile active sla :
  get slaConfig "performance" = Ok (VObject defaults) ->
  get slaConfig "profiles" = Ok (VObject profiles) ->
  active_profile profiles runProfile active ->
  performanceSla runProfile slaConfig = Ok sla ->
  forall k, prop k sla = effective defaults active k.
Proof.
  intros Hd Hp Ha Hsla k.
  rewrite (performanceSla_objects _ _ _ _ Hd Hp) in Hsla.
  injection Hsla as <-. unfold js_or.
  destruct active as [overrides|]; simpl in Ha; rewrite Ha; simpl.
  - now rewrite prop_spread_object, prop_spread_defaults.
  - now rewrite prop_spread_object, prop_spread_defaults.
Qed.

End ValidatorTotality.

(* ================================================================== *)
(** * Claims about the SLA validator *)
(* ================================================================== *)

Section ValidatorClaims.
Context {B : Builtins}.

(** C9.  Whenever the validator returns, the metric names of its list
    are, in this order: P50, P90, P95, P99, error rate, then throughput
    if that check is emitted, then CPU and then memory if those checks
    are emitted. *)
Theorem validation_order k6Metrics infraMetrics runProfile slaConfig rs :
  validateAgainstSLA k6Metrics infraMetrics runProfile slaConfig = Ok rs ->
  exists sla,
    performanceSla runProfile slaConfig = Ok sla /\
    map metric rs =
    ["P50 Response Time (ms)"; "P90 Response Time (ms)";
     "P95 Response Time (ms)"; "P99 Response Time (ms)"; "Error Rate (%)"]
      ++ (if truthy (prop "min_throughput_rps" sla)
          then ["Throughput (req/s)"] else [])
      ++ (if negb (avgCpuUsage infraMetrics =? "N/A")%string
          then ["CPU Usage (%)"] else [])
      ++ (if negb (avgMemoryUsage infraMetrics =? "N/A")%string
          then ["Memory Usage (%)"] else []).
Proof.
  intros H. apply validateAgainstSLA_Ok in H.
  destruct H as (sla & infraSla & r50 & r90 & r95 & r99 & rerr & rtput
                 & rcpu & rmem & Hsla & _ & H50 & H90 & H95 & H99 & Herr
                 & Htput & Hcpu & Hmem & ->).
  exists sla. split; [exact Hsla|].
  rewrite !map_app. simpl.
  rewrite (upper_bound_check_metric _ _ _ _ H50),
    (upper_bound_check_metric _ _ _ _ H90),
    (upper_bound_check_metric _ _ _ _ H95),
    (upper_bound_check_metric _ _ _ _ H99),
    (upper_bound_check_metric _ _ _ _ Herr),
    (infra_check_metric _ _ _ _ _ Hcpu), (infra_check_metric _ _ _ _ _ Hmem).
  do 5 f_equal.
  destruct (truthy (prop "min_throughput_rps" sla)).
  - destruct Htput as (r & Hr & ->). simpl.
    now rewrite (lower_bound_check_metric _ _ _ _ Hr).
  - now subst rtput.
Qed.

(** C1, as amended.  When the p95 bound, or the error-rate bound, is
    absent from the resolved thresholds, the validator raises nothing:
    provided the bounds it reads are scalars it returns its list, and
    the result for that metric is an ordinary one, with threshold text
    ["<= undefined"] and [passed = false], whatever was measured. *)
Theorem missing_mandatory_bound_fails_check k6Metrics infraMetrics runProfile
  slaConfig sla infraSla :
  performanceSla runProfile slaConfig = Ok sla ->
  scalar_members sla ->
  get slaConfig "infrastructure" = Ok infraSla ->
  infra_ready (avgCpuUsage infraMetrics) infraSla ->
  infra_ready (avgMemoryUsage infraMetrics) infraSla ->
  exists rs,
    validateAgainstSLA k6Metrics infraMetrics runProfile slaConfig = Ok rs /\
    (has_key "p95_response_time_ms" sla = false ->
     nth_error rs 2 =
     Some {| metric := "P95 Response Time (ms)";
             actual := Number_toFixed (p95ResponseTime k6Metrics) 2;
             threshold := "<= undefined";
             passed := false |}) /\
    (has_key "max_error_rate_percent" sla = false ->
     nth_error rs 4 =
     Some {| metric := "Error Rate (%)";
             actual := Number_toFixed (errorRate k6Metrics) 2;
             threshold := "<= undefined";
             passed := false |}).
Proof.
  intros Hsla Hs Hinfra Hcpu Hmem.
  destruct (validateAgainstSLA_returns k6Metrics infraMetrics runProfile
              slaConfig sla infraSla Hsla Hs Hinfra Hcpu Hmem) as (rs & Hrs).
  exists rs. split; [exact Hrs|].
  apply validateAgainstSLA_Ok in Hrs.
  destruct Hrs as (sla' & infraSla' & r50 & r90 & r95 & r99 & rerr & rtput
                   & rcpu & rmem & Hsla' & _ & _ & _ & H95 & _ & Herr
                   & _ & _ & _ & ->).
  assert (sla' = sla) by congruence. subst sla'.
  split; intros Habsent; rewrite (has_key_false_prop _ _ Habsent) in *; simpl.
  - unfold upper_bound_check in H95. rewrite number_le_undefined in H95.
    simpl in H95. congruence.
  - unfold upper_bound_check in Herr. rewrite number_le_undefined in Herr.
    simpl in Herr. congruence.
Qed.

Lemma bound_or_default name x supplied default r :
  upper_bound_check name x
    (if truthy supplied then supplied else VNumber default) = Ok r ->
  (truthy supplied = true -> upper_bound_check name x supplied = Ok r) /\
  (forall b,
      supplied = VNumber b -> truthy supplied = true ->
      r = {| metric := name;
             actual := Number_toFixed x 2;
             threshold := ("<= " ++ Number_toString b)%string;
             passed := PrimFloat.leb x b |}) /\
  (truthy supplied = false ->
   r = {| metric := name;
          actual := Number_toFixed x 2;
          threshold := ("<= " ++ Number_toString default)%string;
          passed := PrimFloat.leb x default |}).
Proof.
  intros H. destruct (truthy supplied) eqn:T.
  - split; [intros _; exact H|]. split; [|discriminate].
    intros b -> _. unfold upper_bound_check in H. simpl in H.
    now injection H.
  - split; [discriminate|]. split; [discriminate|].
    intros _. unfold upper_bound_check in H. simpl in H. now injection H.
Qed.

(** C3, as amended.  For every configuration whose [performance]
    section is the object [defaults] and whose [profiles] section is
    the object [profiles], and for every profile name under which
    [profiles] holds an object or nothing: let the effective bound of a
    key be the value the active profile defines for it, and the global
    default when it defines none.  Whenever the validator returns,
    - the p95 check and the error-rate check are made against the
      effective bound, whatever it is;
    - the p50, p90 and p99 checks are made against the effective bound
      only when it is truthy, and against 200, 400 and 1000 otherwise,
      the effective bound 0 included;
    - the throughput check is made against the effective bound when
      it is truthy, and is not made otherwise. *)
Theorem effective_threshold_checked k6Metrics infraMetrics slaConfig
  (defaults profiles : props) (runProfile : string) (active : option props)
  rs :
  get slaConfig "performance" = Ok (VObject defaults) ->
  get slaConfig "profiles" = Ok (VObject profiles) ->
  active_profile profiles runProfile active ->
  validateAgainstSLA k6Metrics infraMetrics runProfile slaConfig = Ok rs ->
  checked_against rs 2 "P95 Response Time (ms)" (p95ResponseTime k6Metrics)
    (effective defaults active "p95_response_time_ms") /\
  checked_against rs 4 "Error Rate (%)" (errorRate k6Metrics)
    (effective defaults active "max_error_rate_percent") /\
  default_unless_truthy rs 0 "P50 Response Time (ms)"
    (p50ResponseTime k6Metrics)
    (effective defaults active "p50_response_time_ms") 200 /\
  default_unless_truthy rs 1 "P90 Response Time (ms)"
    (p90ResponseTime k6Metrics)
    (effective defaults active "p90_response_time_ms") 400 /\
  default_unless_truthy rs 3 "P99 Response Time (ms)"
    (p99ResponseTime k6Metrics)
    (effective defaults active "p99_response_time_ms") 1000 /\
  throughput_checked_against rs (throughput k6Metrics)
    (effective defaults active "min_throughput_rps").
Proof.
  intros Hd Hp Ha Hrs.
  assert (Hrs' := Hrs). apply validateAgainstSLA_Ok in Hrs'.
  destruct Hrs' as (sla & infraSla & r50 & r90 & r95 & r99 & rerr & rtput
                    & rcpu & rmem & Hsla & _ & H50 & H90 & H95 & H99 & Herr
                    & Htput & _ & _ & ->).
  assert (Hnone := no_throughput_result _ _ _ _ _ _ Hrs Hsla).
  assert (He := performanceSla_effective _ _ _ _ _ _ Hd Hp Ha Hsla).
  rewrite !He in *. unfold js_or in *.
  split; [|split; [|split; [|split; [|split]]]].
  - apply upper_bound_check_Ok in H95.
    destruct H95 as (text & y & Ht & Hy & ->). now exists text, y.
  - apply upper_bound_check_Ok in Herr.
    destruct Herr as (text & y & Ht & Hy & ->). now exists text, y.
  - exists r50. split; [reflexivity|]. now apply bound_or_default.
  - exists r90. split; [reflexivity|]. now apply bound_or_default.
  - exists r99. split; [reflexivity|]. now apply bound_or_default.
  - unfold throughput_checked_against.
    destruct (truthy (effective defaults active "min_throughput_rps")).
    + destruct Htput as (r & Hr & ->).
      apply lower_bound_check_Ok in Hr.
      destruct Hr as (text & y & Ht & Hy & ->). now exists text, y.
    + now apply Hnone.
Qed.

(** C8, as amended.  Whenever the validator returns, each of the p50,
    p90 and p99 checks (at positions 0, 1 and 3) is made against the
    resolved bound when that bound is truthy, a non-zero number in
    particular, and against the default (200, 400 and 1000) when the
    resolved bound is absent or falsy, the number 0 included. *)
Theorem percentile_defaults k6Metrics infraMetrics runProfile slaConfig rs :
  validateAgainstSLA k6Metrics infraMetrics runProfile slaConfig = Ok rs ->
  exists sla,
    performanceSla runProfile slaConfig = Ok sla /\
    default_unless_truthy rs 0 "P50 Response Time (ms)"
      (p50ResponseTime k6Metrics) (prop "p50_response_time_ms" sla) 200 /\
    default_unless_truthy rs 1 "P90 Response Time (ms)"
      (p90ResponseTime k6Metrics) (prop "p90_response_time_ms" sla) 400 /\
    default_unless_truthy rs 3 "P99 Response Time (ms)"
      (p99ResponseTime k6Metrics) (prop "p99_response_time_ms" sla) 1000.
Proof.
  intros H. apply validateAgainstSLA_Ok in H.
  destruct H as (sla & infraSla & r50 & r90 & r95 & r99 & rerr & rtput
                 & rcpu & rmem & Hsla & _ & H50 & H90 & _ & H99 & _
                 & _ & _ & _ & ->).
  exists sla. split; [exact Hsla|].
  unfold default_unless_truthy, js_or in *. simpl.
  split; [|split].
  - exists r50. split; [reflexivity|]. now apply bound_or_default.
  - exists r90. split; [reflexivity|]. now apply bound_or_default.
  - exists r99. split; [reflexivity|]. now apply bound_or_default.
Qed.

(** C10.  Whenever the validator returns: if the resolved
    [min_throughput_rps] bound is the number 0, its list holds no
    throughput result, and neither does it when no bound is configured;
    the list it returns is then the very list it returns for any
    configuration that resolves to the same other bounds and configures
    no throughput bound; and a throughput result is in the list only
    when the resolved bound is truthy, so neither 0 nor absent. *)
Theorem zero_throughput_bound_suppresses_check k6Metrics infraMetrics
  runProfile slaConfig sla rs :
  performanceSla runProfile slaConfig = Ok sla ->
  validateAgainstSLA k6Metrics infraMetrics runProfile slaConfig = Ok rs ->
  (forall x,
      prop "min_throughput_rps" sla = VNumber x -> PrimFloat.eqb x 0 = true ->
      Forall (fun r => metric r <> "Throughput (req/s)") rs /\
      forall runProfile' slaConfig' sla',
        performanceSla runProfile' slaConfig' = Ok sla' ->
        has_key "min_throughput_rps" sla' = false ->
        (forall k, k <> "min_throughput_rps" -> prop k sla' = prop k sla) ->
        get slaConfig' "infrastructure" = get slaConfig "infrastructure" ->
        validateAgainstSLA k6Metrics infraMetrics runProfile' slaConfig'
        = Ok rs) /\
  (has_key "min_throughput_rps" sla = false ->
   Forall (fun r => metric r <> "Throughput (req/s)") rs) /\
  (forall r,
      In r rs -> metric r = "Throughput (req/s)" ->
      truthy (prop "min_throughput_rps" sla) = true /\
      lower_bound_check "Throughput (req/s)" (throughput k6Metrics)
        (prop "min_throughput_rps" sla) = Ok r).
Proof.
  intros Hsla Hrs.
  assert (Hfalsy := no_throughput_result _ _ _ _ _ _ Hrs Hsla).
  split; [|split].
  - intros x Hx Hzero.
    assert (Hf : truthy (prop "min_throughput_rps" sla) = false)
      by (rewrite Hx; now apply truthy_zero).
    split; [now apply Hfalsy|].
    intros runProfile' slaConfig' sla' Hsla' Habsent Hsame Hinfra.
    rewrite <- Hrs. unfold validateAgainstSLA.
    rewrite Hsla, Hsla', Hinfra. simpl.
    rewrite !Hsame by discriminate.
    rewrite (has_key_false_prop _ _ Habsent), Hf. reflexivity.
  - intros Habsent. apply Hfalsy.
    now rewrite (has_key_false_prop _ _ Habsent).
  - intros r Hr Hm.
    destruct (truthy (prop "min_throughput_rps" sla)) eqn:Ht.
    + split; [reflexivity|].
      apply validateAgainstSLA_Ok in Hrs.
      destruct Hrs as (sla' & infraSla & r50 & r90 & r95 & r99 & rerr
                       & rtput & rcpu & rmem & Hsla' & _ & H50 & H90 & H95
                       & H99 & Herr & Htput & Hcpu & Hmem & ->).
      assert (sla' = sla) by congruence. subst sla'. rewrite Ht in Htput.
      destruct Htput as (rt & Hrt & ->).
      simpl in Hr.
      destruct Hr as [<-|[<-|[<-|[<-|[<-|[<-|Hr]]]]]]; try exact Hrt.
      * rewrite (upper_bound_check_metric _ _ _ _ H50) in Hm. discriminate.
      * rewrite (upper_bound_check_metric _ _ _ _ H90) in Hm. discriminate.
      * rewrite (upper_bound_check_metric _ _ _ _ H95) in Hm. discriminate.
      * rewrite (upper_bound_check_metric _ _ _ _ H99) in Hm. discriminate.
      * rewrite (upper_bound_check_metric _ _ _ _ Herr) in Hm. discriminate.
      * exfalso. apply in_app_or in Hr. destruct Hr as [Hr|Hr].
        -- rewrite (infra_check_In _ _ _ _ _ _ Hcpu Hr) in Hm. discriminate.
        -- rewrite (infra_check_In _ _ _ _ _ _ Hmem Hr) in Hm. discriminate.
    + exfalso. specialize (Hfalsy eq_refl). rewrite Forall_forall in Hfalsy.
      exact (Hfalsy r Hr Hm).
Qed.

End ValidatorClaims.

(* ================================================================== *)
(** * Facts about the metric extractor *)
(* ================================================================== *)

Section ExtractorFacts.
Context {B : Builtins}.

Lemma get_field v k : nullish v = false -> get v k = Ok (field v k).
Proof.
  intros H. destruct (get_total v k H) as (x & E).
  unfold field. now rewrite E.
Qed.

Lemma get_field_truthy v k : truthy v = true -> get v k = Ok (field v k).
Proof. intros H. now apply get_field, truthy_defined. Qed.

Lemma field_get v k x : get v k = Ok x -> field v k = x.
Proof. unfold field. now intros ->. Qed.

Lemma numeric_or_zero v :
  numeric v ->
  exists x, js_or v (VNumber 0) = VNumber x /\ (v = VUndefined -> x = 0%float).
Proof.
  unfold numeric, js_or. destruct (truthy v) eqn:T; intros H.
  - destruct (H eq_refl) as (x & ->). exists x. split; [reflexivity|].
    discriminate.
  - exists 0%float. split; reflexivity.
Qed.

Lemma numeric_median med p50 :
  numeric (js_or med p50) ->
  exists x,
    js_or med (js_or p50 (VNumber 0)) = VNumber x /\
    (med = VUndefined -> p50 = VUndefined -> x = 0%float).
Proof.
  intros H. destruct (truthy med) eqn:T.
  - assert (E : js_or med p50 = med) by (unfold js_or; now rewrite T).
    rewrite E in H. destruct (H T) as (x & ->). exists x.
    split; [unfold js_or; now rewrite T | discriminate].
  - assert (E : js_or med p50 = p50) by (unfold js_or; now rewrite T).
    rewrite E in H. destruct (numeric_or_zero p50 H) as (x & Ex & Hx).
    exists x. split; [|intros _; exact Hx].
    rewrite <- Ex. unfold js_or at 1. now rewrite T.
Qed.

Lemma js_or_zero_undefined v :
  v = VUndefined -> js_or v (VNumber 0) = VNumber 0.
Proof. now intros ->. Qed.

(** The latency block on a typed duration metric. *)
Lemma latency_fields_typed d :
  (truthy d = true ->
   numeric (js_or (field d "med") (field d "p(50)")) /\
   numeric (field d "p(90)") /\ numeric (field d "p(95)") /\
   numeric (field d "p(99)") /\ numeric (field d "avg")) ->
  exists p50 p90 p95 p99 avg mn mx,
    latency_fields d =
    Ok (VNumber p50, VNumber p90, VNumber p95, VNumber p99, VNumber avg,
        mn, mx) /\
    (field d "med" = VUndefined -> field d "p(50)" = VUndefined ->
     p50 = 0%float) /\
    (field d "p(90)" = VUndefined -> p90 = 0%float) /\
    (field d "p(95)" = VUndefined -> p95 = 0%float) /\
    (field d "p(99)" = VUndefined -> p99 = 0%float) /\
    (field d "avg" = VUndefined -> avg = 0%float) /\
    (field d "min" = VUndefined -> mn = VNumber 0) /\
    (field d "max" = VUndefined -> mx = VNumber 0).
Proof.
  intros H. unfold latency_fields. destruct (truthy d) eqn:T.
  - destruct (H eq_refl) as (H50 & H90 & H95 & H99 & Havg).
    rewrite !(get_field_truthy d _ T). simpl.
    destruct (numeric_median _ _ H50) as (x50 & -> & F50).
    destruct (numeric_or_zero _ H90) as (x90 & -> & F90).
    destruct (numeric_or_zero _ H95) as (x95 & -> & F95).
    destruct (numeric_or_zero _ H99) as (x99 & -> & F99).
    destruct (numeric_or_zero _ Havg) as (xavg & -> & Favg).
    exists x50, x90, x95, x99, xavg.
    eexists. eexists. split; [reflexivity|].
    repeat split; try assumption; apply js_or_zero_undefined.
  - exists 0%float, 0%float, 0%float, 0%float, 0%float.
    eexists. eexists. split; [reflexivity|]. repeat split.
Qed.

Lemma has_value_field e :
  has_value e = Ok (truthy e && is_defined (field e "value")).
Proof.
  unfold has_value. destruct (truthy e) eqn:T; [|reflexivity].
  now rewrite (get_field_truthy e _ T).
Qed.

Lemma times_scalar v y : scalar v -> exists x, times v y = Ok x.
Proof.
  intros H. unfold times. destruct (scalar_ToNumber v H) as (x & ->).
  simpl. eauto.
Qed.

(** The error-rate block on a container whose rate metrics carry
    scalars. *)
Lemma error_rate_total ms :
  nullish ms = false ->
  (truthy (field ms "errors") = true ->
   scalar (field (field ms "errors") "value")) ->
  (truthy (field ms "http_req_failed") = true ->
   scalar (field (field ms "http_req_failed") "value")) ->
  exists rate,
    error_rate ms = Ok rate /\
    (field (field ms "errors") "value" = VUndefined ->
     field (field ms "http_req_failed") "value" = VUndefined ->
     rate = 0%float).
Proof.
  intros Hms He Hf. unfold error_rate.
  rewrite (get_field ms "errors" Hms). simpl.
  rewrite has_value_field. simpl.
  destruct (truthy (field ms "errors")) eqn:Te; simpl.
  - destruct (is_defined (field (field ms "errors") "value")) eqn:De.
    + rewrite (get_field_truthy _ _ Te). simpl.
      destruct (times_scalar _ 100%float (He eq_refl)) as (x & ->).
      exists x. split; [reflexivity|].
      intros E. rewrite E in De. discriminate.
    + rewrite (get_field ms "http_req_failed" Hms). simpl.
      rewrite has_value_field. simpl.
      destruct (truthy (field ms "http_req_failed")) eqn:Tf; simpl.
      * destruct (is_defined (field (field ms "http_req_failed") "value"))
          eqn:Df.
        -- rewrite (get_field_truthy _ _ Tf). simpl.
           destruct (times_scalar _ 100%float (Hf eq_refl)) as (x & ->).
           exists x. split; [reflexivity|].
           intros _ E. rewrite E in Df. discriminate.
        -- exists 0%float. split; reflexivity.
      * exists 0%float. split; reflexivity.
  - rewrite (get_field ms "http_req_failed" Hms). simpl.
    rewrite has_value_field. simpl.
    destruct (truthy (field ms "http_req_failed")) eqn:Tf; simpl.
    + destruct (is_defined (field (field ms "http_req_failed") "value"))
        eqn:Df.
      * rewrite (get_field_truthy _ _ Tf). simpl.
        destruct (times_scalar _ 100%float (Hf eq_refl)) as (x & ->).
        exists x. split; [reflexivity|].
        intros _ E. rewrite E in Df. discriminate.
      * exists 0%float. split; reflexivity.
    + exists 0%float. split; reflexivity.
Qed.

Lemma traffic_fields_typed reqs :
  (truthy reqs = true ->
   numeric (field reqs "rate") /\ scalar (field reqs "count")) ->
  exists tput total,
    traffic_fields reqs = Ok (VNumber tput, total) /\
    scalar total /\
    (field reqs "rate" = VUndefined -> tput = 0%float) /\
    (field reqs "count" = VUndefined -> total = VNumber 0).
Proof.
  intros H. unfold traffic_fields. destruct (truthy reqs) eqn:T.
  - rewrite !(get_field_truthy reqs _ T). simpl.
    destruct (H eq_refl) as (Hrate & Hcount).
    destruct (numeric_or_zero _ Hrate) as (x & -> & F).
    exists x. eexists. split; [reflexivity|].
    split; [apply scalar_js_or; [exact Hcount | exact I]|].
    split; [exact F | apply js_or_zero_undefined].
  - exists 0%float. eexists. split; [reflexivity|].
    split; [exact I|]. split; reflexivity.
Qed.

Lemma iteration_count_total its :
  exists iters,
    iteration_count its = Ok iters /\
    (field its "count" = VUndefined -> iters = VNumber 0).
Proof.
  unfold iteration_count. destruct (truthy its) eqn:T.
  - rewrite (get_field_truthy its _ T). simpl.
    eexists. split; [reflexivity | apply js_or_zero_undefined].
  - eexists. split; reflexivity.
Qed.

Lemma forEach_check_total l :
  Forall (fun c => nullish c = false) l ->
  exists cs, forEach_check l = Ok cs.
Proof.
  induction 1 as [|c l Hc _ (cs & IH)]; simpl; [eauto|].
  unfold check_entry. rewrite !(get_field c _ Hc). simpl.
  rewrite IH. simpl. eauto.
Qed.

Lemma checks_data_total summary :
  nullish summary = false ->
  typed_checks summary ->
  exists checks,
    checks_data summary = Ok checks /\
    (field (field summary "root_group") "checks" = VUndefined ->
     checks = []).
Proof.
  intros Hs Ht. unfold checks_data, typed_checks in *.
  rewrite (get_field summary "root_group" Hs). simpl.
  destruct (truthy (field summary "root_group")) eqn:T.
  - rewrite (get_field_truthy _ "checks" T). simpl.
    specialize (Ht eq_refl).
    destruct (field (field summary "root_group") "checks")
      as [| | | | |l|ps]; try (eexists; split; [reflexivity|reflexivity]).
    + destruct (forEach_check_total l Ht) as (cs & E).
      exists cs. split; [exact E | discriminate].
    + destruct (forEach_check_total _ Ht) as (cs & E).
      exists cs. split; [exact E | discriminate].
  - eexists. split; reflexivity.
Qed.

Lemma endpoint_entry_total label v :
  (truthy v = true -> number_or_nullish (field v "avg")) ->
  exists es, endpoint_entry label v = Ok es.
Proof.
  intros H. unfold endpoint_entry. destruct (truthy v) eqn:T; [|eauto].
  rewrite (get_field_truthy v _ T). simpl. unfold avg_text.
  destruct (H eq_refl) as [-> | (x & ->)]; simpl; eauto.
Qed.

(** What a returning extraction computed for the error rate. *)
Lemma extractK6Metrics_error_rate summary m :
  extractK6Metrics summary = Ok m ->
  exists ms,
    get summary "metrics" = Ok ms /\ error_rate ms = Ok (errorRate m).
Proof.
  unfold extractK6Metrics. intros H.
  apply bind_Ok in H; destruct H as (ms & Hms & H).
  apply bind_Ok in H; destruct H as (d & _ & H).
  apply bind_Ok in H; destruct H as (lat & _ & H).
  destruct lat as [[[[[[p50 p90] p95] p99] avg] mn] mx].
  apply bind_Ok in H; destruct H as (rate & Hrate & H).
  apply bind_Ok in H; destruct H as (reqs & _ & H).
  apply bind_Ok in H; destruct H as (traffic & _ & H).
  destruct traffic as [tput total].
  monad_inv H. subst m. simpl. eauto.
Qed.

End ExtractorFacts.

(* ================================================================== *)
(** * Claims about the metric extractor *)
(* ================================================================== *)

Section ExtractorClaims.
Context {B : Builtins}.

(** C2, as amended.  For every payload that has a metrics container
    other than [null], whose fields, where present, have the expected
    types and whose checks are not [null], the extraction returns a
    metrics object; it raises for no field and no sub-object that is
    missing inside the metrics container, the duration sub-object and
    the checks container included; every numeric field the payload
    lacks is 0 in the result, and the checks are empty when the payload
    has none. *)
Theorem extraction_total_on_typed_payloads summary ms :
  get summary "metrics" = Ok ms ->
  nullish ms = false ->
  typed_metrics ms ->
  typed_checks summary ->
  exists m,
    extractK6Metrics summary = Ok m /\ defaults_applied summary ms m.
Proof.
  intros Hms Hdef (Hd & He & Hf & Hr & Hb & Ha) Hc.
  assert (Hs : nullish summary = false) by exact (get_defined _ _ _ Hms).
  destruct (latency_fields_typed _ Hd)
    as (p50 & p90 & p95 & p99 & avg & mn & mx & Elat & F50 & F90 & F95
        & F99 & Favg & Fmin & Fmax).
  destruct (error_rate_total ms Hdef He Hf) as (rate & Erate & Frate).
  destruct (traffic_fields_typed _ Hr)
    as (tput & total & Etr & Stot & Ftput & Ftot).
  destruct (scalar_ToString _ Stot) as (text & Etext).
  destruct (iteration_count_total (field ms "iterations"))
    as (iters & Eit & Fit).
  destruct (checks_data_total summary Hs Hc) as (checks & Ech & Fch).
  destruct (endpoint_entry_total "GET /posts (Browse/List)" _ Hb)
    as (e1 & Ee1).
  destruct (endpoint_entry_total "API Dynamic endpoints (GET/POST)" _ Ha)
    as (e2 & Ee2).
  eexists. split.
  - unfold extractK6Metrics. rewrite Hms. simpl.
    rewrite (get_field ms "http_req_duration" Hdef). simpl.
    rewrite Elat. simpl. rewrite Erate. simpl.
    rewrite (get_field ms "http_reqs" Hdef). simpl.
    rewrite Etr. simpl.
    rewrite (get_field ms "iterations" Hdef). simpl.
    rewrite Eit. simpl. rewrite Ech. simpl.
    rewrite (get_field ms "browse_duration" Hdef). simpl.
    rewrite Ee1. simpl.
    rewrite (get_field ms "api_duration" Hdef). simpl.
    rewrite Ee2. simpl. rewrite Etext. simpl. reflexivity.
  - unfold defaults_applied. simpl. repeat split; assumption.
Qed.

(** C7.  Whenever the extraction returns: if the [errors] metric
    carries a value, the error rate is that value times 100, whatever
    [http_req_failed] holds; if [errors] carries none and
    [http_req_failed] carries a value, the error rate is that value
    times 100; if neither carries a value, the error rate is 0.  (For a
    value that is the Number [x], the product is
    [PrimFloat.mul x 100].) *)
Theorem error_rate_precedence summary m ms errors failed :
  extractK6Metrics summary = Ok m ->
  get summary "metrics" = Ok ms ->
  get ms "errors" = Ok errors ->
  get ms "http_req_failed" = Ok failed ->
  (forall v, carries errors v -> times v 100 = Ok (errorRate m)) /\
  (forall x, carries errors (VNumber x) ->
             errorRate m = PrimFloat.mul x 100) /\
  (carries_nothing errors ->
   forall v, carries failed v -> times v 100 = Ok (errorRate m)) /\
  (carries_nothing errors ->
   forall x, carries failed (VNumber x) ->
             errorRate m = PrimFloat.mul x 100) /\
  (carries_nothing errors -> carries_nothing failed ->
   errorRate m = 0%float).
Proof.
  intros Hm Hms He Hf.
  destruct (extractK6Metrics_error_rate _ _ Hm) as (ms' & Hms' & Hrate).
  assert (ms' = ms) by congruence. subst ms'. clear Hms'.
  unfold error_rate in Hrate. rewrite He in Hrate. simpl in Hrate.
  rewrite has_value_field in Hrate. simpl in Hrate.
  assert (Hyes : forall e v, carries e v ->
                 truthy e && is_defined (field e "value") = true
                 /\ get e "value" = Ok v).
  { intros e v (T & G & N). rewrite T, (field_get _ _ _ G). simpl.
    split; [destruct v; simpl; congruence | exact G]. }
  assert (Hno : forall e, carries_nothing e ->
                truthy e && is_defined (field e "value") = false).
  { intros e [T|G]; [now rewrite T|].
    rewrite (field_get _ _ _ G). simpl. apply andb_false_r. }
  assert (Hfirst : forall v, carries errors v ->
                   times v 100 = Ok (errorRate m)).
  { intros v Hv. destruct (Hyes _ _ Hv) as (E & G).
    rewrite E, G in Hrate. exact Hrate. }
  assert (Hsecond : carries_nothing errors -> forall v, carries failed v ->
                    times v 100 = Ok (errorRate m)).
  { intros Hn v Hv. rewrite (Hno _ Hn), Hf in Hrate. simpl in Hrate.
    rewrite has_value_field in Hrate. simpl in Hrate.
    destruct (Hyes _ _ Hv) as (E & G). rewrite E, G in Hrate. exact Hrate. }
  repeat split.
  - exact Hfirst.
  - intros x Hx. specialize (Hfirst _ Hx). unfold times in Hfirst.
    simpl in Hfirst. congruence.
  - exact Hsecond.
  - intros Hn x Hx. specialize (Hsecond Hn _ Hx). unfold times in Hsecond.
    simpl in Hsecond. congruence.
  - intros Hn Hn'. rewrite (Hno _ Hn), Hf in Hrate. simpl in Hrate.
    rewrite has_value_field in Hrate. simpl in Hrate.
    rewrite (Hno _ Hn') in Hrate. congruence.
Qed.

End ExtractorClaims.

(* ================================================================== *)
(** * Facts about the report computations *)
(* ================================================================== *)

Section ReportFacts.
Context {B : Builtins}.

Lemma JSON_value_array l : JSON_value (VArray l) = VArray (map JSON_element l).
Proof. reflexivity. Qed.




End ReportFacts.

(* ================================================================== *)
(** * Claims about the history store, the comparison and the severity *)
(* ================================================================== *)

Section ReportClaims.
Context {B : Builtins}.

(** C6.  For every stored history that is an array [records], saving a
    run appends its record and keeps the last 50 of the sequence, in
    order, in the array returned and in the file written.  When
    [records] already holds 50 records, the result holds exactly 50:
    the oldest record is gone, the others follow in their order and the
    new record is last. *)
Theorem history_eviction validationResults metadata now iso records :
  let entry := history_entry validationResults metadata now iso in
  let appended := records ++ [entry] in
  exists history stored,
    saveToHistory validationResults metadata now iso (Stored (VArray records))
    = Ok (history, Stored (VArray stored)) /\
    history = skipn (List.length appended - HISTORY_LIMIT) appended /\
    stored = map JSON_element history /\
    List.length history = Nat.min (List.length records + 1) HISTORY_LIMIT /\
    (List.length records = HISTORY_LIMIT ->
     history = tl records ++ [entry] /\
     List.length history = HISTORY_LIMIT /\
     List.length stored = HISTORY_LIMIT).
Proof.
  intros entry appended. unfold saveToHistory. fold entry. fold appended.
  assert (Hlen : List.length appended = List.length records + 1)
    by (unfold appended; rewrite length_app; reflexivity).
  assert (Hkeep :
            (if (HISTORY_LIMIT <? List.length appended)%nat
             then slice_last HISTORY_LIMIT appended else appended)
            = skipn (List.length appended - HISTORY_LIMIT) appended).
  { unfold slice_last.
    destruct (Nat.ltb_spec HISTORY_LIMIT (List.length appended)) as [Hlt|Hge];
      [reflexivity|].
    replace (List.length appended - HISTORY_LIMIT) with 0 by lia.
    reflexivity. }
  rewrite Hkeep. rewrite JSON_value_array.
  eexists. eexists. split; [reflexivity|].
  split; [reflexivity|]. split; [reflexivity|].
  assert (Hmin : List.length
                   (skipn (List.length appended - HISTORY_LIMIT) appended)
                 = Nat.min (List.length records + 1) HISTORY_LIMIT)
    by (rewrite length_skipn; lia).
  split; [exact Hmin|].
  intros Hfull. split; [|split].
  - rewrite Hlen, Hfull. unfold HISTORY_LIMIT. simpl.
    unfold appended. destruct records; [discriminate Hfull | reflexivity].
  - rewrite Hmin, Hfull. unfold HISTORY_LIMIT. reflexivity.
  - rewrite length_map, Hmin, Hfull. unfold HISTORY_LIMIT. reflexivity.
Qed.

(** C4.  For every metrics object and every alert table whose four
    bounds are Numbers, the severity is CRITICAL when the p95 latency
    or the error rate exceeds its critical bound, whatever the warning
    bounds are; otherwise it is WARNING when either exceeds its warning
    bound; otherwise HEALTHY. *)
Theorem severity_critical_first metadata km alerts critical warning
  c95 cerr w95 werr :
  Metadata.k6Metrics metadata = Some km ->
  alertConfig metadata = Ok alerts ->
  get alerts "critical" = Ok critical ->
  get alerts "warning" = Ok warning ->
  get critical "p95_response_time_ms" = Ok (VNumber c95) ->
  get critical "max_error_rate_percent" = Ok (VNumber cerr) ->
  get warning "p95_response_time_ms" = Ok (VNumber w95) ->
  get warning "max_error_rate_percent" = Ok (VNumber werr) ->
  let over_critical :=
    PrimFloat.ltb c95 (p95ResponseTime km)
    || PrimFloat.ltb cerr (errorRate km) in
  let over_warning :=
    PrimFloat.ltb w95 (p95ResponseTime km)
    || PrimFloat.ltb werr (errorRate km) in
  severityLevel metadata =
  Ok (Some (if over_critical then "CRITICAL"
            else if over_warning then "WARNING" else "HEALTHY")) /\
  (over_critical = true -> severityLevel metadata = Ok (Some "CRITICAL")).
Proof.
  intros Hkm Halerts Hc Hw Hc95 Hcerr Hw95 Hwerr over_critical over_warning.
  assert (E : severityLevel metadata =
              Ok (Some (if over_critical then "CRITICAL"
                        else if over_warning then "WARNING"
                             else "HEALTHY"))).
  { unfold severityLevel, exceeds, number_gt.
    rewrite Halerts, Hkm. simpl. rewrite Hc. simpl. rewrite Hc95. simpl.
    unfold over_critical, over_warning.
    destruct (PrimFloat.ltb c95 (p95ResponseTime km)); simpl;
      [reflexivity|].
    rewrite Hcerr. simpl.
    destruct (PrimFloat.ltb cerr (errorRate km)); simpl; [reflexivity|].
    rewrite Hw. simpl. rewrite Hw95. simpl.
    destruct (PrimFloat.ltb w95 (p95ResponseTime km)); simpl;
      [reflexivity|].
    rewrite Hwerr. simpl.
    destruct (PrimFloat.ltb werr (errorRate km)); reflexivity. }
  split; [exact E|]. intros Ho. now rewrite E, Ho.
Qed.


End ReportClaims.

(* ================================================================== *)
(** * The claims on the sample inputs *)
(* ================================================================== *)

Lemma scalar_members_Forall (ps : props) :
  Forall (fun e => scalar (snd e)) ps -> scalar_members ps.
Proof.
  intros H k. unfold prop.
  induction H as [|[k' v] ps Hv _ IH]; simpl; [exact I|].
  destruct (k' =? k)%string; [exact Hv | exact IH].
Qed.

Section Evaluation.
#[local] Existing Instance Reference.builtins.
#[local] Set Warnings "-inexact-float".

(** The reference conversions on values whose JavaScript results are
    well known. *)
Example reference_conversions :
  Number_toFixed 1.005 2 = "1.00" /\
  Number_toFixed 0.125 2 = "0.13" /\
  Number_toFixed (-1.5) 2 = "-1.50" /\
  Number_toString 0.1 = "0.1" /\
  Number_toString (1 / 3) = "0.3333333333333333" /\
  Number_toString 1e21 = "1e+21" /\
  Number_toString 0.000001 = "0.000001" /\
  Number_toString 1e-7 = "1e-7" /\
  parseFloat_string "45.0" = 45%float /\
  parseFloat_string "  3.14abc" = 3.14%float /\
  PrimFloat.is_nan (parseFloat_string "N/A") = true /\
  StringToNumber "" = 0%float /\
  StringToNumber " 12 " = 12%float /\
  StringToNumber "0x1F" = 31%float /\
  PrimFloat.is_nan (StringToNumber "12px") = true.
Proof. vm_compute. repeat split; reflexivity. Qed.

(** White space around a numeral: the no-break space counts as white
    space, and a numeral of another radix may be followed by white
    space. *)
Example reference_white_space :
  parseFloat_string (String (ascii_of_nat 160) "45.5") = 45.5%float /\
  StringToNumber (String (ascii_of_nat 160) "45.5") = 45.5%float /\
  StringToNumber "0x10 " = 16%float.
Proof. vm_compute. repeat split; reflexivity. Qed.

(** The validator on the inputs of its test suite: every check passes. *)
Example validation_of_test_inputs :
  validateAgainstSLA Sample.k6Metrics Sample.infraMetrics "default"
    Sample.slaConfig
  = Ok Sample.validationResults.
Proof. vm_compute. reflexivity. Qed.

(** The scenario of the specification: a p95 of 600 against a bound of
    500 fails, with the measurement shown with two decimals. *)
Example p95_above_bound :
  upper_bound_check "P95 Response Time (ms)" 600 (VNumber 500)
  = Ok {| metric := "P95 Response Time (ms)"; actual := "600.00";
          threshold := "<= 500"; passed := false |}.
Proof. vm_compute. reflexivity. Qed.

(** The extractor on the payload of its test suite. *)
Example extraction_of_test_payload :
  extractK6Metrics Sample.summary = Ok Sample.extracted.
Proof. vm_compute. reflexivity. Qed.

(** A configuration without a [profiles] section makes the validator
    raise: [slaConfig.profiles[runProfile]] reads a property of
    [undefined]. *)
Example validation_needs_profiles_section :
  validateAgainstSLA Sample.k6Metrics Sample.infraMetrics "default"
    (VObject [("performance", VObject Sample.performance);
              ("infrastructure", VObject Sample.infrastructure)])
  = Throw TypeError.
Proof. reflexivity. Qed.

(** C3, the counterexample: the profile [strict] defines the p50 bound
    0 and the global default is 300; the validator checks the median
    against 200, which is neither of the two, and a median of 150 ms
    passes. *)
Lemma effective_threshold_counterexample :
  effective Sample.performance_relaxed (Some Sample.strict)
    "p50_response_time_ms" = VNumber 0 /\
  prop "p50_response_time_ms" Sample.performance_relaxed = VNumber 300 /\
  exists rest,
    validateAgainstSLA Sample.k6Metrics Sample.infraMetrics "strict"
      Sample.slaConfig_strict
    = Ok ({| metric := "P50 Response Time (ms)"; actual := "150.00";
             threshold := "<= 200"; passed := true |} :: rest).
Proof.
  split; [reflexivity|]. split; [reflexivity|].
  eexists. vm_compute. reflexivity.
Qed.

(** C3 as amended, on the sample configuration under the profile
    [stress], which defines the p95 bound 1500 and the error-rate bound
    5 and leaves the other keys to the global defaults. *)
Lemma effective_threshold_checked_witness :
  exists rs,
    validateAgainstSLA Sample.k6Metrics Sample.infraMetrics "stress"
      Sample.slaConfig = Ok rs /\
    effective Sample.performance (Some Sample.stress) "p95_response_time_ms"
    = VNumber 1500 /\
    effective Sample.performance (Some Sample.stress) "p50_response_time_ms"
    = VNumber 200 /\
    checked_against rs 2 "P95 Response Time (ms)"
      (p95ResponseTime Sample.k6Metrics)
      (effective Sample.performance (Some Sample.stress)
         "p95_response_time_ms") /\
    checked_against rs 4 "Error Rate (%)" (errorRate Sample.k6Metrics)
      (effective Sample.performance (Some Sample.stress)
         "max_error_rate_percent") /\
    default_unless_truthy rs 0 "P50 Response Time (ms)"
      (p50ResponseTime Sample.k6Metrics)
      (effective Sample.performance (Some Sample.stress)
         "p50_response_time_ms") 200 /\
    default_unless_truthy rs 1 "P90 Response Time (ms)"
      (p90ResponseTime Sample.k6Metrics)
      (effective Sample.performance (Some Sample.stress)
         "p90_response_time_ms") 400 /\
    default_unless_truthy rs 3 "P99 Response Time (ms)"
      (p99ResponseTime Sample.k6Metrics)
      (effective Sample.performance (Some Sample.stress)
         "p99_response_time_ms") 1000 /\
    throughput_checked_against rs (throughput Sample.k6Metrics)
      (effective Sample.performance (Some Sample.stress)
         "min_throughput_rps").
Proof.
  eexists. split; [vm_compute; reflexivity|].
  split; [reflexivity|]. split; [reflexivity|].
  apply (effective_threshold_checked Sample.k6Metrics Sample.infraMetrics
           Sample.slaConfig Sample.performance Sample.profiles "stress"
           (Some Sample.stress)).
  - reflexivity.
  - reflexivity.
  - reflexivity.
  - vm_compute. reflexivity.
Defined.

(** C9 on the test inputs: the eight results come in the fixed order. *)
Lemma validation_order_witness :
  exists sla,
    performanceSla "default" Sample.slaConfig = Ok sla /\
    map metric Sample.validationResults =
    ["P50 Response Time (ms)"; "P90 Response Time (ms)";
     "P95 Response Time (ms)"; "P99 Response Time (ms)"; "Error Rate (%)"]
      ++ (if truthy (prop "min_throughput_rps" sla)
          then ["Throughput (req/s)"] else [])
      ++ (if negb (avgCpuUsage Sample.infraMetrics =? "N/A")%string
          then ["CPU Usage (%)"] else [])
      ++ (if negb (avgMemoryUsage Sample.infraMetrics =? "N/A")%string
          then ["Memory Usage (%)"] else []).
Proof.
  apply (validation_order Sample.k6Metrics Sample.infraMetrics "default"
           Sample.slaConfig Sample.validationResults).
  vm_compute. reflexivity.
Defined.

(** C1, the counterexample: with no p95 bound and no error-rate bound
    in the configuration the validator returns normally, and its list
    holds a failed check for each of the two metrics. *)
Lemma missing_mandatory_bound_counterexample :
  has_key "p95_response_time_ms" Sample.performance_without_mandatory = false
  /\ has_key "max_error_rate_percent" Sample.performance_without_mandatory
     = false
  /\ validateAgainstSLA Sample.k6Metrics Sample.infraMetrics "default"
       Sample.slaConfig_without_mandatory
     = Ok [{| metric := "P50 Response Time (ms)"; actual := "150.00";
              threshold := "<= 200"; passed := true |};
           {| metric := "P90 Response Time (ms)"; actual := "300.00";
              threshold := "<= 400"; passed := true |};
           {| metric := "P95 Response Time (ms)"; actual := "400.00";
              threshold := "<= undefined"; passed := false |};
           {| metric := "P99 Response Time (ms)"; actual := "800.00";
              threshold := "<= 1000"; passed := true |};
           {| metric := "Error Rate (%)"; actual := "0.50";
              threshold := "<= undefined"; passed := false |};
           {| metric := "Throughput (req/s)"; actual := "50.00";
              threshold := ">= 40"; passed := true |};
           {| metric := "CPU Usage (%)"; actual := "45.0";
              threshold := "<= 80"; passed := true |};
           {| metric := "Memory Usage (%)"; actual := "60.0";
              threshold := "<= 85"; passed := true |}].
Proof. vm_compute. repeat split; reflexivity. Qed.

(** C1 as amended, on that configuration. *)
Lemma missing_mandatory_bound_witness :
  exists rs,
    validateAgainstSLA Sample.k6Metrics Sample.infraMetrics "default"
      Sample.slaConfig_without_mandatory = Ok rs /\
    (has_key "p95_response_time_ms" Sample.performance_without_mandatory
     = false ->
     nth_error rs 2 =
     Some {| metric := "P95 Response Time (ms)";
             actual := Number_toFixed (p95ResponseTime Sample.k6Metrics) 2;
             threshold := "<= undefined";
             passed := false |}) /\
    (has_key "max_error_rate_percent" Sample.performance_without_mandatory
     = false ->
     nth_error rs 4 =
     Some {| metric := "Error Rate (%)";
             actual := Number_toFixed (errorRate Sample.k6Metrics) 2;
             threshold := "<= undefined";
             passed := false |}).
Proof.
  apply (missing_mandatory_bound_fails_check Sample.k6Metrics
           Sample.infraMetrics "default" Sample.slaConfig_without_mandatory
           Sample.performance_without_mandatory
           (VObject Sample.infrastructure)).
  - vm_compute. reflexivity.
  - apply scalar_members_Forall. repeat constructor.
  - reflexivity.
  - right. exists Sample.infrastructure.
    split; [reflexivity|]. apply scalar_members_Forall. repeat constructor.
  - right. exists Sample.infrastructure.
    split; [reflexivity|]. apply scalar_members_Forall. repeat constructor.
Defined.

(** C8, the counterexample: the configuration supplies the bound 0 for
    p50, and the p50 check is made against 200: a median of 150 ms
    passes a bound of 0 ms. *)
Lemma percentile_defaults_counterexample :
  prop "p50_response_time_ms" Sample.performance_with_zeros = VNumber 0 /\
  exists rest,
    validateAgainstSLA Sample.k6Metrics Sample.infraMetrics "default"
      Sample.slaConfig_with_zeros
    = Ok ({| metric := "P50 Response Time (ms)"; actual := "150.00";
             threshold := "<= 200"; passed := true |} :: rest).
Proof. split; [reflexivity|]. eexists. vm_compute. reflexivity. Qed.

(** C8 as amended, on the test inputs. *)
Lemma percentile_defaults_witness :
  exists sla,
    performanceSla "default" Sample.slaConfig_with_zeros = Ok sla /\
    default_unless_truthy Sample.validationResults_with_zeros 0
      "P50 Response Time (ms)" (p50ResponseTime Sample.k6Metrics)
      (prop "p50_response_time_ms" sla) 200 /\
    default_unless_truthy Sample.validationResults_with_zeros 1
      "P90 Response Time (ms)" (p90ResponseTime Sample.k6Metrics)
      (prop "p90_response_time_ms" sla) 400 /\
    default_unless_truthy Sample.validationResults_with_zeros 3
      "P99 Response Time (ms)" (p99ResponseTime Sample.k6Metrics)
      (prop "p99_response_time_ms" sla) 1000.
Proof.
  apply (percentile_defaults Sample.k6Metrics Sample.infraMetrics "default"
           Sample.slaConfig_with_zeros Sample.validationResults_with_zeros).
  vm_compute. reflexivity.
Defined.

(** C10 on a configuration whose throughput bound is 0: the list holds
    no throughput result. *)
Lemma zero_throughput_bound_witness :
  validateAgainstSLA Sample.k6Metrics Sample.infraMetrics "default"
    Sample.slaConfig_with_zeros
  = Ok Sample.validationResults_with_zeros /\
  prop "min_throughput_rps" Sample.performance_with_zeros = VNumber 0 /\
  Forall (fun r => metric r <> "Throughput (req/s)")
    Sample.validationResults_with_zeros.
Proof.
  assert (Hrs : validateAgainstSLA Sample.k6Metrics Sample.infraMetrics
                  "default" Sample.slaConfig_with_zeros
                = Ok Sample.validationResults_with_zeros)
    by (vm_compute; reflexivity).
  split; [exact Hrs|]. split; [reflexivity|].
  destruct (zero_throughput_bound_suppresses_check Sample.k6Metrics
              Sample.infraMetrics "default" Sample.slaConfig_with_zeros
              Sample.performance_with_zeros
              Sample.validationResults_with_zeros eq_refl Hrs)
    as (Hzero & _).
  exact (proj1 (Hzero 0%float eq_refl eq_refl)).
Defined.

(** C2, the counterexample: the payload [{}] has no metrics container,
    and the extraction raises a TypeError. *)
Lemma extraction_counterexample :
  extractK6Metrics (VObject []) = Throw TypeError.
Proof. reflexivity. Qed.

(** Why the amended claim asks for typed fields and for checks that are
    not [null]: a latency field that holds text, and a check that is
    [null], make the extraction raise as well. *)
Example extraction_raises_on_text_latency :
  extractK6Metrics
    (VObject [("metrics",
               VObject [("http_req_duration",
                         VObject [("med", VString "fast")])])])
  = Throw TypeError.
Proof. reflexivity. Qed.

Example extraction_raises_on_null_check :
  extractK6Metrics
    (VObject [("metrics", VObject []);
              ("root_group", VObject [("checks", VArray [VNull])])])
  = Throw TypeError.
Proof. reflexivity. Qed.

(** A payload with a request counter and nothing else: every other
    field is 0 and the sequences are empty. *)
Example extraction_of_sparse_payload :
  extractK6Metrics Sample.sparse_summary
  = Ok {| p50ResponseTime := 0;
          p90ResponseTime := 0;
          p95ResponseTime := 0;
          p99ResponseTime := 0;
          avgResponseTime := 0;
          minResponseTime := VNumber 0;
          maxResponseTime := VNumber 0;
          errorRate := 0;
          throughput := 0;
          totalRequests := VNumber 100;
          iterations := VNumber 0;
          checksData := [];
          endpoints := [] |}.
Proof. vm_compute. reflexivity. Qed.

(** C2 as amended, on a payload with neither a duration sub-object nor
    rate metrics nor checks. *)
Lemma extraction_total_witness :
  exists m,
    extractK6Metrics Sample.sparse_summary = Ok m /\
    defaults_applied Sample.sparse_summary Sample.sparse_metrics m.
Proof.
  apply (extraction_total_on_typed_payloads Sample.sparse_summary
           Sample.sparse_metrics).
  - reflexivity.
  - reflexivity.
  - unfold typed_metrics, numeric. simpl. repeat split; intros; discriminate.
  - unfold typed_checks. simpl. intros; discriminate.
Defined.

(** C7 on the test payload, where [errors] carries 0.02 and
    [http_req_failed] carries 0.05: the error rate is 0.02 * 100 = 2. *)
Lemma error_rate_precedence_witness :
  extractK6Metrics Sample.summary = Ok Sample.extracted /\
  carries (field Sample.metrics "errors") (VNumber 0.02) /\
  carries (field Sample.metrics "http_req_failed") (VNumber 0.05) /\
  errorRate Sample.extracted = PrimFloat.mul 0.02 100.
Proof.
  assert (Hm : extractK6Metrics Sample.summary = Ok Sample.extracted)
    by (vm_compute; reflexivity).
  assert (He : carries (field Sample.metrics "errors") (VNumber 0.02))
    by (repeat split; discriminate).
  assert (Hf : carries (field Sample.metrics "http_req_failed")
                 (VNumber 0.05))
    by (repeat split; discriminate).
  split; [exact Hm|]. split; [exact He|]. split; [exact Hf|].
  destruct (error_rate_precedence Sample.summary Sample.extracted
              Sample.metrics (field Sample.metrics "errors")
              (field Sample.metrics "http_req_failed")
              Hm eq_refl eq_refl eq_refl) as (_ & Hnum & _).
  exact (Hnum _ He).
Defined.

(** C6 on a stored history of 50 records: the result holds 50 records,
    the record numbered 0 is gone and the new record is last. *)
Example eviction_of_full_history :
  exists history file,
    saveToHistory Sample.validationResults Sample.metadata 1700000000000
      "2023-11-14T22:13:20.000Z" (Stored (VArray Sample.full_history))
    = Ok (history, file) /\
    List.length history = 50 /\
    hd_error history = Some (Sample.numbered 1) /\
    last history VNull =
    history_entry Sample.validationResults Sample.metadata 1700000000000
      "2023-11-14T22:13:20.000Z".
Proof. eexists. eexists. vm_compute. repeat split; reflexivity. Qed.

(** A result named [__proto__] leaves no metric in the record of the
    run. *)
Example record_of_a_result_named_proto :
  entry_metrics
    [{| metric := "__proto__"; actual := "1.00";
        threshold := "<= 2"; passed := true |};
     {| metric := "Error Rate (%)"; actual := "0.50";
        threshold := "<= 1"; passed := true |}]
  = [("Error Rate (%)",
      VObject [("actual", VString "0.50"); ("threshold", VString "<= 1");
               ("passed", VBool true)])].
Proof. reflexivity. Qed.

(** C4 on a run whose p95 latency, 2500 ms, is above the warning bound
    800 and above the critical bound 2000: CRITICAL. *)
Lemma severity_critical_first_witness :
  severityLevel Sample.slow_metadata = Ok (Some "CRITICAL").
Proof.
  apply (severity_critical_first Sample.slow_metadata Sample.slow_k6Metrics
           default_alerts Sample.critical_tier Sample.warning_tier
           2000 10 800 3);
    reflexivity.
Defined.

(** C5 on two runs: the p95 latency went from 100 to 120, a regression
    of 20 percent; the throughput went from 10 to 12, an improvement of
    20 percent; the error rate was 0 and is skipped. *)
Example comparison_of_two_runs :
  comparisons [Sample.previous_run; Sample.current_run]
  = Ok (Some [{| Comparison.metric := "P95 Response Time (ms)";
                 Comparison.current := 120;
                 Comparison.previous := 100;
                 Comparison.delta := "20.0";
                 Comparison.isImproved := false |};
              {| Comparison.metric := "Throughput (req/s)";
                 Comparison.current := 12;
                 Comparison.previous := 10;
                 Comparison.delta := "20.0";
                 Comparison.isImproved := true |}]).
Proof. vm_compute. reflexivity. Qed.

(** A metric named as a member that every object inherits: the
    previous record passes the test without owning the metric.  The
    comparison then reads the [actual] of the current entry, which
    raises when that entry is [null], and pushes no row when it is a
    record, since the inherited member has no [actual]. *)
Example comparison_of_an_inherited_member :
  comparisons [VObject [("metrics", VObject [])];
               VObject [("metrics", VObject [("constructor", VNull)])]]
  = Throw TypeError /\
  comparisons
    [VObject [("metrics", VObject [])];
     VObject [("metrics",
               VObject [("constructor",
                         VObject [("actual", VString "5")])])]]
  = Ok (Some []).
Proof. vm_compute. split; reflexivity. Qed.


End Evaluation.

(* ================================================================== *)
(** * Facts about the order of Numbers *)
(* ================================================================== *)

Section FloatOrder.
Import SpecFloat FloatOps FloatAxioms.

Lemma SFcompare_antisym a b :
  SFcompare b a = option_map CompOpp (SFcompare a b).
Proof.
  destruct a as [s1|s1| |s1 m1 e1], b as [s2|s2| |s2 m2 e2]; simpl;
    try destruct s1; try destruct s2; simpl; try reflexivity.
  - rewrite (Z.compare_antisym e1 e2).
    destruct (e1 ?= e2)%Z eqn:E; simpl; try reflexivity.
    rewrite !Pos.compare_cont_spec, (Pos.compare_antisym m1 m2). simpl.
    now destruct (m1 ?= m2)%positive.
  - rewrite (Z.compare_antisym e1 e2).
    destruct (e1 ?= e2)%Z eqn:E; simpl; try reflexivity.
    rewrite !Pos.compare_cont_spec, (Pos.compare_antisym m1 m2). simpl.
    now destruct (m1 ?= m2)%positive.
Qed.

Lemma SFcompare_nan a b :
  SFcompare a b = None <-> a = S754_nan \/ b = S754_nan.
Proof.
  destruct a as [s1|s1| |s1 m1 e1], b as [s2|s2| |s2 m2 e2]; simpl;
    split; intros H; try discriminate; auto;
    try (destruct H; discriminate).
Qed.

Lemma SFcompare_refl a : a <> S754_nan -> SFcompare a a = Some Eq.
Proof.
  destruct a as [s|s| |s m e]; simpl; intros H; try congruence.
  - now destruct s.
  - rewrite Z.compare_refl, Pos.compare_cont_spec, Pos.compare_refl.
    now destruct s.
Qed.

Lemma SFcompare_rank a b :
  a <> S754_nan -> b <> S754_nan -> SFcompare a b = Some (rank_compare (rank a) (rank b)).
Proof.
  destruct a as [s1|s1| |s1 m1 e1], b as [s2|s2| |s2 m2 e2]; simpl;
    intros Ha Hb; try congruence;
    try destruct s1; try destruct s2; simpl; try reflexivity.
  rewrite Z.compare_opp, (Z.compare_antisym e1 e2).
  destruct (e1 ?= e2)%Z; simpl; try reflexivity;
    now destruct (m1 ?= m2)%positive.
Qed.

Lemma rank_compare_trans x y z :
  rank_compare x y <> Gt -> rank_compare y z <> Gt -> rank_compare x z <> Gt.
Proof.
  destruct x as [[a1 b1] c1], y as [[a2 b2] c2], z as [[a3 b3] c3].
  unfold rank_compare.
  destruct (Z.compare_spec a1 a2), (Z.compare_spec a2 a3),
    (Z.compare_spec a1 a3); try lia; try congruence;
  destruct (Z.compare_spec b1 b2), (Z.compare_spec b2 b3),
    (Z.compare_spec b1 b3); try lia; try congruence;
  destruct (Z.compare_spec c1 c2), (Z.compare_spec c2 c3),
    (Z.compare_spec c1 c3); try lia; congruence.
Qed.

Lemma is_nan_spec x : PrimFloat.is_nan x = true <-> Prim2SF x = S754_nan.
Proof.
  unfold PrimFloat.is_nan. rewrite eqb_spec. unfold SFeqb.
  destruct (Prim2SF x) as [s|s| |s m e] eqn:E; simpl.
  - split; [discriminate|discriminate].
  - destruct s; split; discriminate.
  - split; reflexivity.
  - rewrite Z.compare_refl, Pos.compare_cont_spec, Pos.compare_refl.
    destruct s; split; discriminate.
Qed.

Lemma not_nan_spec x : PrimFloat.is_nan x = false -> Prim2SF x <> S754_nan.
Proof.
  intros H E. apply is_nan_spec in E. congruence.
Qed.

Lemma ltb_leb x y : PrimFloat.ltb x y = true -> PrimFloat.leb x y = true.
Proof.
  rewrite ltb_spec, leb_spec. unfold SFltb, SFleb.
  now destruct (SFcompare _ _) as [[| |]|].
Qed.

Lemma leb_refl x : PrimFloat.is_nan x = false -> PrimFloat.leb x x = true.
Proof.
  intros H. rewrite leb_spec. unfold SFleb.
  now rewrite (SFcompare_refl _ (not_nan_spec _ H)).
Qed.

Lemma leb_false_ltb x y :
  PrimFloat.is_nan x = false -> PrimFloat.is_nan y = false ->
  PrimFloat.leb x y = false -> PrimFloat.ltb y x = true.
Proof.
  intros Hx Hy. rewrite ltb_spec, leb_spec. unfold SFltb, SFleb.
  rewrite (SFcompare_antisym (Prim2SF x) (Prim2SF y)).
  rewrite (SFcompare_rank _ _ (not_nan_spec _ Hx) (not_nan_spec _ Hy)).
  simpl. now destruct (rank_compare _ _).
Qed.

Lemma ltb_false_leb x y :
  PrimFloat.is_nan x = false -> PrimFloat.is_nan y = false ->
  PrimFloat.ltb x y = false -> PrimFloat.leb y x = true.
Proof.
  intros Hx Hy. rewrite ltb_spec, leb_spec. unfold SFltb, SFleb.
  rewrite (SFcompare_antisym (Prim2SF x) (Prim2SF y)).
  rewrite (SFcompare_rank _ _ (not_nan_spec _ Hx) (not_nan_spec _ Hy)).
  simpl. now destruct (rank_compare _ _).
Qed.

Lemma leb_not_nan x y :
  PrimFloat.leb x y = true ->
  PrimFloat.is_nan x = false /\ PrimFloat.is_nan y = false.
Proof.
  rewrite leb_spec. unfold SFleb. intros H.
  destruct (SFcompare (Prim2SF x) (Prim2SF y)) eqn:E; [|discriminate].
  split.
  - destruct (PrimFloat.is_nan x) eqn:N; [|reflexivity].
    apply is_nan_spec in N. rewrite N in E. discriminate.
  - destruct (PrimFloat.is_nan y) eqn:N; [|reflexivity].
    apply is_nan_spec in N. rewrite N in E.
    destruct (Prim2SF x); discriminate.
Qed.

Lemma leb_trans x y z :
  PrimFloat.leb x y = true -> PrimFloat.leb y z = true ->
  PrimFloat.leb x z = true.
Proof.
  intros Hxy Hyz.
  destruct (leb_not_nan _ _ Hxy) as (Hx & Hy).
  destruct (leb_not_nan _ _ Hyz) as (_ & Hz).
  revert Hxy Hyz. rewrite !leb_spec. unfold SFleb.
  rewrite (SFcompare_rank _ _ (not_nan_spec _ Hx) (not_nan_spec _ Hy)).
  rewrite (SFcompare_rank _ _ (not_nan_spec _ Hy) (not_nan_spec _ Hz)).
  rewrite (SFcompare_rank _ _ (not_nan_spec _ Hx) (not_nan_spec _ Hz)).
  intros A C.
  pose proof (rank_compare_trans (rank (Prim2SF x)) (rank (Prim2SF y))
                (rank (Prim2SF z))) as T.
  destruct (rank_compare (rank (Prim2SF x)) (rank (Prim2SF y))); try discriminate;
  destruct (rank_compare (rank (Prim2SF y)) (rank (Prim2SF z))); try discriminate;
  destruct (rank_compare (rank (Prim2SF x)) (rank (Prim2SF z))); try reflexivity;
  exfalso; apply T; congruence.
Qed.

End FloatOrder.

Section FloatBounds.
Import SpecFloat FloatOps FloatAxioms.

Lemma eqb_leb x y :
  PrimFloat.eqb x y = true ->
  PrimFloat.leb x y = true /\ PrimFloat.leb y x = true.
Proof.
  rewrite eqb_spec, !leb_spec. unfold SFeqb, SFleb.
  rewrite (SFcompare_antisym (Prim2SF x) (Prim2SF y)).
  destruct (SFcompare (Prim2SF x) (Prim2SF y)) as [[| |]|]; try discriminate.
  now split.
Qed.

Lemma not_above_neg_infinity x :
  PrimFloat.is_nan x = false ->
  PrimFloat.ltb PrimFloat.neg_infinity x = false ->
  x = PrimFloat.neg_infinity.
Proof.
  intros Hn. rewrite ltb_spec. unfold SFltb. intros H.
  apply Prim2SF_inj.
  change (Prim2SF PrimFloat.neg_infinity) with (S754_infinity true) in *.
  pose proof (not_nan_spec _ Hn) as N.
  destruct (Prim2SF x) as [s|s| |s m e]; try destruct s; simpl in H;
    try discriminate; congruence.
Qed.

Lemma neg_infinity_not_nan : PrimFloat.is_nan PrimFloat.neg_infinity = false.
Proof. reflexivity. Qed.

End FloatBounds.

Section MaxFacts.

Lemma zeros_leb a b :
  PrimFloat.is_zero a = true -> PrimFloat.is_zero b = true ->
  PrimFloat.leb a b = true.
Proof.
  unfold PrimFloat.is_zero. intros Ha Hb.
  apply eqb_leb in Ha. apply eqb_leb in Hb.
  eapply leb_trans; [apply Ha|apply Hb].
Qed.

Lemma is_zero_not_nan a : PrimFloat.is_zero a = true -> PrimFloat.is_nan a = false.
Proof.
  unfold PrimFloat.is_zero. intros H. apply eqb_leb in H.
  destruct H as (H & _). now apply leb_not_nan in H.
Qed.

(** [max_from] on Numbers none of which is NaN: the result is the
    starting value or one of the Numbers, and none is above it. *)
Lemma max_from_spec xs : forall highest,
  PrimFloat.is_nan highest = false ->
  Forall (fun x => PrimFloat.is_nan x = false) xs ->
  In (max_from highest xs) (highest :: xs) /\
  PrimFloat.leb highest (max_from highest xs) = true /\
  Forall (fun x => PrimFloat.leb x (max_from highest xs) = true) xs.
Proof.
  induction xs as [|x rest IH]; intros h Hh Hxs.
  - simpl. repeat split; [now left|now apply leb_refl|constructor].
  - inversion Hxs as [|? ? Hx Hrest]; subst. cbn [max_from]. rewrite Hx.
    destruct (PrimFloat.is_zero x && negb (PrimFloat.get_sign x)
              && PrimFloat.is_zero h && PrimFloat.get_sign h) eqn:Z.
    + destruct (IH x Hx Hrest) as (Hin & Hle & Hall).
      apply andb_true_iff in Z. destruct Z as (Z & _).
      apply andb_true_iff in Z. destruct Z as (Z & Zh).
      apply andb_true_iff in Z. destruct Z as (Zx & _).
      repeat split.
      * right. exact Hin.
      * eapply leb_trans; [|exact Hle]. now apply zeros_leb.
      * constructor; assumption.
    + destruct (PrimFloat.ltb h x) eqn:L.
      * destruct (IH x Hx Hrest) as (Hin & Hle & Hall).
        repeat split.
        -- right. exact Hin.
        -- eapply leb_trans; [|exact Hle]. now apply ltb_leb.
        -- constructor; assumption.
      * destruct (IH h Hh Hrest) as (Hin & Hle & Hall).
        repeat split.
        -- destruct Hin as [Hin|Hin]; [now left|right; now right].
        -- exact Hle.
        -- constructor; [|exact Hall].
           eapply leb_trans; [|exact Hle]. now apply ltb_false_leb.
Qed.

Lemma Math_max_spec xs :
  xs <> [] ->
  Forall (fun x => PrimFloat.is_nan x = false) xs ->
  In (Math_max xs) xs /\
  Forall (fun x => PrimFloat.leb x (Math_max xs) = true) xs.
Proof.
  intros Hne Hxs. unfold Math_max.
  destruct (max_from_spec xs _ neg_infinity_not_nan Hxs) as (Hin & _ & Hall).
  split; [|exact Hall].
  destruct Hin as [Hin|Hin]; [|exact Hin].
  (* the starting value is returned only if the first Number is it *)
  destruct xs as [|x rest]; [congruence|].
  inversion Hxs as [|? ? Hx Hrest]; subst.
  inversion Hall as [|? ? Hle _]; subst.
  rewrite <- Hin in Hle. rewrite <- Hin.
  left. apply not_above_neg_infinity; [exact Hx|].
  destruct (PrimFloat.ltb PrimFloat.neg_infinity x) eqn:L; [|reflexivity].
  (* x <= -infinity < x is impossible *)
  exfalso.
  assert (Hn : PrimFloat.leb x PrimFloat.neg_infinity = false).
  { destruct (PrimFloat.leb x PrimFloat.neg_infinity) eqn:E; [|reflexivity].
    revert L E.
    rewrite FloatAxioms.ltb_spec, FloatAxioms.leb_spec.
    unfold SpecFloat.SFltb, SpecFloat.SFleb.
    rewrite (SFcompare_antisym (FloatOps.Prim2SF PrimFloat.neg_infinity)
               (FloatOps.Prim2SF x)).
    destruct (SpecFloat.SFcompare _ _) as [[| |]|]; simpl; congruence. }
  congruence.
Qed.

End MaxFacts.

(* ================================================================== *)
(** * Facts about texts and property updates *)
(* ================================================================== *)

Section Texts.

Lemma prefix_spec n s : String.prefix n s = true <-> exists b, s = (n ++ b)%string.
Proof.
  revert s. induction n as [|c n IH]; intros s.
  - destruct s; simpl; split; eauto.
  - destruct s as [|c' s]; simpl; [split; [discriminate|intros (b & [=])]|].
    destruct (Ascii.ascii_dec c c') as [->|Hne].
    + rewrite IH. split; intros (b & E); exists b; congruence.
    + split; [discriminate|]. intros (b & [=]). congruence.
Qed.

Lemma append_assoc (a b c : string) : ((a ++ b) ++ c = a ++ b ++ c)%string.
Proof. induction a as [|x a IH]; simpl; [reflexivity|now rewrite IH]. Qed.

Lemma append_nil (a : string) : (a ++ "")%string = a.
Proof. induction a as [|x a IH]; simpl; [reflexivity|now rewrite IH]. Qed.

(** [includes] finds the needle exactly when the text has it as a
    contiguous part. *)
Lemma includes_spec s n :
  includes s n = true <-> exists a b, s = (a ++ n ++ b)%string.
Proof.
  induction s as [|c s IH].
  - cbn [includes]. rewrite orb_false_r, prefix_spec. split.
    + intros (b & E). exists "", b. exact E.
    + intros (a & b & E). destruct a; [eauto|discriminate].
  - cbn [includes]. rewrite orb_true_iff, prefix_spec, IH. split.
    + intros [(b & E)|(a & b & E)].
      * exists "", b. exact E.
      * exists (String c a), b. simpl. now rewrite E.
    + intros (a & b & E). destruct a as [|c' a].
      * left. exists b. exact E.
      * right. exists a, b. simpl in E. congruence.
Qed.

Lemma includes_part s p q :
  includes s (p ++ q) = true -> includes s q = true.
Proof.
  rewrite !includes_spec. intros (a & b & ->).
  exists (a ++ p)%string, b. now rewrite !append_assoc.
Qed.

Lemma includes_middle a n b : includes (a ++ n ++ b) n = true.
Proof. apply includes_spec. eauto. Qed.

Lemma includes_append_l s t n :
  includes s n = true -> includes (s ++ t) n = true.
Proof.
  rewrite !includes_spec. intros (a & b & ->).
  exists a, (b ++ t)%string. now rewrite !append_assoc.
Qed.

Lemma includes_append_r s t n :
  includes t n = true -> includes (s ++ t) n = true.
Proof.
  rewrite !includes_spec. intros (a & b & ->).
  exists (s ++ a)%string, b. now rewrite !append_assoc.
Qed.

End Texts.

Section PropertyUpdates.

Lemma obj_set_keys k v (ps : props) :
  map fst (obj_set k v ps)
  = if has_key k ps then map fst ps else map fst ps ++ [k].
Proof.
  unfold has_key. induction ps as [|[k' v'] rest IH]; [reflexivity|].
  simpl. destruct (k' =? k) eqn:E.
  - apply String.eqb_eq in E. now subst.
  - simpl. rewrite IH. now destruct (lookup k rest).
Qed.

Lemma has_key_In_keys k (ps : props) :
  has_key k ps = true <-> In k (map fst ps).
Proof.
  unfold has_key. induction ps as [|[k' v'] rest IH]; simpl.
  - split; [discriminate|tauto].
  - destruct (k' =? k) eqn:E.
    + apply String.eqb_eq in E. split; auto.
    + apply String.eqb_neq in E. rewrite IH. split; [auto|].
      intros [H|H]; [contradiction|exact H].
Qed.

Lemma obj_set_NoDup k v (ps : props) :
  NoDup (map fst ps) -> NoDup (map fst (obj_set k v ps)).
Proof.
  intros H. rewrite obj_set_keys. destruct (has_key k ps) eqn:E; [exact H|].
  apply NoDup_app; [exact H|repeat constructor; tauto|].
  intros x Hx [<-|[]]. apply has_key_In_keys in Hx. congruence.
Qed.

Lemma obj_set_In k v (ps : props) e :
  In e (obj_set k v ps) -> e = (k, v) \/ In e ps.
Proof.
  induction ps as [|[k' v'] rest IH]; simpl.
  - intros [<-|[]]. now left.
  - destruct (k' =? k); simpl.
    + intros [<-|H]; [now left|right; now right].
    + intros [<-|H]; [right; now left|].
      destruct (IH H) as [->|H']; [now left|right; now right].
Qed.

Lemma obj_set_length k v (ps : props) :
  List.length (obj_set k v ps)
  = if has_key k ps then List.length ps else S (List.length ps).
Proof.
  pose proof (f_equal (@List.length _) (obj_set_keys k v ps)) as H.
  rewrite !length_map in H. rewrite H.
  destruct (has_key k ps); [now rewrite length_map|].
  rewrite length_app, length_map. simpl. lia.
Qed.

Lemma prop_obj_set k k' v (ps : props) :
  prop k (obj_set k' v ps) = if k' =? k then v else prop k ps.
Proof. unfold prop. rewrite lookup_obj_set. now destruct (k' =? k). Qed.

End PropertyUpdates.

(* ================================================================== *)
(** * Properties of the notifier *)
(* ================================================================== *)

Section NotifierFacts.
Context {B : Builtins}.

Lemma tier_thresholds_total a tier :
  exists c, tier_thresholds a tier = Ok c /\ truthy c = true.
Proof.
  unfold tier_thresholds. destruct (nullish a) eqn:Ea.
  - simpl. eexists. split; [reflexivity|reflexivity].
  - destruct (get_total a tier Ea) as (x & ->). simpl.
    unfold js_or. destruct (truthy x) eqn:Ex; eauto.
Qed.

Lemma get_truthy_field c k : truthy c = true -> get c k = Ok (field c k).
Proof.
  intros H. unfold field.
  destruct (get_total c k (truthy_defined _ H)) as (x & ->). reflexivity.
Qed.

(** The loop, run to its end without a return, found nothing. *)
Lemma critical_failure_false failed c :
  truthy c = true ->
  critical_failure failed c = Ok false ->
  forall r, In r failed ->
    ~ meets r "Response Time" (field c "p95_response_time_ms") /\
    ~ meets r "Error Rate" (field c "max_error_rate_percent").
Proof.
  intros Hc. induction failed as [|f rest IH]; intros H r Hr; [destruct Hr|].
  simpl in H. apply bind_Ok in H. destruct H as (slow & Hslow & H).
  destruct slow; [discriminate|].
  apply bind_Ok in H. destruct H as (faulty & Hfaulty & H).
  destruct faulty; [discriminate|].
  destruct Hr as [<-|Hr]; [|now apply IH].
  unfold reaches in Hslow, Hfaulty.
  rewrite !(get_truthy_field _ _ Hc) in *. simpl in *.
  split; intros (Hi & Ht & Hge).
  - rewrite Hi, Ht in Hslow. congruence.
  - rewrite Hi, Ht in Hfaulty. congruence.
Qed.

Lemma critical_failure_true failed c :
  truthy c = true ->
  critical_failure failed c = Ok true ->
  exists r, In r failed /\
    (meets r "Response Time" (field c "p95_response_time_ms") \/
     meets r "Error Rate" (field c "max_error_rate_percent")).
Proof.
  intros Hc. induction failed as [|f rest IH]; intros H; [discriminate|].
  simpl in H. apply bind_Ok in H. destruct H as (slow & Hslow & H).
  unfold reaches in Hslow.
  rewrite !(get_truthy_field _ _ Hc) in *. simpl in *.
  destruct slow.
  - exists f. split; [now left|]. left. unfold meets.
    destruct (includes (metric f) "Response Time"); [|discriminate].
    destruct (truthy (field c "p95_response_time_ms")); [|discriminate].
    now repeat split.
  - apply bind_Ok in H. destruct H as (faulty & Hfaulty & H).
    unfold reaches in Hfaulty.
    rewrite !(get_truthy_field _ _ Hc) in *. simpl in *.
    destruct faulty.
    + exists f. split; [now left|]. right. unfold meets.
      destruct (includes (metric f) "Error Rate"); [|discriminate].
      destruct (truthy (field c "max_error_rate_percent")); [|discriminate].
      now repeat split.
    + destruct (IH H) as (r & Hr & Hm). exists r. split; [now right|exact Hm].
Qed.

(** No bound applies: the loop ends without a return and raises
    nothing. *)
Lemma critical_failure_beyond failed c :
  truthy c = true ->
  Forall (beyond_critical c) failed ->
  critical_failure failed c = Ok false.
Proof.
  intros Hc. induction 1 as [|f rest (H95 & Herr) _ IH]; [reflexivity|].
  simpl. unfold reaches.
  rewrite !(get_truthy_field _ _ Hc). simpl.
  assert (E95 : (if includes (metric f) "Response Time"
                 then if truthy (field c "p95_response_time_ms")
                      then number_ge (parseFloat_string (actual f))
                             (field c "p95_response_time_ms")
                      else Ok false
                 else Ok false) = Ok false).
  { destruct H95 as [->| ->]; [reflexivity|].
    now destruct (includes (metric f) "Response Time"). }
  assert (Eerr : (if includes (metric f) "Error Rate"
                  then if truthy (field c "max_error_rate_percent")
                       then number_ge (parseFloat_string (actual f))
                              (field c "max_error_rate_percent")
                       else Ok false
                  else Ok false) = Ok false).
  { destruct Herr as [->| ->]; [reflexivity|].
    now destruct (includes (metric f) "Error Rate"). }
  rewrite E95. simpl. rewrite Eerr. simpl. exact IH.
Qed.

Lemma getSeverity_Ok failed a s :
  failed <> [] ->
  getSeverity failed a = Ok s ->
  exists c critical,
    tier_thresholds a "critical" = Ok c /\ truthy c = true /\
    critical_failure failed c = Ok critical /\
    s = if critical then "critical" else by_count failed.
Proof.
  intros Hne H. destruct failed as [|f rest]; [congruence|].
  unfold getSeverity in H.
  destruct (tier_thresholds_total a "critical") as (c & Ec & Hc).
  destruct (tier_thresholds_total a "warning") as (w & Ew & _).
  rewrite Ec, Ew in H. cbn [bind] in H.
  apply bind_Ok in H. destruct H as (critical & Hcrit & H).
  exists c, critical. repeat (split; [assumption|]).
  destruct critical; now injection H as <-.
Qed.

Lemma alerts_total (metadata : Metadata.t) :
  exists a,
    (if nullish (Metadata.slaConfig metadata) then Ok VUndefined
     else get (Metadata.slaConfig metadata) "alerts") = Ok a.
Proof.
  destruct (nullish (Metadata.slaConfig metadata)) eqn:E; [eauto|].
  exact (get_total _ _ E).
Qed.

Lemma filter_failed_nil (rs : list ValidationResult) :
  filter (fun r => negb (passed r)) rs = [] <->
  Forall (fun r => passed r = true) rs.
Proof.
  induction rs as [|r rest IH]; simpl.
  - split; auto.
  - destruct (passed r) eqn:E; simpl.
    + rewrite IH. split; [now constructor|now inversion 1].
    + split; [discriminate|]. inversion 1; congruence.
Qed.

End NotifierFacts.

Section NotifierProperties.
Context {B : Builtins}.

(** X1.  The notification is a success exactly when every check passed;
    with a failed check, the severity that is computed is 'info',
    'warning' or 'critical'. *)
Theorem notification_success_iff_all_passed validationResults metadata :
  (notification_severity validationResults metadata = Ok "success" <->
   Forall (fun r => passed r = true) validationResults) /\
  (forall s,
      Exists (fun r => passed r = false) validationResults ->
      notification_severity validationResults metadata = Ok s ->
      s = "info" \/ s = "warning" \/ s = "critical").
Proof.
  unfold notification_severity.
  destruct (alerts_total metadata) as (a & ->). cbn [bind].
  assert (Hs : forall s,
             filter (fun r => negb (passed r)) validationResults <> [] ->
             getSeverity (filter (fun r => negb (passed r)) validationResults)
               a = Ok s ->
             s = "info" \/ s = "warning" \/ s = "critical").
  { intros s Hne H. apply getSeverity_Ok in H; [|exact Hne].
    destruct H as (c & critical & _ & _ & _ & ->).
    unfold by_count. destruct critical; [auto|].
    destruct (1 <? _)%nat; auto. }
  split.
  - rewrite <- filter_failed_nil.
    destruct (filter (fun r => negb (passed r)) validationResults)
      as [|f rest] eqn:E.
    + split; reflexivity.
    + split; [|discriminate]. intros H.
      destruct (Hs "success") as [D|[D|D]];
        [discriminate|exact H|discriminate D..].
  - intros s Hex H. apply Hs; [|exact H].
    intros Hnil. apply filter_failed_nil in Hnil.
    apply Exists_exists in Hex. destruct Hex as (r & Hr & Hf).
    rewrite Forall_forall in Hnil. rewrite (Hnil r Hr) in Hf. discriminate.
Qed.

(** X2.  Whenever [getSeverity] returns for some failed checks, it returns
    ['critical'] exactly when one of them meets a configured critical
    bound: a check whose name contains 'Response Time' the p95 bound, a
    check whose name contains 'Error Rate' the error-rate bound. *)
Theorem critical_iff_a_bound_is_met failed alertThresholds s :
  failed <> [] ->
  getSeverity failed alertThresholds = Ok s ->
  exists criticalThresholds,
    tier_thresholds alertThresholds "critical" = Ok criticalThresholds /\
    (s = "critical" <->
     exists r, In r failed /\
       (meets r "Response Time"
          (field criticalThresholds "p95_response_time_ms") \/
        meets r "Error Rate"
          (field criticalThresholds "max_error_rate_percent"))).
Proof.
  intros Hne H. apply getSeverity_Ok in H; [|exact Hne].
  destruct H as (c & critical & Ec & Hc & Hcrit & ->).
  exists c. split; [exact Ec|]. destruct critical.
  - split; [intros _|reflexivity].
    now apply critical_failure_true.
  - split.
    + unfold by_count. destruct (1 <? List.length failed)%nat; discriminate.
    + intros (r & Hr & Hm).
      destruct (critical_failure_false _ _ Hc Hcrit r Hr) as (N1 & N2).
      destruct Hm; contradiction.
Qed.

(** X3.  When no critical bound applies to any failed check, the severity
    only counts the failures: 'info' for one, 'warning' for more. *)
Theorem severity_counts_failures failed alertThresholds criticalThresholds :
  failed <> [] ->
  tier_thresholds alertThresholds "critical" = Ok criticalThresholds ->
  Forall (beyond_critical criticalThresholds) failed ->
  getSeverity failed alertThresholds = Ok (by_count failed).
Proof.
  intros Hne Ec Hb. destruct failed as [|f rest]; [congruence|].
  unfold getSeverity. rewrite Ec.
  destruct (tier_thresholds_total alertThresholds "critical") as (c & Ec' & Hc).
  assert (c = criticalThresholds) by congruence. subst c.
  destruct (tier_thresholds_total alertThresholds "warning") as (w & -> & _).
  cbn [bind]. rewrite (critical_failure_beyond _ _ Hc Hb). reflexivity.
Qed.

End NotifierProperties.

Section SeverityOrder.
Context {B : Builtins}.

Lemma reaches_scalar_Ok r label key c :
  truthy c = true ->
  scalar (field c key) ->
  reaches r label key c = Ok (reaches_scalar r label (field c key)).
Proof.
  intros Hc Hs. unfold reaches, reaches_scalar.
  rewrite (get_truthy_field _ _ Hc). cbn [bind].
  destruct (includes (metric r) label); [|reflexivity].
  destruct (truthy (field c key)); [|reflexivity].
  unfold number_ge.
  destruct (scalar_ToNumber _ Hs) as (y & ->). reflexivity.
Qed.

Lemma critical_failure_scalar failed c :
  truthy c = true ->
  scalar (field c "p95_response_time_ms") ->
  scalar (field c "max_error_rate_percent") ->
  critical_failure failed c
  = Ok (existsb
          (fun r =>
             reaches_scalar r "Response Time" (field c "p95_response_time_ms")
             || reaches_scalar r "Error Rate"
                  (field c "max_error_rate_percent"))
          failed).
Proof.
  intros Hc H95 Herr. induction failed as [|f rest IH]; [reflexivity|].
  cbn [critical_failure existsb].
  rewrite (reaches_scalar_Ok _ _ _ _ Hc H95). cbn [bind].
  destruct (reaches_scalar f "Response Time" _); [reflexivity|].
  rewrite (reaches_scalar_Ok _ _ _ _ Hc Herr). cbn [bind].
  destruct (reaches_scalar f "Error Rate" _); [reflexivity|].
  exact IH.
Qed.

Lemma existsb_Permutation {A} (f : A -> bool) l1 l2 :
  Permutation l1 l2 -> existsb f l1 = existsb f l2.
Proof.
  induction 1; simpl; try congruence.
  destruct (f x), (f y); reflexivity.
Qed.

(** X4.  With critical bounds that are scalars, the severity does not
    depend on the order of the failed checks. *)
Theorem severity_ignores_the_order_of_failures failed1 failed2
  alertThresholds criticalThresholds :
  tier_thresholds alertThresholds "critical" = Ok criticalThresholds ->
  scalar (field criticalThresholds "p95_response_time_ms") ->
  scalar (field criticalThresholds "max_error_rate_percent") ->
  Permutation failed1 failed2 ->
  getSeverity failed1 alertThresholds = getSeverity failed2 alertThresholds.
Proof.
  intros Ec H95 Herr Hp.
  destruct (tier_thresholds_total alertThresholds "critical") as (c & Ec' & Hc).
  assert (c = criticalThresholds) by congruence. subst c.
  destruct (tier_thresholds_total alertThresholds "warning") as (w & Ew & _).
  pose proof (Permutation_length Hp) as Hlen.
  destruct failed1 as [|f1 r1], failed2 as [|f2 r2]; try discriminate;
    [reflexivity|].
  unfold getSeverity. rewrite Ec, Ew. cbn [bind].
  rewrite !(critical_failure_scalar _ _ Hc H95 Herr). cbn [bind].
  rewrite (existsb_Permutation _ _ _ Hp), Hlen. reflexivity.
Qed.

End SeverityOrder.

Section ChannelProperties.

Lemma pieces_split separator s :
  String_split separator s <> [].
Proof. unfold String_split. now destruct (pieces separator s). Qed.

(** X5.  The e-mail channel is used exactly when EMAIL_ENABLED is the text
    'true', EMAIL_API_KEY is a text that is not empty and EMAIL_TO is
    set: the test of the recipients holds for every text, the empty one
    included, whose only piece is then an empty address. *)
Theorem email_channel_needs_only_a_set_recipient_variable env :
  (email_channel env = true <->
   Env.EMAIL_ENABLED env = Some "true" /\
   is_set (Env.EMAIL_API_KEY env) = true /\
   Env.EMAIL_TO env <> None) /\
  (Env.EMAIL_TO env = Some "" -> EMAIL_TO env = [""]).
Proof.
  split.
  - unfold email_channel, EMAIL_ENABLED, EMAIL_TO.
    rewrite !andb_true_iff.
    destruct (Env.EMAIL_ENABLED env) as [e|], (Env.EMAIL_TO env) as [t|];
      simpl.
    + pose proof (pieces_split "," t) as Hne.
      destruct (String_split "," t) as [|p ps]; [congruence|]. simpl.
      rewrite String.eqb_eq. split.
      * intros ((-> & Hk) & _). repeat split; [exact Hk|discriminate].
      * intros ([= ->] & Hk & _). auto.
    + split; [intros (_ & [=])|intros (_ & _ & H); congruence].
    + split; [intros ((H & _) & _); discriminate|intros ([=] & _)].
    + split; [intros ((H & _) & _); discriminate|intros ([=] & _)].
  - unfold EMAIL_TO. now intros ->.
Qed.

(** X6.  The Teams sender is chosen exactly for an address that contains
    'office.com' and none of 'slack.com', 'discord.com' and
    'discordapp.com': the second test of [isTeams] adds nothing. *)
Theorem teams_webhook_detection url :
  sendWebhookNotification url = sendTeamsNotification <->
  includes url "office.com" = true /\
  includes url "slack.com" = false /\
  includes url "discord.com" = false /\
  includes url "discordapp.com" = false.
Proof.
  unfold sendWebhookNotification.
  pose proof (includes_part url "webhook." "office.com") as Hpart.
  simpl in Hpart.
  destruct (includes url "slack.com"); [split; [discriminate|intros (_ & [=] & _)]|].
  destruct (includes url "discord.com");
    [split; [discriminate|intros (_ & _ & [=] & _)]|].
  destruct (includes url "discordapp.com");
    [split; [discriminate|intros (_ & _ & _ & [=])]|].
  simpl.
  destruct (includes url "office.com"); [now split|]. simpl.
  destruct (includes url "webhook.office.com").
  - discriminate (Hpart eq_refl).
  - split; [discriminate|intros ([=] & _)].
Qed.

End ChannelProperties.

(* ================================================================== *)
(** * Properties of the Prometheus client *)
(* ================================================================== *)

Section PrometheusFacts.
Context {B : Builtins}.

Lemma map_sample_length samples xs :
  map_sample samples = Ok xs -> List.length xs = List.length samples.
Proof.
  revert xs. induction samples as [|v rest IH]; intros xs H; simpl in H.
  - now injection H as <-.
  - apply bind_Ok in H. destruct H as (x & _ & H).
    apply bind_Ok in H. destruct H as (more & Hmore & H).
    injection H as <-. simpl. now rewrite (IH _ Hmore).
Qed.

Lemma range_values_samples rangeData values :
  range_values rangeData = Ok (Some values) -> has_length_zero values = false.
Proof.
  unfold range_values.
  destruct (negb (truthy rangeData) || has_length_zero rangeData);
    [discriminate|].
  intros H. apply bind_Ok in H. destruct H as (first & _ & H).
  destruct first; try discriminate;
    (apply bind_Ok in H; destruct H as (configured & _ & H);
     cbv zeta in H;
     destruct (has_length_zero (js_or configured (VArray []))) eqn:E;
       [discriminate|]; now injection H as <-).
Qed.

End PrometheusFacts.

Section PrometheusProperties.
Context {B : Builtins}.

(** X7.  When the samples of the first series all read as Numbers other than
    NaN, [calculateMax] returns the two-decimal text of one of them,
    and none of them is above it; the series after the first are not
    read. *)
Theorem calculateMax_is_the_largest_sample_of_the_first_series
  (series : props) others sample1 samples xs :
  prop "values" series = VArray (sample1 :: samples) ->
  map_sample (sample1 :: samples) = Ok xs ->
  Forall (fun x => PrimFloat.is_nan x = false) xs ->
  exists m,
    calculateMax (VArray (VObject series :: others))
    = Ok (Some (Number_toFixed m 2)) /\
    In m xs /\
    Forall (fun x => PrimFloat.leb x m = true) xs.
Proof.
  intros Hv Hxs Hnan. exists (Math_max xs).
  assert (Hr : range_values (VArray (VObject series :: others))
               = Ok (Some (VArray (sample1 :: samples)))).
  { unfold range_values. simpl. rewrite Hv. reflexivity. }
  unfold calculateMax. rewrite Hr. cbn [bind]. rewrite Hxs. cbn [bind].
  split; [reflexivity|].
  apply Math_max_spec; [|exact Hnan].
  apply map_sample_length in Hxs. destruct xs; [discriminate|congruence].
Qed.

End PrometheusProperties.

Section SummaryFacts.
Context {B : Builtins}.

Lemma reduce_sum_map_sample samples : forall acc,
  match map_sample samples with
  | Ok xs => exists sum, reduce_sum acc samples = Ok sum
  | Throw e => reduce_sum acc samples = Throw e
  end.
Proof.
  induction samples as [|v rest IH]; intros acc; simpl; [eauto|].
  destruct (sample v) as [x|e]; simpl; [|reflexivity].
  specialize (IH (acc + x)%float).
  destruct (map_sample rest) as [xs|e]; simpl; exact IH.
Qed.

End SummaryFacts.

Section SummaryProperties.
Context {B : Builtins}.

(** X8.  The average and the maximum of a range are available together:
    for the same range data both are [null], or both are texts, or both
    calls raise. *)
Theorem summaries_are_available_together rangeData :
  (calculateAverage rangeData = Ok None /\ calculateMax rangeData = Ok None)
  \/ (exists average largest,
         calculateAverage rangeData = Ok (Some average) /\
         calculateMax rangeData = Ok (Some largest))
  \/ (calculateAverage rangeData = Throw TypeError /\
      calculateMax rangeData = Throw TypeError).
Proof.
  unfold calculateAverage, calculateMax.
  destruct (range_values rangeData) as [[values|]|[]]; simpl.
  - destruct values; try (right; right; split; reflexivity).
    pose proof (reduce_sum_map_sample elements 0%float) as H.
    destruct (map_sample elements) as [xs|[]]; simpl.
    + destruct H as (sum & ->). simpl. right. left. eauto.
    + rewrite H. simpl. right. right. split; reflexivity.
  - left. split; reflexivity.
  - right. right. split; reflexivity.
Qed.

End SummaryProperties.

Section RetryFacts.
Context {B : Builtins}.

Lemma attempts_caught D replies : forall remaining n lastError,
  (forall k, n <= k < n + S remaining -> attempt (replies k) = inr Caught) ->
  attempts D replies n (S remaining) lastError
  = (inr (Some Caught), backoff D n (S remaining)).
Proof.
  induction remaining as [|r IH]; intros n lastError H.
  - cbn [attempts]. rewrite (H n) by lia. unfold backoff. simpl.
    now rewrite Nat.add_0_r.
  - remember (S r) as r' eqn:Er. cbn [attempts]. rewrite (H n) by lia.
    subst r'.
    rewrite (IH (S n) (Some Caught)) by (intros k Hk; apply H; lia).
    unfold backoff. cbn [app].
    replace (S (S r) - 1) with (S (S r - 1)) by lia.
    cbn [seq flat_map app].
    replace (n + S (S r - 1)) with (S n + (S r - 1)) by lia.
    reflexivity.
Qed.

Lemma attempts_unsuccessful D replies : forall remaining n lastError,
  (forall k, n <= k < n + S remaining ->
             attempt (replies k) = inr Unsuccessful) ->
  attempts D replies n (S remaining) lastError
  = (inr (Some Unsuccessful), map Request (seq n (S remaining))).
Proof.
  induction remaining as [|r IH]; intros n lastError H.
  - cbn [attempts]. rewrite (H n) by lia. reflexivity.
  - remember (S r) as r' eqn:Er. cbn [attempts]. rewrite (H n) by lia.
    subst r'.
    rewrite (IH (S n) (Some Unsuccessful)) by (intros k Hk; apply H; lia).
    reflexivity.
Qed.

Lemma requests_app t1 t2 : requests (t1 ++ t2) = requests t1 ++ requests t2.
Proof.
  induction t1 as [|[k|d] t1 IH]; simpl; [reflexivity| |exact IH].
  now rewrite IH.
Qed.

(** The loop stops at the first attempt that succeeds. *)
Lemma attempts_first_success D replies found : forall before n remaining lastError,
  before < remaining ->
  (forall k, n <= k < n + before -> exists e, attempt (replies k) = inr e) ->
  attempt (replies (n + before)) = inl found ->
  exists trace,
    attempts D replies n remaining lastError = (inl found, trace) /\
    requests trace = seq n (S before).
Proof.
  induction before as [|b IH]; intros n remaining lastError Hlt Hfail Hok.
  - destruct remaining as [|r]; [lia|]. cbn [attempts].
    rewrite Nat.add_0_r in Hok. rewrite Hok. eexists. split; reflexivity.
  - destruct remaining as [|r]; [lia|]. cbn [attempts].
    destruct (Hfail n) as (e & He); [lia|]. rewrite He.
    destruct (IH (S n) r (Some e)) as (trace & Ht & Hr).
    + lia.
    + intros k Hk. apply Hfail. lia.
    + now replace (S n + b) with (n + S b) by lia.
    + destruct e.
      * rewrite Ht. eexists. split; [reflexivity|]. simpl. now rewrite Hr.
      * rewrite Ht. eexists. split; [reflexivity|].
        cbn [requests]. rewrite requests_app.
        destruct r; simpl; now rewrite Hr.
Qed.

End RetryFacts.

Section RetryProperties.
Context {B : Builtins}.

(** X9.  When every request is rejected, or answered by something the loop
    cannot read, the query fails after [maxRetries] requests; between
    two requests the loop sleeps the delay times the number of the
    attempt, and it does not sleep after the last one.  The range query
    answers with no data, the instant query with the empty array. *)
Theorem rejected_requests_back_off RETRY_DELAY query maxRetries replies :
  (1 <= maxRetries)%Z ->
  (forall k, 1 <= k <= Z.to_nat maxRetries ->
             attempt (replies k) = inr Caught) ->
  queryPrometheusRange RETRY_DELAY query maxRetries replies
  = (RangeResult.Failed (Some Caught),
     backoff RETRY_DELAY 1 (Z.to_nat maxRetries)) /\
  queryPrometheusInstant RETRY_DELAY maxRetries replies
  = (VArray [], backoff RETRY_DELAY 1 (Z.to_nat maxRetries)).
Proof.
  intros Hn H. unfold queryPrometheusRange, queryPrometheusInstant.
  destruct (Z.to_nat maxRetries) as [|r] eqn:E; [lia|].
  rewrite (attempts_caught RETRY_DELAY replies r 1 None)
    by (intros k Hk; apply H; lia).
  split; reflexivity.
Qed.

(** X10.  A response whose status is not 'success' is retried at once: when
    every response is of that kind, the query makes its [maxRetries]
    requests without sleeping in between, and fails. *)
Theorem unsuccessful_responses_are_retried_at_once RETRY_DELAY query
  maxRetries replies :
  (1 <= maxRetries)%Z ->
  (forall k, 1 <= k <= Z.to_nat maxRetries ->
             attempt (replies k) = inr Unsuccessful) ->
  queryPrometheusRange RETRY_DELAY query maxRetries replies
  = (RangeResult.Failed (Some Unsuccessful),
     map Request (seq 1 (Z.to_nat maxRetries))).
Proof.
  intros Hn H. unfold queryPrometheusRange.
  destruct (Z.to_nat maxRetries) as [|r] eqn:E; [lia|].
  rewrite (attempts_unsuccessful RETRY_DELAY replies r 1 None)
    by (intros k Hk; apply H; lia).
  reflexivity.
Qed.

(** X11.  The first attempt that succeeds, if it is among the [maxRetries]
    allowed, gives the result; the requests made are those up to that
    attempt, and none after it. *)
Theorem first_successful_attempt_wins RETRY_DELAY query maxRetries replies
  k found :
  1 <= k <= Z.to_nat maxRetries ->
  (forall j, 1 <= j < k -> exists e, attempt (replies j) = inr e) ->
  attempt (replies k) = inl found ->
  exists trace,
    queryPrometheusRange RETRY_DELAY query maxRetries replies
    = (RangeResult.Found found query, trace) /\
    requests trace = seq 1 k.
Proof.
  intros Hk Hfail Hok. unfold queryPrometheusRange.
  destruct (attempts_first_success RETRY_DELAY replies found (k - 1) 1
              (Z.to_nat maxRetries) None) as (trace & Ht & Hr).
  - lia.
  - intros j Hj. apply Hfail. lia.
  - now replace (1 + (k - 1)) with k by lia.
  - rewrite Ht. exists trace. split; [reflexivity|].
    now replace (S (k - 1)) with k in Hr by lia.
Qed.

End RetryProperties.

(* ================================================================== *)
(** * Properties of the infrastructure summary *)
(* ================================================================== *)

Section ObservabilityFacts.
Context {B : Builtins}.

Lemma copy_diskIO_keeps instant m m' :
  copy_diskIO instant m = Ok m' -> infraMetrics_of m' = infraMetrics_of m.
Proof.
  unfold copy_diskIO. intros H. apply bind_Ok in H.
  destruct H as (v & _ & H). destruct (truthy v).
  - apply bind_Ok in H. destruct H as (text & _ & H). now injection H as <-.
  - now injection H as <-.
Qed.

Lemma copy_networkIn_keeps instant m m' :
  copy_networkIn instant m = Ok m' -> infraMetrics_of m' = infraMetrics_of m.
Proof.
  unfold copy_networkIn. intros H. apply bind_Ok in H.
  destruct H as (v & _ & H). destruct (truthy v).
  - apply bind_Ok in H. destruct H as (text & _ & H). now injection H as <-.
  - now injection H as <-.
Qed.

Lemma copy_networkOut_keeps instant m m' :
  copy_networkOut instant m = Ok m' -> infraMetrics_of m' = infraMetrics_of m.
Proof.
  unfold copy_networkOut. intros H. apply bind_Ok in H.
  destruct H as (v & _ & H). destruct (truthy v).
  - apply bind_Ok in H. destruct H as (text & _ & H). now injection H as <-.
  - now injection H as <-.
Qed.

(** Statements that leave the four summary members alone, run in a
    [try] block, leave them alone. *)
Lemma try_block_keeps (steps : list (Infrastructure.t -> result Infrastructure.t)) :
  Forall (fun step => forall m m', step m = Ok m' ->
                                   infraMetrics_of m' = infraMetrics_of m)
    steps ->
  forall m, infraMetrics_of (try_block steps m) = infraMetrics_of m.
Proof.
  induction 1 as [|step rest Hstep _ IH]; intros m; [reflexivity|].
  simpl. destruct (step m) as [m'|e] eqn:E; [|reflexivity].
  rewrite IH. exact (Hstep _ _ E).
Qed.

Lemma queryObservability_summary env health :
  is_set (Env.PROMETHEUS_URL env) = true ->
  infraMetrics_of (queryObservability env (Ok health))
  = {| avgCpuUsage := text_or "N/A" (Health.avgCpu (Health.summary_of health));
       maxCpuUsage := text_or "N/A" (Health.maxCpu (Health.summary_of health));
       avgMemoryUsage :=
         text_or "N/A" (Health.avgMemory (Health.summary_of health));
       maxMemoryUsage :=
         text_or "N/A" (Health.maxMemory (Health.summary_of health)) |}.
Proof.
  intros Hset. unfold queryObservability. rewrite Hset. cbn [negb].
  set (rest := [copy_diskIO _; copy_networkIn _; copy_networkOut _]).
  cbn [try_block copy_summary]. subst rest.
  rewrite try_block_keeps; [reflexivity|].
  repeat constructor.
  - exact (copy_diskIO_keeps _).
  - exact (copy_networkIn_keeps _).
  - exact (copy_networkOut_keeps _).
Qed.

(** A run of the validator on measurements that are not available
    holds no infrastructure result. *)
Lemma unavailable_usage_is_not_checked k6Metrics infraMetrics runProfile
  slaConfig rs :
  avgCpuUsage infraMetrics = "N/A" ->
  avgMemoryUsage infraMetrics = "N/A" ->
  validateAgainstSLA k6Metrics infraMetrics runProfile slaConfig = Ok rs ->
  Forall (fun r => metric r <> "CPU Usage (%)"
                   /\ metric r <> "Memory Usage (%)") rs.
Proof.
  intros Hcpu Hmem H. apply validateAgainstSLA_Ok in H.
  destruct H as (sla & infraSla & r50 & r90 & r95 & r99 & rerr & rtput
                 & rcpu & rmem & _ & _ & H50 & H90 & H95 & H99 & Herr
                 & Htput & Ecpu & Emem & ->).
  rewrite Hcpu in Ecpu. rewrite Hmem in Emem.
  unfold infra_check in Ecpu, Emem. simpl in Ecpu, Emem.
  injection Ecpu as <-. injection Emem as <-. rewrite !app_nil_r.
  repeat constructor;
    try (rewrite (upper_bound_check_metric _ _ _ _ H50); discriminate);
    try (rewrite (upper_bound_check_metric _ _ _ _ H90); discriminate);
    try (rewrite (upper_bound_check_metric _ _ _ _ H95); discriminate);
    try (rewrite (upper_bound_check_metric _ _ _ _ H99); discriminate);
    try (rewrite (upper_bound_check_metric _ _ _ _ Herr); discriminate).
  destruct (truthy (prop "min_throughput_rps" sla)).
  - destruct Htput as (r & Hr & ->).
    repeat constructor;
      rewrite (lower_bound_check_metric _ _ _ _ Hr); discriminate.
  - subst rtput. constructor.
Qed.

End ObservabilityFacts.

Section ObservabilityProperties.
Context {B : Builtins}.

(** X12.  With Prometheus configured and a health summary received, the four
    usage members of the infrastructure summary are the texts of the
    health summary, or "N/A" where that holds [null]; they do not
    depend on the instant metrics, not even when reading those
    raises. *)
Theorem usage_summary_survives_instant_metrics env health :
  is_set (Env.PROMETHEUS_URL env) = true ->
  infraMetrics_of (queryObservability env (Ok health))
  = {| avgCpuUsage := text_or "N/A" (Health.avgCpu (Health.summary_of health));
       maxCpuUsage := text_or "N/A" (Health.maxCpu (Health.summary_of health));
       avgMemoryUsage :=
         text_or "N/A" (Health.avgMemory (Health.summary_of health));
       maxMemoryUsage :=
         text_or "N/A" (Health.maxMemory (Health.summary_of health)) |}.
Proof. exact (queryObservability_summary env health). Qed.

(** X13.  When both range queries fail, the four members of the health
    summary are [null], the usages of the infrastructure summary stay
    "N/A", and the validator is given no usage to check: whatever the
    environment, the instant metrics and the configuration are, a
    returning validation holds no CPU and no memory result. *)
Theorem failed_range_queries_leave_no_infrastructure_check env metrics
  startTime endTime error1 error2 k6Metrics runProfile slaConfig :
  let systemHealth :=
    getSystemHealthSummary metrics startTime endTime
      (RangeResult.Failed error1) (RangeResult.Failed error2) in
  let infraMetrics := infraMetrics_of (queryObservability env systemHealth) in
  (exists health,
      systemHealth = Ok health /\
      Health.summary_of health
      = {| Health.avgCpu := None; Health.maxCpu := None;
           Health.avgMemory := None; Health.maxMemory := None |}) /\
  infraMetrics
  = {| avgCpuUsage := "N/A"; maxCpuUsage := "N/A";
       avgMemoryUsage := "N/A"; maxMemoryUsage := "N/A" |} /\
  forall rs,
    validateAgainstSLA k6Metrics infraMetrics runProfile slaConfig = Ok rs ->
    Forall (fun r => metric r <> "CPU Usage (%)"
                     /\ metric r <> "Memory Usage (%)") rs.
Proof.
  intros systemHealth infraMetrics.
  assert (Hs : systemHealth
               = Ok {| Health.instant := metrics;
                       Health.cpu := VArray [];
                       Health.memory := VArray [];
                       Health.summary_of :=
                         {| Health.avgCpu := None; Health.maxCpu := None;
                            Health.avgMemory := None;
                            Health.maxMemory := None |} |}).
  { unfold systemHealth, getSystemHealthSummary. simpl.
    rewrite !andb_false_r. reflexivity. }
  assert (Hi : infraMetrics
               = {| avgCpuUsage := "N/A"; maxCpuUsage := "N/A";
                    avgMemoryUsage := "N/A"; maxMemoryUsage := "N/A" |}).
  { unfold infraMetrics. rewrite Hs.
    destruct (is_set (Env.PROMETHEUS_URL env)) eqn:E.
    - now rewrite queryObservability_summary.
    - unfold queryObservability. now rewrite E. }
  split; [rewrite Hs; eexists; split; reflexivity|].
  split; [exact Hi|].
  intros rs. rewrite Hi.
  now apply unavailable_usage_is_not_checked.
Qed.

End ObservabilityProperties.

(* ================================================================== *)
(** * Properties of the validator on measurements that are no numbers *)
(* ================================================================== *)

Section NaNFacts.
Context {B : Builtins}.

Lemma is_nan_eq x : PrimFloat.is_nan x = true -> x = NaN.
Proof.
  intros H. apply is_nan_spec in H. apply FloatAxioms.Prim2SF_inj.
  rewrite H. reflexivity.
Qed.

Lemma nan_leb y : PrimFloat.leb NaN y = false.
Proof.
  rewrite FloatAxioms.leb_spec. unfold NaN.
  replace (FloatOps.Prim2SF PrimFloat.nan) with SpecFloat.S754_nan
    by reflexivity.
  reflexivity.
Qed.

Lemma infra_check_Ok name usage infraSla key rs r :
  infra_check name usage infraSla key = Ok rs -> In r rs ->
  exists bound y,
    ToNumber bound = Ok y /\
    metric r = name /\
    passed r = PrimFloat.leb (parseFloat_string usage) y.
Proof.
  unfold infra_check. destruct (negb (usage =? "N/A")); intros H Hr.
  - apply bind_Ok in H. destruct H as (bound & _ & H).
    apply bind_Ok in H. destruct H as (text & _ & H).
    apply bind_Ok in H. destruct H as (x & Hx & H).
    apply bind_Ok in H. destruct H as (ok & Hok & H).
    injection H as <-. destruct Hr as [<-|[]].
    unfold parseFloat in Hx. simpl in Hx. injection Hx as <-.
    unfold number_le in Hok. apply bind_Ok in Hok.
    destruct Hok as (y & Hy & Hok). injection Hok as <-.
    exists bound, y. repeat split. exact Hy.
  - injection H as <-. destruct Hr.
Qed.

End NaNFacts.

Section NaNProperties.
Context {B : Builtins}.

(** X14.  A check made on a measurement that is NaN fails, whatever its bound
    is: an extracted metric that is NaN, or a usage text in which
    [parseFloat] reads no number. *)
Theorem nan_measurement_fails_its_check k6Metrics infraMetrics runProfile
  slaConfig rs r x :
  validateAgainstSLA k6Metrics infraMetrics runProfile slaConfig = Ok rs ->
  In r rs ->
  measured k6Metrics infraMetrics (metric r) = Some x ->
  PrimFloat.is_nan x = true ->
  passed r = false.
Proof.
  intros H Hr Hm Hx. apply is_nan_eq in Hx. subst x.
  apply validateAgainstSLA_Ok in H.
  destruct H as (sla & infraSla & r50 & r90 & r95 & r99 & rerr & rtput
                 & rcpu & rmem & _ & _ & H50 & H90 & H95 & H99 & Herr
                 & Htput & Hcpu & Hmem & ->).
  apply upper_bound_check_Ok in H50, H90, H95, H99, Herr.
  destruct H50 as (? & ? & _ & _ & E50), H90 as (? & ? & _ & _ & E90),
    H95 as (? & ? & _ & _ & E95), H99 as (? & ? & _ & _ & E99),
    Herr as (? & ? & _ & _ & Eerr).
  simpl in Hr.
  destruct Hr as [<-|[<-|[<-|[<-|[<-|Hr]]]]].
  - subst r50. simpl in *. injection Hm as ->. apply nan_leb.
  - subst r90. simpl in *. injection Hm as ->. apply nan_leb.
  - subst r95. simpl in *. injection Hm as ->. apply nan_leb.
  - subst r99. simpl in *. injection Hm as ->. apply nan_leb.
  - subst rerr. simpl in *. injection Hm as ->. apply nan_leb.
  - apply in_app_or in Hr. destruct Hr as [Hr|Hr].
    + destruct (truthy (prop "min_throughput_rps" sla)).
      * destruct Htput as (rt & Hrt & ->). destruct Hr as [<-|[]].
        apply lower_bound_check_Ok in Hrt.
        destruct Hrt as (? & ? & _ & _ & ->). simpl in *.
        injection Hm as ->. apply leb_nan.
      * subst rtput. destruct Hr.
    + apply in_app_or in Hr. destruct Hr as [Hr|Hr].
      * destruct (infra_check_Ok _ _ _ _ _ _ Hcpu Hr)
          as (bound & y & _ & Hname & Hp).
        rewrite Hname in Hm. simpl in Hm. injection Hm as Hm.
        rewrite Hp, Hm. apply nan_leb.
      * destruct (infra_check_Ok _ _ _ _ _ _ Hmem Hr)
          as (bound & y & _ & Hname & Hp).
        rewrite Hname in Hm. simpl in Hm. injection Hm as Hm.
        rewrite Hp, Hm. apply nan_leb.
Qed.

End NaNProperties.

(* ================================================================== *)
(** * Properties of the reports *)
(* ================================================================== *)

Section ReportTexts.
Context {B : Builtins}.

Lemma filter_partition_length (rs : list ValidationResult) :
  List.length (filter passed rs)
  + List.length (filter (fun r => negb (passed r)) rs)
  = List.length rs.
Proof.
  induction rs as [|r rest IH]; [reflexivity|]. simpl.
  destruct (passed r); simpl; lia.
Qed.

Lemma forallb_passed_failed (rs : list ValidationResult) :
  forallb passed rs = true <->
  List.length (filter (fun r => negb (passed r)) rs) = 0.
Proof.
  induction rs as [|r rest IH]; simpl; [split; reflexivity|].
  destruct (passed r); simpl; [exact IH|]. split; discriminate.
Qed.

Lemma includes_trans s t n :
  includes s t = true -> includes t n = true -> includes s n = true.
Proof.
  rewrite !includes_spec. intros (a & b & ->) (a' & b' & ->).
  exists (a ++ a')%string, (b' ++ b)%string.
  now rewrite !append_assoc.
Qed.

Lemma testcases_includes rs r :
  In r rs -> includes (testcases rs) (testcase r) = true.
Proof.
  induction rs as [|r' rest IH]; intros H; [destruct H|].
  destruct H as [->|H]; cbn [testcases].
  - apply includes_spec. exists "", (testcases rest). reflexivity.
  - apply includes_append_r. now apply IH.
Qed.

Lemma JSON_element_result_object r :
  JSON_element (result_object r) = result_object r.
Proof. reflexivity. Qed.

End ReportTexts.

Section VerdictProperties.
Context {B : Builtins}.

(** X15.  The JSON report counts every result once, as passed or as failed:
    its members [passed] and [failed] are the two counts and its
    member [total] is their sum; its status is 'PASSED' exactly when
    no result failed, and exactly then the status class of the HTML
    report is 'success'. *)
Theorem reports_agree_on_the_verdict validationResults metadata now iso :
  let r := report validationResults metadata now iso in
  let passing := List.length (filter passed validationResults) in
  let failing :=
    List.length (filter (fun r => negb (passed r)) validationResults) in
  field (field r "summary") "total" = VNumber (number_of_nat (passing + failing))
  /\ (field r "status" = VString "PASSED" <-> failing = 0)
  /\ (statusClass validationResults = "success" <-> failing = 0)
  /\ field (field r "summary") "passed" = VNumber (number_of_nat passing)
  /\ field (field r "summary") "failed" = VNumber (number_of_nat failing).
Proof.
  cbv zeta. split; [|split; [|split; [|split; reflexivity]]].
  - unfold report, field. simpl. unfold prop. simpl.
    now rewrite filter_partition_length.
  - unfold report, field. simpl. unfold prop. simpl.
    rewrite <- forallb_passed_failed.
    destruct (forallb passed validationResults); split; congruence.
  - unfold statusClass.
    destruct (List.length
                (filter (fun r => negb (passed r)) validationResults))
      as [|[|[|n]]]; simpl; split; congruence.
Qed.

End VerdictProperties.

Section ReportProperties.
Context {B : Builtins}.

(** X16.  What report.json holds under [results] and [status] is what the
    report object held: reading the file back gives the validation
    results, member by member and in their order. *)
Theorem written_report_keeps_the_results validationResults metadata now iso :
  field (generateJsonReport validationResults metadata now iso) "results"
  = VArray (map result_object validationResults) /\
  field (generateJsonReport validationResults metadata now iso) "status"
  = field (report validationResults metadata now iso) "status".
Proof.
  unfold generateJsonReport, report, field.
  split.
  - simpl. unfold prop. simpl. f_equal. rewrite map_map. apply map_ext.
    reflexivity.
  - simpl. unfold prop. simpl. reflexivity.
Qed.

(** X17.  The JUnit text carries the metric name, the threshold and the
    actual value of every failed result as they are: none of them is
    escaped. *)
Theorem junit_failure_is_verbatim validationResults metadata iso text r :
  generateJUnitReport validationResults metadata iso = Ok text ->
  In r validationResults ->
  passed r = false ->
  includes text
    (attribute "message" (metric r ++ " exceeded threshold")) = true /\
  includes text
    ("Expected: " ++ threshold r ++ newline
     ++ "                Actual: " ++ actual r ++ newline) = true.
Proof.
  intros H Hr Hf. unfold generateJUnitReport in H.
  apply bind_Ok in H. destruct H as (time & _ & H). injection H as <-.
  pose proof (testcases_includes _ _ Hr) as Hcase.
  assert (Hin : forall n, includes (testcase r) n = true ->
                          includes
    ("<?xml " ++ attribute "version" "1.0" ++ " "
        ++ attribute "encoding" "UTF-8" ++ "?>" ++ newline
      ++ "<testsuites "
        ++ attribute "name" "Performance-Observability-Validation" ++ " "
        ++ attribute "tests"
             (Number_toString
                (number_of_nat (List.length validationResults))) ++ " "
        ++ attribute "failures"
             (Number_toString
                (number_of_nat
                   (List.length
                      (filter (fun r => negb (passed r))
                         validationResults)))) ++ " "
        ++ attribute "errors" "0" ++ " "
        ++ attribute "time" time ++ ">" ++ newline
      ++ "    <testsuite " ++ attribute "name" "SLA-Validation" ++ " "
        ++ attribute "tests"
             (Number_toString
                (number_of_nat (List.length validationResults))) ++ " "
        ++ attribute "failures"
             (Number_toString
                (number_of_nat
                   (List.length
                      (filter (fun r => negb (passed r))
                         validationResults)))) ++ " "
        ++ attribute "errors" "0" ++ " "
        ++ attribute "timestamp" iso ++ ">" ++ newline
      ++ testcases validationResults
      ++ "    </testsuite>" ++ newline ++ "</testsuites>")%string n = true).
  { intros n Hn.
    repeat (apply includes_append_r;
            try (apply includes_append_l;
                 exact (includes_trans _ _ _ Hcase Hn))). }
  split; apply Hin; unfold testcase; rewrite Hf; apply includes_spec.
  - exists ("        <testcase " ++ attribute "name" (safeName (metric r))
            ++ " " ++ attribute "classname" "SLAValidation" ++ " "
            ++ attribute "time" "0" ++ ">" ++ newline
            ++ "            <failure ")%string,
           (" " ++ attribute "type" "SLAViolation" ++ ">" ++ newline
            ++ "                Expected: " ++ threshold r ++ newline
            ++ "                Actual: " ++ actual r ++ newline
            ++ "            </failure>" ++ newline
            ++ "        </testcase>" ++ newline)%string.
    repeat rewrite append_assoc. reflexivity.
  - exists ("        <testcase " ++ attribute "name" (safeName (metric r))
            ++ " " ++ attribute "classname" "SLAValidation" ++ " "
            ++ attribute "time" "0" ++ ">" ++ newline
            ++ "            <failure "
            ++ attribute "message" (metric r ++ " exceeded threshold")
            ++ " " ++ attribute "type" "SLAViolation" ++ ">" ++ newline
            ++ "                ")%string,
           ("            </failure>" ++ newline
            ++ "        </testcase>" ++ newline)%string.
    repeat rewrite append_assoc. reflexivity.
Qed.

End ReportProperties.

Section NameProperties.

Lemma is_alphanumeric_safe c :
  is_alphanumeric (if is_alphanumeric c then c else "_"%char)
  = is_alphanumeric c.
Proof. destruct (is_alphanumeric c) eqn:E; [exact E|reflexivity]. Qed.

(** X18.  The name of a test case has the length of the metric name and
    consists of letters, digits and underscores; a name that is already
    of that kind is kept. *)
Theorem safeName_is_a_plain_name s :
  String.length (safeName s) = String.length s /\
  Forall (fun c => is_alphanumeric c = true \/ c = "_"%char)
    (list_ascii_of_string (safeName s)) /\
  safeName (safeName s) = safeName s.
Proof.
  induction s as [|c s (IHl & IHf & IHi)]; simpl.
  - repeat split. constructor.
  - repeat split.
    + now rewrite IHl.
    + constructor; [|exact IHf].
      destruct (is_alphanumeric c) eqn:E; [now left|now right].
    + rewrite IHi. f_equal.
      destruct (is_alphanumeric c) eqn:E; [now rewrite E|reflexivity].
Qed.

End NameProperties.

(* ================================================================== *)
(** * Properties of the history and of the chart data *)
(* ================================================================== *)

Section HistoryFacts.
Context {B : Builtins}.

Lemma entry_metrics_fold rs :
  entry_metrics rs = fold_left record_into rs [].
Proof. reflexivity. Qed.

Lemma fold_record_untouched k rs : forall acc,
  ~ In k (map metric rs) ->
  prop k (fold_left record_into rs acc) = prop k acc.
Proof.
  induction rs as [|r rest IH]; intros acc H; [reflexivity|].
  simpl in *. rewrite IH by tauto.
  unfold record_into, assign.
  destruct (metric r =? "__proto__"); [reflexivity|].
  rewrite prop_obj_set.
  destruct (metric r =? k) eqn:E; [|reflexivity].
  apply String.eqb_eq in E. tauto.
Qed.

Lemma fold_record_found rs : forall acc r,
  NoDup (map metric rs) -> In r rs -> metric r <> "__proto__" ->
  prop (metric r) (fold_left record_into rs acc) = recorded r.
Proof.
  induction rs as [|r' rest IH]; intros acc r Hnd Hr Hplain; [destruct Hr|].
  inversion Hnd as [|? ? Hnotin Hnd']; subst. simpl.
  destruct Hr as [->|Hr].
  - rewrite fold_record_untouched by exact Hnotin.
    unfold record_into, assign.
    apply String.eqb_neq in Hplain. rewrite Hplain.
    rewrite prop_obj_set. now rewrite String.eqb_refl.
  - now apply IH.
Qed.

Lemma fold_record_length rs : forall acc,
  NoDup (map metric rs) ->
  (forall r, In r rs -> metric r <> "__proto__") ->
  (forall r, In r rs -> has_key (metric r) acc = false) ->
  List.length (fold_left record_into rs acc)
  = List.length acc + List.length rs.
Proof.
  induction rs as [|r rest IH]; intros acc Hnd Hplain Hfresh; simpl; [lia|].
  inversion Hnd as [|? ? Hnotin Hnd']; subst.
  assert (E : record_into acc r = obj_set (metric r) (recorded r) acc).
  { unfold record_into, assign.
    assert (Hr : metric r <> "__proto__") by (apply Hplain; now left).
    apply String.eqb_neq in Hr. now rewrite Hr. }
  rewrite IH.
  - rewrite E, obj_set_length.
    rewrite (Hfresh r) by now left. lia.
  - exact Hnd'.
  - intros r' Hr'. apply Hplain. now right.
  - intros r' Hr'. rewrite E.
    destruct (has_key (metric r') (obj_set (metric r) (recorded r) acc))
      eqn:E'; [|reflexivity].
    apply has_key_In_keys in E'. rewrite obj_set_keys in E'.
    rewrite (Hfresh r) in E' by now left.
    apply in_app_or in E'. destruct E' as [E'|[E'|[]]].
    + apply has_key_In_keys in E'. rewrite Hfresh in E' by now right.
      discriminate.
    + exfalso. apply Hnotin. rewrite E'. now apply in_map.
Qed.

(** No result of a returned validation is named [__proto__]. *)
Lemma validateAgainstSLA_plain_names k6Metrics infraMetrics runProfile
  slaConfig rs :
  validateAgainstSLA k6Metrics infraMetrics runProfile slaConfig = Ok rs ->
  forall r, In r rs -> metric r <> "__proto__".
Proof.
  intros H r Hr Hm. apply validateAgainstSLA_Ok in H.
  destruct H as (sla & infraSla & r50 & r90 & r95 & r99 & rerr & rtput
                 & rcpu & rmem & _ & _ & H50 & H90 & H95 & H99 & Herr
                 & Htput & Hcpu & Hmem & ->).
  simpl in Hr.
  destruct Hr as [<-|[<-|[<-|[<-|[<-|Hr]]]]].
  - rewrite (upper_bound_check_metric _ _ _ _ H50) in Hm. discriminate.
  - rewrite (upper_bound_check_metric _ _ _ _ H90) in Hm. discriminate.
  - rewrite (upper_bound_check_metric _ _ _ _ H95) in Hm. discriminate.
  - rewrite (upper_bound_check_metric _ _ _ _ H99) in Hm. discriminate.
  - rewrite (upper_bound_check_metric _ _ _ _ Herr) in Hm. discriminate.
  - apply in_app_or in Hr. destruct Hr as [Hr|Hr].
    + destruct (truthy (prop "min_throughput_rps" sla)).
      * destruct Htput as (rt & Hrt & ->). destruct Hr as [<-|[]].
        rewrite (lower_bound_check_metric _ _ _ _ Hrt) in Hm. discriminate.
      * subst rtput. destruct Hr.
    + apply in_app_or in Hr. destruct Hr as [Hr|Hr].
      * rewrite (infra_check_In _ _ _ _ _ _ Hcpu Hr) in Hm. discriminate.
      * rewrite (infra_check_In _ _ _ _ _ _ Hmem Hr) in Hm. discriminate.
Qed.

(** The metric names of a returned validation are pairwise distinct. *)
Lemma validateAgainstSLA_distinct k6Metrics infraMetrics runProfile slaConfig
  rs :
  validateAgainstSLA k6Metrics infraMetrics runProfile slaConfig = Ok rs ->
  NoDup (map metric rs).
Proof.
  intros H. apply validateAgainstSLA_Ok in H.
  destruct H as (sla & infraSla & r50 & r90 & r95 & r99 & rerr & rtput
                 & rcpu & rmem & _ & _ & H50 & H90 & H95 & H99 & Herr
                 & Htput & Hcpu & Hmem & ->).
  rewrite !map_app. simpl.
  rewrite (upper_bound_check_metric _ _ _ _ H50),
    (upper_bound_check_metric _ _ _ _ H90),
    (upper_bound_check_metric _ _ _ _ H95),
    (upper_bound_check_metric _ _ _ _ H99),
    (upper_bound_check_metric _ _ _ _ Herr),
    (infra_check_metric _ _ _ _ _ Hcpu), (infra_check_metric _ _ _ _ _ Hmem).
  assert (Ht : map metric rtput = [] \/ map metric rtput = ["Throughput (req/s)"]).
  { destruct (truthy (prop "min_throughput_rps" sla)).
    - destruct Htput as (r & Hr & ->). right. simpl.
      now rewrite (lower_bound_check_metric _ _ _ _ Hr).
    - left. now subst. }
  destruct Ht as [-> | ->];
    destruct (negb (avgCpuUsage infraMetrics =? "N/A"));
    destruct (negb (avgMemoryUsage infraMetrics =? "N/A")); simpl;
    repeat (constructor; [simpl; intuition discriminate|]); constructor.
Qed.

End HistoryFacts.

Section HistoryProperties.
Context {B : Builtins}.

(** X19.  The record of a run keeps every result of the validation under its
    metric name: no result hides another, and the record has as many
    metrics as the validation has results. *)
Theorem every_validation_result_is_recorded k6Metrics infraMetrics runProfile
  slaConfig rs metadata now iso :
  validateAgainstSLA k6Metrics infraMetrics runProfile slaConfig = Ok rs ->
  exists metrics,
    field (history_entry rs metadata now iso) "metrics" = VObject metrics /\
    List.length metrics = List.length rs /\
    forall r, In r rs -> prop (metric r) metrics = recorded r.
Proof.
  intros H. assert (Hplain := validateAgainstSLA_plain_names _ _ _ _ _ H).
  apply validateAgainstSLA_distinct in H.
  exists (entry_metrics rs). split; [reflexivity|]. split.
  - rewrite entry_metrics_fold, fold_record_length; auto.
  - intros r Hr. rewrite entry_metrics_fold.
    apply fold_record_found; auto.
Qed.

(** X20.  [saveToHistory] raises exactly when the history file holds a JSON
    value that is not an array.  A file that cannot be parsed counts as
    no file: the history returned holds the record of the run and
    nothing else, and the file is replaced by the text of that
    history. *)
Theorem stored_history_must_be_an_array validationResults metadata now iso :
  let entry := history_entry validationResults metadata now iso in
  (forall v,
      saveToHistory validationResults metadata now iso (Stored v)
      = Throw TypeError
      <-> forall records, v <> VArray records) /\
  saveToHistory validationResults metadata now iso Unparseable
  = Ok ([entry], Stored (VArray [JSON_value entry])) /\
  saveToHistory validationResults metadata now iso NoFile
  = saveToHistory validationResults metadata now iso Unparseable.
Proof.
  intros entry. split; [|split; reflexivity].
  intros v. unfold saveToHistory. split.
  - intros H records ->. discriminate H.
  - intros H. destruct v; try reflexivity.
    exfalso. now apply (H elements).
Qed.

End HistoryProperties.

Section ChartFacts.
Context {B : Builtins}.

Lemma chart_point_plotted key h point :
  chart_point key h = Ok point -> plotted key h point.
Proof.
  unfold chart_point, plotted, field. intros H.
  apply bind_Ok in H. destruct H as (m & -> & H).
  apply bind_Ok in H. destruct H as (e & -> & H).
  apply bind_Ok in H. destruct H as (val & Hval & H).
  assert (E : match get e "actual" with Ok x => x | Throw _ => VUndefined end
              = val).
  { destruct e; simpl in Hval; try (now injection Hval as <-);
      now rewrite Hval. }
  cbv zeta. rewrite E.
  destruct (truthy val).
  - apply bind_Ok in H. destruct H as (x & Hx & H). injection H as <-.
    unfold parseFloat in Hx. apply bind_Ok in Hx.
    destruct Hx as (text & Ht & Hx). injection Hx as <-. eauto.
  - now injection H as <-.
Qed.

Lemma map_chart_point_aligned key history points :
  map_chart_point key history = Ok points ->
  Forall2 (plotted key) history points.
Proof.
  revert points. induction history as [|h rest IH]; intros points H.
  - injection H as <-. constructor.
  - simpl in H. apply bind_Ok in H. destruct H as (p & Hp & H).
    apply bind_Ok in H. destruct H as (ps & Hps & H). injection H as <-.
    constructor; [exact (chart_point_plotted _ _ _ Hp)|exact (IH _ Hps)].
Qed.

Lemma Forall2_nth_error_l {A C} (R : A -> C -> Prop) l l' :
  Forall2 R l l' ->
  forall i a, nth_error l i = Some a ->
              exists c, nth_error l' i = Some c /\ R a c.
Proof.
  induction 1 as [|a c l l' Hac _ IH]; intros i x Hi.
  - destruct i; discriminate.
  - destruct i as [|i]; simpl in Hi.
    + injection Hi as <-. exists c. split; [reflexivity|exact Hac].
    + exact (IH i x Hi).
Qed.

(** The keys that [flatMap] collects are the own keys of the metrics of
    the runs. *)
Lemma flatMap_keys_In history keys :
  flatMap_keys history = Ok keys ->
  forall k,
    In k keys <->
    exists h ks,
      In h history /\ Object_keys (field h "metrics") = Ok ks /\ In k ks.
Proof.
  revert keys. induction history as [|h rest IH]; intros keys H k.
  - injection H as <-. split; [intros []|intros (h & ks & [] & _)].
  - simpl in H. apply bind_Ok in H. destruct H as (m & Hm & H).
    apply bind_Ok in H. destruct H as (ks & Hks & H).
    apply bind_Ok in H. destruct H as (more & Hmore & H).
    injection H as <-.
    assert (Hf : field h "metrics" = m) by (unfold field; now rewrite Hm).
    rewrite in_app_iff, (IH _ Hmore). split.
    + intros [Hk|(h' & ks' & Hh & Hks' & Hk)].
      * exists h, ks. rewrite Hf. split; [now left|auto].
      * exists h', ks'. split; [now right|auto].
    + intros (h' & ks' & [<-|Hh] & Hks' & Hk).
      * left. rewrite Hf in Hks'. congruence.
      * right. eauto.
Qed.

Lemma forEach_metricKey_spec history keys : forall datasets result,
  forEach_metricKey history keys datasets = Ok result ->
  NoDup (map fst datasets) ->
  Forall (aligned history) datasets ->
  NoDup (map fst result) /\
  Forall (aligned history) result /\
  forall k, In k (map fst result) <->
            In k (map fst datasets) \/ (In k keys /\ k <> "__proto__").
Proof.
  induction keys as [|key rest IH]; intros datasets result H Hnd Hal.
  - injection H as <-. split; [assumption|split; [assumption|]].
    intros k. simpl. tauto.
  - simpl in H. apply bind_Ok in H. destruct H as (points & Hp & H).
    unfold assign in H.
    destruct (String.eqb_spec key "__proto__") as [->|Hkey].
    + destruct (IH _ _ H Hnd Hal) as (Hnd' & Hal' & Hkeys).
      split; [assumption|split; [assumption|]]. intros k.
      rewrite Hkeys. simpl. split.
      * intros [Hk|(Hk & Hne)]; [now left|right; auto].
      * intros [Hk|([<-|Hk] & Hne)]; [now left|congruence|right; auto].
    + destruct (IH _ _ H) as (Hnd' & Hal' & Hkeys).
      * now apply obj_set_NoDup.
      * apply Forall_forall. intros e He.
        apply obj_set_In in He. destruct He as [->|He].
        -- exists points. split; [reflexivity|].
           exact (map_chart_point_aligned _ _ _ Hp).
        -- rewrite Forall_forall in Hal. now apply Hal.
      * split; [assumption|split; [assumption|]]. intros k. split.
        -- intros Hk. apply Hkeys in Hk. rewrite obj_set_keys in Hk.
           destruct Hk as [Hk|(Hk & Hne)]; [|right; split; [now right|exact Hne]].
           destruct (has_key key datasets); [now left|].
           apply in_app_or in Hk. destruct Hk as [Hk|[<-|[]]];
             [now left|right; split; [now left|exact Hkey]].
        -- intros Hk. apply Hkeys. rewrite obj_set_keys.
           destruct Hk as [Hk|([<-|Hk] & Hne)].
           ++ left. destruct (has_key key datasets); [exact Hk|].
              apply in_or_app. now left.
           ++ left. destruct (has_key key datasets) eqn:E.
              ** now apply has_key_In_keys.
              ** apply in_or_app. right. now left.
           ++ right. auto.
Qed.

Lemma unique_In k keys : In k (unique keys) <-> In k keys.
Proof.
  induction keys as [|k' rest IH]; simpl; [tauto|].
  rewrite filter_In, IH. split.
  - intros [H|(H & _)]; auto.
  - intros [H|H]; [now left|].
    destruct (String.eqb_spec k k') as [->|Hne]; [now left|].
    right. split; [exact H|reflexivity].
Qed.

End ChartFacts.

Section ChartProperties.
Context {B : Builtins}.

(** X21.  The chart data holds one dataset for each metric name that is an
    own key of the metrics of some run of the history (the name
    [__proto__] apart, which names no property), each name once.  Every
    dataset has one point for each run, in the order of the runs: the
    point at position [i] is the Number that [parseFloat] reads in the
    [actual] value that run [i] records for the metric, when that value
    is truthy, and [null] otherwise. *)
Theorem chart_datasets_are_aligned history datasets :
  chartDatasets history = Ok datasets ->
  NoDup (map fst datasets) /\
  (forall k,
      In k (map fst datasets) <->
      (exists h ks,
          In h history /\ Object_keys (field h "metrics") = Ok ks /\ In k ks)
      /\ k <> "__proto__") /\
  forall k data,
    lookup k datasets = Some data ->
    exists points,
      data = VArray points /\
      List.length points = List.length history /\
      forall i h,
        nth_error history i = Some h ->
        exists point, nth_error points i = Some point /\ plotted k h point.
Proof.
  unfold chartDatasets. intros H.
  apply bind_Ok in H. destruct H as (keys & Hk & H).
  destruct (forEach_metricKey_spec _ _ _ _ H) as (Hnd & Hal & Hkeys);
    [constructor|constructor|].
  split; [exact Hnd|]. split.
  - intros k. rewrite Hkeys, unique_In, (flatMap_keys_In _ _ Hk). simpl.
    tauto.
  - intros k data Hl.
    assert (Hin : In (k, data) datasets).
    { clear - Hl. induction datasets as [|[k' v'] rest IH]; [discriminate|].
      simpl in Hl. destruct (k' =? k) eqn:E.
      - apply String.eqb_eq in E. injection Hl as <-. subst. now left.
      - right. now apply IH. }
    rewrite Forall_forall in Hal.
    destruct (Hal _ Hin) as (points & Hd & Hp). simpl in Hd, Hp.
    exists points. split; [exact Hd|]. split.
    + symmetry. exact (Forall2_length Hp).
    + exact (Forall2_nth_error_l _ _ _ Hp).
Qed.

End ChartProperties.

(* ================================================================== *)
(** * Properties of the load script *)
(* ================================================================== *)

Section ScriptProperties.
Local Set Warnings "-inexact-float".

(** X22.  For every reading below 1, as [Math.random] gives them, the loop of
    [selectScenario] returns a name: the weights add up to exactly 1,
    so the fallback after the loop is not reached; the name is decided
    by the bounds 0.4, 0.7, 0.85 and 0.9. *)
Theorem selectScenario_bands rand :
  PrimFloat.ltb rand 1 = true ->
  select_from rand 0 scenarioWeights = Some (selectScenario rand) /\
  selectScenario rand
  = if PrimFloat.leb rand 0.4 then "browse"
    else if PrimFloat.leb rand 0.7 then "detail"
    else if PrimFloat.leb rand 0.85 then "login"
    else if PrimFloat.leb rand 0.9 then "invalid"
    else "health".
Proof.
  intros H. apply ltb_leb in H.
  unfold selectScenario, scenarioWeights. cbn [select_from].
  change (0 + 0.40)%float with 0.4%float.
  change (0.4 + 0.30)%float with 0.7%float.
  change (0.7 + 0.15)%float with 0.85%float.
  change (0.85 + 0.05)%float with 0.9%float.
  change (0.9 + 0.10)%float with 1%float.
  rewrite H.
  destruct (PrimFloat.leb rand 0.4); [split; reflexivity|].
  destruct (PrimFloat.leb rand 0.7); [split; reflexivity|].
  destruct (PrimFloat.leb rand 0.85); [split; reflexivity|].
  destruct (PrimFloat.leb rand 0.9); split; reflexivity.
Qed.

(** X23.  Whatever the reading is (NaN and readings beyond 1 included),
    [selectScenario] returns one of the five names the [switch] of the
    default function lists, so its [default] branch is never taken: the
    browse scenario runs only when 'browse' was selected. *)
Theorem selected_scenario_is_a_case rand :
  In (selectScenario rand) ["browse"; "detail"; "login"; "invalid"; "health"]
  /\ (run_scenario (selectScenario rand) = browseCrocodiles <->
      selectScenario rand = "browse").
Proof.
  unfold selectScenario, scenarioWeights. cbn [select_from].
  repeat match goal with
         | |- context [if ?c then _ else _] => destruct c
         end;
    (split; [simpl; tauto|]);
    vm_compute; split; intros H; first [reflexivity | discriminate H].
Qed.

End ScriptProperties.

(* ================================================================== *)
(** * Properties of the extracted checks *)
(* ================================================================== *)

Section ChecksFacts.
Context {B : Builtins}.

Lemma check_entry_Ok check e : check_entry check = Ok e -> e = entry_of check.
Proof.
  unfold check_entry, entry_of. intros H.
  apply bind_Ok in H. destruct H as (n & Hn & H).
  apply bind_Ok in H. destruct H as (p & Hp & H).
  apply bind_Ok in H. destruct H as (f & Hf & H).
  injection H as <-.
  now rewrite (field_get _ _ _ Hn), (field_get _ _ _ Hp), (field_get _ _ _ Hf).
Qed.

Lemma forEach_check_Ok checks es :
  forEach_check checks = Ok es -> es = map entry_of checks.
Proof.
  revert es. induction checks as [|c rest IH]; intros es H; simpl in H.
  - now injection H as <-.
  - apply bind_Ok in H. destruct H as (e & He & H).
    apply bind_Ok in H. destruct H as (more & Hmore & H).
    injection H as <-. simpl.
    now rewrite (check_entry_Ok _ _ He), (IH _ Hmore).
Qed.

Lemma checks_data_Ok summary es :
  checks_data summary = Ok es -> es = map entry_of (checks_of summary).
Proof.
  unfold checks_data, checks_of. intros H.
  apply bind_Ok in H. destruct H as (g & Hg & H).
  rewrite (field_get _ _ _ Hg).
  destruct (truthy g) eqn:Eg.
  - apply bind_Ok in H. destruct H as (checks & Hc & H).
    rewrite (field_get _ _ _ Hc).
    destruct checks; try (now injection H as <-);
      now apply forEach_check_Ok.
  - injection H as <-.
    destruct g as [| |[|]|x|s| |]; try discriminate; reflexivity.
Qed.

End ChecksFacts.

Section ChecksProperties.
Context {B : Builtins}.

(** X24.  Whenever the extractor returns, [checksData] holds one entry for
    each check of the payload, in the order of the payload: no check is
    left out or moved, and a check without a name is called
    'Unknown Check'. *)
Theorem every_check_is_extracted summary m :
  extractK6Metrics summary = Ok m ->
  checksData m = map entry_of (checks_of summary).
Proof.
  unfold extractK6Metrics. intros H.
  apply bind_Ok in H. destruct H as (ms & _ & H).
  apply bind_Ok in H. destruct H as (duration & _ & H).
  apply bind_Ok in H. destruct H as (latency & _ & H).
  destruct latency as [[[[[[p50 p90] p95] p99] avg] min] max].
  apply bind_Ok in H. destruct H as (rate & _ & H).
  apply bind_Ok in H. destruct H as (reqs & _ & H).
  apply bind_Ok in H. destruct H as (traffic & _ & H).
  destruct traffic as [tput total].
  apply bind_Ok in H. destruct H as (its & _ & H).
  apply bind_Ok in H. destruct H as (iters & _ & H).
  apply bind_Ok in H. destruct H as (checks & Hchecks & H).
  apply bind_Ok in H. destruct H as (browse & _ & H).
  apply bind_Ok in H. destruct H as (e1 & _ & H).
  apply bind_Ok in H. destruct H as (api & _ & H).
  apply bind_Ok in H. destruct H as (e2 & _ & H).
  apply bind_Ok in H. destruct H as (p50n & _ & H).
  apply bind_Ok in H. destruct H as (p90n & _ & H).
  apply bind_Ok in H. destruct H as (p95n & _ & H).
  apply bind_Ok in H. destruct H as (p99n & _ & H).
  apply bind_Ok in H. destruct H as (avgn & _ & H).
  apply bind_Ok in H. destruct H as (tputn & _ & H).
  apply bind_Ok in H. destruct H as (text & _ & H).
  injection H as <-. simpl.
  now apply checks_data_Ok.
Qed.

End ChecksProperties.

(* ================================================================== *)
(** * The second part on concrete inputs *)
(* ================================================================== *)

Section SecondEvaluation.
#[local] Existing Instance Reference.builtins.
#[local] Set Warnings "-inexact-float".

(** The summaries of a range of three samples; a second series changes
    nothing. *)
Example summaries_of_a_range :
  calculateAverage (VArray [VObject Incident.cpu_series; Incident.other_series])
  = Ok (Some "11.33") /\
  calculateMax (VArray [VObject Incident.cpu_series; Incident.other_series])
  = Ok (Some "20.50") /\
  calculateAverage (VArray []) = Ok None /\
  calculateMax (VArray [VObject [("values", VArray [VNull])]])
  = Throw TypeError.
Proof. vm_compute. repeat split; reflexivity. Qed.

(** The severities of the notifier: a latency beyond the critical bound,
    failures no critical bound applies to, and no alert table at all. *)
Example severities :
  getSeverity [Incident.starved; Incident.slow] Incident.alerts
  = Ok "critical" /\
  getSeverity [Incident.starved; Incident.hot] Incident.alerts
  = Ok "warning" /\
  getSeverity [Incident.hot] Incident.alerts = Ok "info" /\
  getSeverity [Incident.slow] VUndefined = Ok "info".
Proof. vm_compute. repeat split; reflexivity. Qed.

(** A recipient variable set to the empty text enables the e-mail
    channel, with one empty address. *)
Example empty_recipient :
  EMAIL_TO Incident.env = [""] /\ email_channel Incident.env = true.
Proof. split; reflexivity. Qed.

(** X1 on concrete inputs: two failed checks and no alert table. *)
Lemma notification_success_iff_all_passed_witness :
  notification_severity [Incident.sound; Incident.starved; Incident.hot]
    Sample.metadata = Ok "warning" /\
  ("warning" = "info" \/ "warning" = "warning" \/ "warning" = "critical").
Proof.
  assert (H : notification_severity
                [Incident.sound; Incident.starved; Incident.hot]
                Sample.metadata = Ok "warning") by (vm_compute; reflexivity).
  split; [exact H|].
  apply (proj2 (notification_success_iff_all_passed
                  [Incident.sound; Incident.starved; Incident.hot]
                  Sample.metadata) "warning"); [|exact H].
  right. left. reflexivity.
Defined.

(** X2 on concrete inputs. *)
Lemma critical_iff_a_bound_is_met_witness :
  exists criticalThresholds,
    tier_thresholds Incident.alerts "critical" = Ok criticalThresholds /\
    ("critical" = "critical" <->
     exists r, In r [Incident.starved; Incident.slow] /\
       (meets r "Response Time"
          (field criticalThresholds "p95_response_time_ms") \/
        meets r "Error Rate"
          (field criticalThresholds "max_error_rate_percent"))).
Proof.
  apply (critical_iff_a_bound_is_met [Incident.starved; Incident.slow]
           Incident.alerts "critical").
  - discriminate.
  - vm_compute. reflexivity.
Defined.

(** X3 on concrete inputs. *)
Lemma severity_counts_failures_witness :
  getSeverity [Incident.starved; Incident.hot] Incident.alerts
  = Ok (by_count [Incident.starved; Incident.hot]).
Proof.
  apply (severity_counts_failures [Incident.starved; Incident.hot]
           Incident.alerts
           (VObject [("p95_response_time_ms", VNumber 2000);
                     ("max_error_rate_percent", VNumber 10)])).
  - discriminate.
  - reflexivity.
  - repeat constructor; left; reflexivity.
Defined.

(** X4 on concrete inputs. *)
Lemma severity_ignores_the_order_of_failures_witness :
  getSeverity [Incident.starved; Incident.slow] Incident.alerts
  = getSeverity [Incident.slow; Incident.starved] Incident.alerts.
Proof.
  apply (severity_ignores_the_order_of_failures
           [Incident.starved; Incident.slow] [Incident.slow; Incident.starved]
           Incident.alerts
           (VObject [("p95_response_time_ms", VNumber 2000);
                     ("max_error_rate_percent", VNumber 10)])).
  - reflexivity.
  - exact I.
  - exact I.
  - apply perm_swap.
Defined.

(** X7 on concrete inputs. *)
Lemma calculateMax_is_the_largest_sample_witness :
  exists m,
    calculateMax (VArray [VObject Incident.cpu_series; Incident.other_series])
    = Ok (Some (Number_toFixed m 2)) /\
    In m [10.5%float; 20.5%float; 3%float] /\
    Forall (fun x => PrimFloat.leb x m = true)
      [10.5%float; 20.5%float; 3%float].
Proof.
  apply (calculateMax_is_the_largest_sample_of_the_first_series
           Incident.cpu_series [Incident.other_series]
           (Incident.point 1 "10.5")
           [Incident.point 2 "20.5"; Incident.point 3 "3"]).
  - reflexivity.
  - vm_compute. reflexivity.
  - repeat constructor.
Defined.

(** X9 on concrete inputs. *)
Lemma rejected_requests_back_off_witness :
  queryPrometheusRange 1000 "up" 3 (fun _ => Rejected)
  = (RangeResult.Failed (Some Caught),
     [Request 1; Sleep 1000; Request 2; Sleep 2000; Request 3]) /\
  queryPrometheusInstant 1000 3 (fun _ => Rejected)
  = (VArray [], [Request 1; Sleep 1000; Request 2; Sleep 2000; Request 3]).
Proof.
  apply (rejected_requests_back_off 1000 "up" 3 (fun _ => Rejected)).
  - lia.
  - intros k _. reflexivity.
Defined.

(** X10 on concrete inputs. *)
Lemma unsuccessful_responses_are_retried_at_once_witness :
  queryPrometheusRange 1000 "up" 3 (fun _ => Incident.unsuccessful)
  = (RangeResult.Failed (Some Unsuccessful), [Request 1; Request 2; Request 3]).
Proof.
  apply (unsuccessful_responses_are_retried_at_once 1000 "up" 3
           (fun _ => Incident.unsuccessful)).
  - lia.
  - intros k _. reflexivity.
Defined.

(** X11 on concrete inputs. *)
Lemma first_successful_attempt_wins_witness :
  exists trace,
    queryPrometheusRange 1000 "up" 3 Incident.second_time
    = (RangeResult.Found (VArray [VObject Incident.cpu_series]) "up", trace) /\
    requests trace = [1; 2].
Proof.
  apply (first_successful_attempt_wins 1000 "up" 3 Incident.second_time 2
           (VArray [VObject Incident.cpu_series])).
  - simpl. lia.
  - intros j Hj. assert (j = 1) by lia. subst j. exists Caught. reflexivity.
  - reflexivity.
Defined.

(** X12 on concrete inputs. *)
Lemma usage_summary_survives_instant_metrics_witness :
  infraMetrics_of (queryObservability Incident.env (Ok Incident.health))
  = {| avgCpuUsage := "11.33"; maxCpuUsage := "20.50";
       avgMemoryUsage := "N/A"; maxMemoryUsage := "N/A" |}.
Proof.
  apply (usage_summary_survives_instant_metrics Incident.env Incident.health).
  reflexivity.
Defined.

(** X13 on concrete inputs. *)
Lemma failed_range_queries_leave_no_infrastructure_check_witness :
  infraMetrics_of
    (queryObservability Incident.env
       (getSystemHealthSummary (VObject []) (VString Incident.iso)
          (VString Incident.iso) (RangeResult.Failed (Some Caught))
          (RangeResult.Failed (Some Unsuccessful))))
  = {| avgCpuUsage := "N/A"; maxCpuUsage := "N/A";
       avgMemoryUsage := "N/A"; maxMemoryUsage := "N/A" |} /\
  Forall (fun r => metric r <> "CPU Usage (%)"
                   /\ metric r <> "Memory Usage (%)")
    (firstn 6 Sample.validationResults).
Proof.
  destruct (failed_range_queries_leave_no_infrastructure_check Incident.env
              (VObject []) (VString Incident.iso) (VString Incident.iso)
              (Some Caught) (Some Unsuccessful) Sample.k6Metrics "default"
              Sample.slaConfig) as (_ & Hi & Hrs).
  split; [exact Hi|]. apply Hrs. vm_compute. reflexivity.
Defined.

(** X14 on concrete inputs. *)
Lemma nan_measurement_fails_its_check_witness :
  exists rs r,
    validateAgainstSLA Sample.k6Metrics Incident.garbled "default"
      Sample.slaConfig = Ok rs /\
    nth_error rs 6 = Some r /\
    metric r = "CPU Usage (%)" /\
    passed r = false.
Proof.
  eexists. eexists. split; [vm_compute; reflexivity|].
  split; [reflexivity|]. split; [reflexivity|].
  eapply (nan_measurement_fails_its_check Sample.k6Metrics Incident.garbled
            "default" Sample.slaConfig _ _
            (parseFloat_string "unknown")).
  - vm_compute. reflexivity.
  - do 6 right. left. reflexivity.
  - reflexivity.
  - vm_compute. reflexivity.
Defined.

(** X17 on concrete inputs. *)
Lemma junit_failure_is_verbatim_witness :
  exists text,
    generateJUnitReport [Incident.slow; Incident.sound] Sample.metadata
      Incident.iso = Ok text /\
    includes text
      (attribute "message" "P95 Response Time (ms) exceeded threshold")
    = true /\
    includes text
      ("Expected: <= 1500" ++ newline
       ++ "                Actual: 2500.00" ++ newline) = true.
Proof.
  eexists. split; [vm_compute; reflexivity|].
  apply (junit_failure_is_verbatim [Incident.slow; Incident.sound]
           Sample.metadata Incident.iso _ Incident.slow).
  - vm_compute. reflexivity.
  - now left.
  - reflexivity.
Defined.

(** X19 on concrete inputs. *)
Lemma every_validation_result_is_recorded_witness :
  exists metrics,
    field (history_entry Sample.validationResults Sample.metadata
             1700000000000 Incident.iso) "metrics" = VObject metrics /\
    List.length metrics = List.length Sample.validationResults /\
    forall r, In r Sample.validationResults ->
              prop (metric r) metrics = recorded r.
Proof.
  apply (every_validation_result_is_recorded Sample.k6Metrics
           Sample.infraMetrics "default" Sample.slaConfig
           Sample.validationResults Sample.metadata 1700000000000
           Incident.iso).
  vm_compute. reflexivity.
Defined.

(** X20 on concrete inputs. *)
Lemma stored_history_must_be_an_array_witness :
  saveToHistory Sample.validationResults Sample.metadata 1700000000000
    Incident.iso (Stored (VObject [])) = Throw TypeError /\
  saveToHistory Sample.validationResults Sample.metadata 1700000000000
    Incident.iso Unparseable
  = Ok ([history_entry Sample.validationResults Sample.metadata
           1700000000000 Incident.iso],
        Stored
          (VArray
             [JSON_value
                (history_entry Sample.validationResults Sample.metadata
                   1700000000000 Incident.iso)])).
Proof.
  destruct (stored_history_must_be_an_array Sample.validationResults
              Sample.metadata 1700000000000 Incident.iso)
    as (Hraise & Hfresh & _).
  split; [|exact Hfresh].
  apply Hraise. intros records. discriminate.
Defined.

(** X21 on concrete inputs: the two runs of the sample history, and the
    points of the p95 latency. *)
Lemma chart_datasets_are_aligned_witness :
  exists datasets,
    chartDatasets [Sample.previous_run; Sample.current_run] = Ok datasets /\
    lookup "P95 Response Time (ms)" datasets
    = Some (VArray [VNumber 100; VNumber 120]) /\
    exists points,
      VArray [VNumber 100; VNumber 120] = VArray points /\
      List.length points = 2 /\
      forall i h,
        nth_error [Sample.previous_run; Sample.current_run] i = Some h ->
        exists point,
          nth_error points i = Some point /\
          plotted "P95 Response Time (ms)" h point.
Proof.
  eexists.
  assert (H : chartDatasets [Sample.previous_run; Sample.current_run]
              = Ok _) by (vm_compute; reflexivity).
  split; [exact H|].
  destruct (chart_datasets_are_aligned _ _ H) as (_ & _ & Hpoints).
  split; [reflexivity|].
  exact (Hpoints "P95 Response Time (ms)" _ eq_refl).
Defined.

(** X22 on concrete inputs. *)
Lemma selectScenario_bands_witness :
  select_from 0.5 0 scenarioWeights = Some (selectScenario 0.5) /\
  selectScenario 0.5
  = if PrimFloat.leb 0.5 0.4 then "browse"
    else if PrimFloat.leb 0.5 0.7 then "detail"
    else if PrimFloat.leb 0.5 0.85 then "login"
    else if PrimFloat.leb 0.5 0.9 then "invalid"
    else "health".
Proof. apply (selectScenario_bands 0.5). reflexivity. Defined.

(** X24 on concrete inputs. *)
Lemma every_check_is_extracted_witness :
  checksData Sample.extracted = map entry_of (checks_of Sample.summary).
Proof.
  apply (every_check_is_extracted Sample.summary Sample.extracted).
  vm_compute. reflexivity.
Defined.

End SecondEvaluation.
